(** * Moonlight Embedded: the FFmpeg video decode pipeline

    A shallow embedding of [src/video/ffmpeg.c]: decoder selection
    ([ffmpeg_init]), hardware-acceleration negotiation ([hwaccel_setup],
    [get_hw_format]), the ring of decoded frames ([ffmpeg_get_frame]),
    packet submission ([ffmpeg_decode]) and teardown ([ffmpeg_destroy]).

    The C file keeps its whole state in file-level statics and talks to
    libavcodec/libavutil.  Here the statics are the fields of [State], the
    objects the library hands out live in typed pools (one per C pointer
    type), and every library call whose outcome the program inspects is
    answered by a [World]: the n-th call of a library function returns what
    the world says for that function and n.  Undefined behaviour of the C
    code itself (NULL dereference, out-of-bounds or indeterminate array
    read, signed overflow, division by zero) is the [None] of the monad. *)

From stdpp Require Import base option list gmap strings.
From Stdlib Require Import ZArith Lia.

Open Scope Z_scope.

(** ** Values of the libavcodec / libavutil public headers *)

Module libav.
Definition AV_PIX_FMT_NONE : Z := -1.
Definition AV_PIX_FMT_YUV420P : Z := 0.
Definition AV_HWDEVICE_TYPE_NONE : Z := 0.
Definition AV_CODEC_HW_CONFIG_METHOD_HW_DEVICE_CTX : Z := 1.
Definition AV_CODEC_FLAG_OUTPUT_CORRUPT : Z := Z.shiftl 1 3.
Definition AV_CODEC_FLAG_LOW_DELAY : Z := Z.shiftl 1 19.
Definition AV_CODEC_FLAG2_SHOW_ALL : Z := Z.shiftl 1 22.
Definition AV_EF_EXPLODE : Z := Z.shiftl 1 3.
Definition FF_THREAD_SLICE : Z := 2.
Definition EAGAIN : Z := 11.
Definition AVERROR (e : Z) : Z := - e.
End libav.
Import libav.

Definition INT_MIN : Z := -2147483648.
Definition INT_MAX : Z := 2147483647.

(** ** Data *)

Definition addr := nat.
(** A C pointer: [None] is NULL. *)
Definition ptr := option addr.

(** [AVCodecHWConfig], the three members the program reads. *)
Record AVCodecHWConfig := {
  methods : Z;
  device_type : Z;
  config_pix_fmt : Z
}.

(** [AVCodec]: its name and the hardware configurations that
    [avcodec_get_hw_config (decoder, i)] enumerates (NULL past the end). *)
Record AVCodec := {
  name : string;
  hw_configs : list AVCodecHWConfig
}.

Definition avcodec_get_hw_config (c : AVCodec) (i : nat) : option AVCodecHWConfig :=
  hw_configs c !! i.

(** The [get_format] member of a codec context: the library's own callback or
    the program's [get_hw_format]. *)
Inductive format_callback := avcodec_default_get_format | get_hw_format_callback.

(** [AVCodecContext], the members the program writes. *)
Record AVCodecContext := {
  codec : AVCodec;
  flags : Z;
  flags2 : Z;
  err_recognition : Z;
  thread_type : Z;
  thread_count : Z;
  width : Z;
  height : Z;
  pix_fmt : Z;
  get_format : format_callback;
  ctx_hw_device_ctx : ptr
}.

(** [AVPacket]: the buffer handed to the decoder and its length. *)
Record AVPacket := {
  pkt_data : list Byte.byte;
  pkt_size : Z
}.

(** [AVFrame]: the pixel planes are left to the library; the program only
    reads [format]. *)
Record AVFrame := {
  format : Z
}.

(** [AVBufferRef] to a hardware device: the reference names the device it
    keeps alive. *)
Record AVBufferRef := {
  device : addr;
  device_kind : Z
}.

(** One element of the [AVFrame**] array: [malloc] returns it indeterminate. *)
Inductive cell := Indeterminate | Pointer (p : ptr).

(** Modelled from the spec: [enum decoders] is declared in [ffmpeg.h], which
    is not among the sources.  The spec distinguishes a software decoder from
    a hardware-accelerated one; [ffmpeg_init] stores [SOFTWARE] or [VAAPI]. *)
Inductive decoders := SOFTWARE | VAAPI.

Global Instance decoders_eq_dec : EqDecision decoders.
Proof. solve_decision. Defined.

(** The macros of [Limelight.h] and [ffmpeg.h] that [ffmpeg_init] tests its
    arguments against, and whether the build defines [HAVE_VAAPI].  The
    headers are not among the sources: the values are parameters. *)
Record Macros := {
  VIDEO_FORMAT_MASK_H264 : Z;
  VIDEO_FORMAT_MASK_H265 : Z;
  VIDEO_FORMAT_MASK_AV1 : Z;
  VAAPI_ACCELERATION : Z;
  SLICE_THREADING : Z;
  HAVE_VAAPI : bool
}.

(** ** The library as the program sees it *)

(** Library functions whose result the program depends on. *)
Inductive extcall :=
  | AvPacketAlloc | AvcodecAllocContext3 | AvHwdeviceCtxCreate | AvBufferRef
  | AvcodecOpen2 | Malloc | AvFrameAlloc | AvcodecReceiveFrame
  | AvHwframeTransferData | AvcodecSendPacket.

Global Instance extcall_eq_dec : EqDecision extcall.
Proof. solve_decision. Defined.

(** [registry] is [avcodec_find_decoder_by_name].  [answer c n] is what the
    n-th call of [c] returns: an error code, or for an allocator zero for NULL.
    [decoded_format n] is the pixel format of the frame that the n-th
    [avcodec_receive_frame] writes when it succeeds.  [fresh_context] is the
    context [avcodec_alloc_context3] builds for a codec. *)
Record World := {
  registry : string -> option AVCodec;
  answer : extcall -> nat -> Z;
  decoded_format : nat -> Z;
  fresh_context : AVCodec -> AVCodecContext
}.

Inductive stream := stdout | stderr.

(** What an observer of the process sees, in order. *)
Inductive event :=
  | Print (out : stream) (text : string)
  | Lookup (decoder_name : string) (found : bool)
  | AllocContext (decoder_name : string) (ctx : ptr)
  | HwDeviceCreate (type : Z) (err : Z)
  | Open (ctx : addr) (decoder_name : string) (fmt : Z) (err : Z)
  | FreeContext (ctx : addr)
  | VaapiInit (ctx : ptr)
  | Receive (ctx : ptr) (slot : Z) (frame : ptr) (err : Z)
  | Transfer (dst : ptr) (src : ptr) (err : Z)
  | Send (ctx : ptr) (len : Z) (err : Z)
  | InvalidFree (a : addr).

(** ** Program state: the statics of ffmpeg.c, the typed pools, the calls made
    so far and the trace *)

Record State := {
  pkt : ptr;
  decoder : option AVCodec;
  decoder_ctx : ptr;
  dec_frames : ptr;
  hw_device_ctx : ptr;
  hw_pix_fmt : Z;
  sw_frame : ptr;
  dec_frames_cnt : Z;
  current_frame : Z;
  next_frame : Z;
  ffmpeg_decoder : decoders;
  packets : gmap addr AVPacket;
  contexts : gmap addr AVCodecContext;
  frames : gmap addr AVFrame;
  buffers : gmap addr AVBufferRef;
  arrays : gmap addr (list cell);
  brk : addr;
  calls : extcall -> nat;
  log : list event
}.

(** Statics have static storage duration: all bits zero at process start, so
    [hw_pix_fmt] starts as pixel format 0 and the ring indices as 0. *)
Definition process_start : State :=
  {| pkt := None; decoder := None; decoder_ctx := None; dec_frames := None;
     hw_device_ctx := None; hw_pix_fmt := 0; sw_frame := None; dec_frames_cnt := 0;
     current_frame := 0; next_frame := 0; ffmpeg_decoder := SOFTWARE;
     packets := ∅; contexts := ∅; frames := ∅; buffers := ∅; arrays := ∅;
     brk := 1%nat; calls := fun _ => 0%nat; log := [] |}.

Definition set_pkt (v : ptr) (s : State) : State :=
  {| pkt := v; decoder := decoder s; decoder_ctx := decoder_ctx s; dec_frames := dec_frames s;
     hw_device_ctx := hw_device_ctx s; hw_pix_fmt := hw_pix_fmt s; sw_frame := sw_frame s;
     dec_frames_cnt := dec_frames_cnt s; current_frame := current_frame s;
     next_frame := next_frame s; ffmpeg_decoder := ffmpeg_decoder s; packets := packets s;
     contexts := contexts s; frames := frames s; buffers := buffers s; arrays := arrays s;
     brk := brk s; calls := calls s; log := log s |}.
Definition set_decoder (v : option AVCodec) (s : State) : State :=
  {| pkt := pkt s; decoder := v; decoder_ctx := decoder_ctx s; dec_frames := dec_frames s;
     hw_device_ctx := hw_device_ctx s; hw_pix_fmt := hw_pix_fmt s; sw_frame := sw_frame s;
     dec_frames_cnt := dec_frames_cnt s; current_frame := current_frame s;
     next_frame := next_frame s; ffmpeg_decoder := ffmpeg_decoder s; packets := packets s;
     contexts := contexts s; frames := frames s; buffers := buffers s; arrays := arrays s;
     brk := brk s; calls := calls s; log := log s |}.
Definition set_decoder_ctx (v : ptr) (s : State) : State :=
  {| pkt := pkt s; decoder := decoder s; decoder_ctx := v; dec_frames := dec_frames s;
     hw_device_ctx := hw_device_ctx s; hw_pix_fmt := hw_pix_fmt s; sw_frame := sw_frame s;
     dec_frames_cnt := dec_frames_cnt s; current_frame := current_frame s;
     next_frame := next_frame s; ffmpeg_decoder := ffmpeg_decoder s; packets := packets s;
     contexts := contexts s; frames := frames s; buffers := buffers s; arrays := arrays s;
     brk := brk s; calls := calls s; log := log s |}.
Definition set_dec_frames (v : ptr) (s : State) : State :=
  {| pkt := pkt s; decoder := decoder s; decoder_ctx := decoder_ctx s; dec_frames := v;
     hw_device_ctx := hw_device_ctx s; hw_pix_fmt := hw_pix_fmt s; sw_frame := sw_frame s;
     dec_frames_cnt := dec_frames_cnt s; current_frame := current_frame s;
     next_frame := next_frame s; ffmpeg_decoder := ffmpeg_decoder s; packets := packets s;
     contexts := contexts s; frames := frames s; buffers := buffers s; arrays := arrays s;
     brk := brk s; calls := calls s; log := log s |}.
Definition set_hw_device_ctx (v : ptr) (s : State) : State :=
  {| pkt := pkt s; decoder := decoder s; decoder_ctx := decoder_ctx s;
     dec_frames := dec_frames s; hw_device_ctx := v; hw_pix_fmt := hw_pix_fmt s;
     sw_frame := sw_frame s; dec_frames_cnt := dec_frames_cnt s;
     current_frame := current_frame s; next_frame := next_frame s;
     ffmpeg_decoder := ffmpeg_decoder s; packets := packets s; contexts := contexts s;
     frames := frames s; buffers := buffers s; arrays := arrays s; brk := brk s;
     calls := calls s; log := log s |}.
Definition set_hw_pix_fmt (v : Z) (s : State) : State :=
  {| pkt := pkt s; decoder := decoder s; decoder_ctx := decoder_ctx s;
     dec_frames := dec_frames s; hw_device_ctx := hw_device_ctx s; hw_pix_fmt := v;
     sw_frame := sw_frame s; dec_frames_cnt := dec_frames_cnt s;
     current_frame := current_frame s; next_frame := next_frame s;
     ffmpeg_decoder := ffmpeg_decoder s; packets := packets s; contexts := contexts s;
     frames := frames s; buffers := buffers s; arrays := arrays s; brk := brk s;
     calls := calls s; log := log s |}.
Definition set_sw_frame (v : ptr) (s : State) : State :=
  {| pkt := pkt s; decoder := decoder s; decoder_ctx := decoder_ctx s;
     dec_frames := dec_frames s; hw_device_ctx := hw_device_ctx s; hw_pix_fmt := hw_pix_fmt s;
     sw_frame := v; dec_frames_cnt := dec_frames_cnt s; current_frame := current_frame s;
     next_frame := next_frame s; ffmpeg_decoder := ffmpeg_decoder s; packets := packets s;
     contexts := contexts s; frames := frames s; buffers := buffers s; arrays := arrays s;
     brk := brk s; calls := calls s; log := log s |}.
Definition set_dec_frames_cnt (v : Z) (s : State) : State :=
  {| pkt := pkt s; decoder := decoder s; decoder_ctx := decoder_ctx s;
     dec_frames := dec_frames s; hw_device_ctx := hw_device_ctx s; hw_pix_fmt := hw_pix_fmt s;
     sw_frame := sw_frame s; dec_frames_cnt := v; current_frame := current_frame s;
     next_frame := next_frame s; ffmpeg_decoder := ffmpeg_decoder s; packets := packets s;
     contexts := contexts s; frames := frames s; buffers := buffers s; arrays := arrays s;
     brk := brk s; calls := calls s; log := log s |}.
Definition set_current_frame (v : Z) (s : State) : State :=
  {| pkt := pkt s; decoder := decoder s; decoder_ctx := decoder_ctx s;
     dec_frames := dec_frames s; hw_device_ctx := hw_device_ctx s; hw_pix_fmt := hw_pix_fmt s;
     sw_frame := sw_frame s; dec_frames_cnt := dec_frames_cnt s; current_frame := v;
     next_frame := next_frame s; ffmpeg_decoder := ffmpeg_decoder s; packets := packets s;
     contexts := contexts s; frames := frames s; buffers := buffers s; arrays := arrays s;
     brk := brk s; calls := calls s; log := log s |}.
Definition set_next_frame (v : Z) (s : State) : State :=
  {| pkt := pkt s; decoder := decoder s; decoder_ctx := decoder_ctx s;
     dec_frames := dec_frames s; hw_device_ctx := hw_device_ctx s; hw_pix_fmt := hw_pix_fmt s;
     sw_frame := sw_frame s; dec_frames_cnt := dec_frames_cnt s;
     current_frame := current_frame s; next_frame := v; ffmpeg_decoder := ffmpeg_decoder s;
     packets := packets s; contexts := contexts s; frames := frames s; buffers := buffers s;
     arrays := arrays s; brk := brk s; calls := calls s; log := log s |}.
Definition set_ffmpeg_decoder (v : decoders) (s : State) : State :=
  {| pkt := pkt s; decoder := decoder s; decoder_ctx := decoder_ctx s;
     dec_frames := dec_frames s; hw_device_ctx := hw_device_ctx s; hw_pix_fmt := hw_pix_fmt s;
     sw_frame := sw_frame s; dec_frames_cnt := dec_frames_cnt s;
     current_frame := current_frame s; next_frame := next_frame s; ffmpeg_decoder := v;
     packets := packets s; contexts := contexts s; frames := frames s; buffers := buffers s;
     arrays := arrays s; brk := brk s; calls := calls s; log := log s |}.
Definition set_packets (v : gmap addr AVPacket) (s : State) : State :=
  {| pkt := pkt s; decoder := decoder s; decoder_ctx := decoder_ctx s;
     dec_frames := dec_frames s; hw_device_ctx := hw_device_ctx s; hw_pix_fmt := hw_pix_fmt s;
     sw_frame := sw_frame s; dec_frames_cnt := dec_frames_cnt s;
     current_frame := current_frame s; next_frame := next_frame s;
     ffmpeg_decoder := ffmpeg_decoder s; packets := v; contexts := contexts s;
     frames := frames s; buffers := buffers s; arrays := arrays s; brk := brk s;
     calls := calls s; log := log s |}.
Definition set_contexts (v : gmap addr AVCodecContext) (s : State) : State :=
  {| pkt := pkt s; decoder := decoder s; decoder_ctx := decoder_ctx s;
     dec_frames := dec_frames s; hw_device_ctx := hw_device_ctx s; hw_pix_fmt := hw_pix_fmt s;
     sw_frame := sw_frame s; dec_frames_cnt := dec_frames_cnt s;
     current_frame := current_frame s; next_frame := next_frame s;
     ffmpeg_decoder := ffmpeg_decoder s; packets := packets s; contexts := v;
     frames := frames s; buffers := buffers s; arrays := arrays s; brk := brk s;
     calls := calls s; log := log s |}.
Definition set_frames (v : gmap addr AVFrame) (s : State) : State :=
  {| pkt := pkt s; decoder := decoder s; decoder_ctx := decoder_ctx s;
     dec_frames := dec_frames s; hw_device_ctx := hw_device_ctx s; hw_pix_fmt := hw_pix_fmt s;
     sw_frame := sw_frame s; dec_frames_cnt := dec_frames_cnt s;
     current_frame := current_frame s; next_frame := next_frame s;
     ffmpeg_decoder := ffmpeg_decoder s; packets := packets s; contexts := contexts s;
     frames := v; buffers := buffers s; arrays := arrays s; brk := brk s; calls := calls s;
     log := log s |}.
Definition set_buffers (v : gmap addr AVBufferRef) (s : State) : State :=
  {| pkt := pkt s; decoder := decoder s; decoder_ctx := decoder_ctx s;
     dec_frames := dec_frames s; hw_device_ctx := hw_device_ctx s; hw_pix_fmt := hw_pix_fmt s;
     sw_frame := sw_frame s; dec_frames_cnt := dec_frames_cnt s;
     current_frame := current_frame s; next_frame := next_frame s;
     ffmpeg_decoder := ffmpeg_decoder s; packets := packets s; contexts := contexts s;
     frames := frames s; buffers := v; arrays := arrays s; brk := brk s; calls := calls s;
     log := log s |}.
Definition set_arrays (v : gmap addr (list cell)) (s : State) : State :=
  {| pkt := pkt s; decoder := decoder s; decoder_ctx := decoder_ctx s;
     dec_frames := dec_frames s; hw_device_ctx := hw_device_ctx s; hw_pix_fmt := hw_pix_fmt s;
     sw_frame := sw_frame s; dec_frames_cnt := dec_frames_cnt s;
     current_frame := current_frame s; next_frame := next_frame s;
     ffmpeg_decoder := ffmpeg_decoder s; packets := packets s; contexts := contexts s;
     frames := frames s; buffers := buffers s; arrays := v; brk := brk s; calls := calls s;
     log := log s |}.
Definition set_brk (v : addr) (s : State) : State :=
  {| pkt := pkt s; decoder := decoder s; decoder_ctx := decoder_ctx s;
     dec_frames := dec_frames s; hw_device_ctx := hw_device_ctx s; hw_pix_fmt := hw_pix_fmt s;
     sw_frame := sw_frame s; dec_frames_cnt := dec_frames_cnt s;
     current_frame := current_frame s; next_frame := next_frame s;
     ffmpeg_decoder := ffmpeg_decoder s; packets := packets s; contexts := contexts s;
     frames := frames s; buffers := buffers s; arrays := arrays s; brk := v; calls := calls s;
     log := log s |}.
Definition set_calls (v : extcall -> nat) (s : State) : State :=
  {| pkt := pkt s; decoder := decoder s; decoder_ctx := decoder_ctx s;
     dec_frames := dec_frames s; hw_device_ctx := hw_device_ctx s; hw_pix_fmt := hw_pix_fmt s;
     sw_frame := sw_frame s; dec_frames_cnt := dec_frames_cnt s;
     current_frame := current_frame s; next_frame := next_frame s;
     ffmpeg_decoder := ffmpeg_decoder s; packets := packets s; contexts := contexts s;
     frames := frames s; buffers := buffers s; arrays := arrays s; brk := brk s; calls := v;
     log := log s |}.
Definition set_log (v : list event) (s : State) : State :=
  {| pkt := pkt s; decoder := decoder s; decoder_ctx := decoder_ctx s;
     dec_frames := dec_frames s; hw_device_ctx := hw_device_ctx s; hw_pix_fmt := hw_pix_fmt s;
     sw_frame := sw_frame s; dec_frames_cnt := dec_frames_cnt s;
     current_frame := current_frame s; next_frame := next_frame s;
     ffmpeg_decoder := ffmpeg_decoder s; packets := packets s; contexts := contexts s;
     frames := frames s; buffers := buffers s; arrays := arrays s; brk := brk s;
     calls := calls s; log := v |}.

(** ** The monad of the embedding: state, with [None] for undefined behaviour *)

Definition M (A : Type) : Type := State -> option (A * State).

Definition ret {A} (a : A) : M A := fun s => Some (a, s).
Definition bind {A B} (m : M A) (k : A -> M B) : M B :=
  fun s => match m s with
           | Some (a, s') => k a s'
           | None => None
           end.
Definition undefined {A} : M A := fun _ => None.
Definition read {A} (f : State -> A) : M A := fun s => Some (f s, s).
Definition modify (f : State -> State) : M unit := fun s => Some (tt, f s).

Notation "'let*' x ':=' m 'in' k" := (bind m (fun x => k))
  (at level 10, x binder, m at level 100, k at level 200).
Notation "m ';;' k" := (bind m (fun _ => k))
  (at level 100, k at level 200, right associativity).

Definition when (b : bool) (m : M unit) : M unit := if b then m else ret tt.

(** Control after one iteration of the loop of [ffmpeg_init]: go on with the
    next iteration ([continue], or the end of the body), or leave the function. *)
Inductive ctl := Next | Return (r : Z).

(** C [int] arithmetic: overflow and division by zero are undefined. *)
Definition int_add (a b : Z) : M Z :=
  if (INT_MIN <=? a + b) && (a + b <=? INT_MAX) then ret (a + b) else undefined.
Definition int_rem (a b : Z) : M Z :=
  if (b =? 0) || ((a =? INT_MIN) && (b =? -1)) then undefined else ret (Z.rem a b).

Definition emit (e : event) : M unit := modify (fun s => set_log (log s ++ [e]) s).
Definition printf (text : string) : M unit := emit (Print stdout text).
Definition fprintf_stderr (text : string) : M unit := emit (Print stderr text).

Definition bump (c : extcall) (n : extcall -> nat) : extcall -> nat :=
  fun c' => if decide (c' = c) then S (n c') else n c'.

Definition next_addr : M addr :=
  fun s => Some (brk s, set_brk (S (brk s)) s).

(** Dereferences of the statics. *)
Definition update_ctx (f : AVCodecContext -> AVCodecContext) : M unit :=
  fun s => match decoder_ctx s with
           | Some a =>
               match contexts s !! a with
               | Some c => Some (tt, set_contexts (<[a := f c]> (contexts s)) s)
               | None => None
               end
           | None => None
           end.

Definition update_pkt (f : AVPacket -> AVPacket) : M unit :=
  fun s => match pkt s with
           | Some a =>
               match packets s !! a with
               | Some p => Some (tt, set_packets (<[a := f p]> (packets s)) s)
               | None => None
               end
           | None => None
           end.

(** [dec_frames[i]] as an rvalue and as an lvalue. *)
Definition load_slot (i : Z) : M ptr :=
  fun s => match dec_frames s with
           | Some arr =>
               match arrays s !! arr with
               | Some cells =>
                   if i <? 0 then None else
                   match cells !! Z.to_nat i with
                   | Some (Pointer p) => Some (p, s)
                   | _ => None
                   end
               | None => None
               end
           | None => None
           end.

Definition store_slot (i : Z) (p : ptr) : M unit :=
  fun s => match dec_frames s with
           | Some arr =>
               match arrays s !! arr with
               | Some cells =>
                   if (i <? 0) || (Z.of_nat (length cells) <=? i) then None else
                   Some (tt, set_arrays (<[arr := <[Z.to_nat i := Pointer p]> cells]> (arrays s)) s)
               | None => None
               end
           | None => None
           end.

(** [frame->format] *)
Definition frame_format (frame : ptr) : M Z :=
  fun s => match frame with
           | Some a => match frames s !! a with
                       | Some f => Some (format f, s)
                       | None => None
                       end
           | None => None
           end.

Definition set_flags v c :=
  {| codec := codec c; flags := v; flags2 := flags2 c; err_recognition := err_recognition c;
     thread_type := thread_type c; thread_count := thread_count c; width := width c;
     height := height c; pix_fmt := pix_fmt c; get_format := get_format c;
     ctx_hw_device_ctx := ctx_hw_device_ctx c |}.
Definition set_flags2 v c :=
  {| codec := codec c; flags := flags c; flags2 := v; err_recognition := err_recognition c;
     thread_type := thread_type c; thread_count := thread_count c; width := width c;
     height := height c; pix_fmt := pix_fmt c; get_format := get_format c;
     ctx_hw_device_ctx := ctx_hw_device_ctx c |}.
Definition set_err_recognition v c :=
  {| codec := codec c; flags := flags c; flags2 := flags2 c; err_recognition := v;
     thread_type := thread_type c; thread_count := thread_count c; width := width c;
     height := height c; pix_fmt := pix_fmt c; get_format := get_format c;
     ctx_hw_device_ctx := ctx_hw_device_ctx c |}.
Definition set_thread_type v c :=
  {| codec := codec c; flags := flags c; flags2 := flags2 c; err_recognition := err_recognition c;
     thread_type := v; thread_count := thread_count c; width := width c;
     height := height c; pix_fmt := pix_fmt c; get_format := get_format c;
     ctx_hw_device_ctx := ctx_hw_device_ctx c |}.
Definition set_thread_count v c :=
  {| codec := codec c; flags := flags c; flags2 := flags2 c; err_recognition := err_recognition c;
     thread_type := thread_type c; thread_count := v; width := width c;
     height := height c; pix_fmt := pix_fmt c; get_format := get_format c;
     ctx_hw_device_ctx := ctx_hw_device_ctx c |}.
Definition set_width v c :=
  {| codec := codec c; flags := flags c; flags2 := flags2 c; err_recognition := err_recognition c;
     thread_type := thread_type c; thread_count := thread_count c; width := v;
     height := height c; pix_fmt := pix_fmt c; get_format := get_format c;
     ctx_hw_device_ctx := ctx_hw_device_ctx c |}.
Definition set_height v c :=
  {| codec := codec c; flags := flags c; flags2 := flags2 c; err_recognition := err_recognition c;
     thread_type := thread_type c; thread_count := thread_count c; width := width c;
     height := v; pix_fmt := pix_fmt c; get_format := get_format c;
     ctx_hw_device_ctx := ctx_hw_device_ctx c |}.
Definition set_pix_fmt v c :=
  {| codec := codec c; flags := flags c; flags2 := flags2 c; err_recognition := err_recognition c;
     thread_type := thread_type c; thread_count := thread_count c; width := width c;
     height := height c; pix_fmt := v; get_format := get_format c;
     ctx_hw_device_ctx := ctx_hw_device_ctx c |}.
Definition set_get_format v c :=
  {| codec := codec c; flags := flags c; flags2 := flags2 c; err_recognition := err_recognition c;
     thread_type := thread_type c; thread_count := thread_count c; width := width c;
     height := height c; pix_fmt := pix_fmt c; get_format := v;
     ctx_hw_device_ctx := ctx_hw_device_ctx c |}.
Definition set_ctx_hw_device_ctx v c :=
  {| codec := codec c; flags := flags c; flags2 := flags2 c; err_recognition := err_recognition c;
     thread_type := thread_type c; thread_count := thread_count c; width := width c;
     height := height c; pix_fmt := pix_fmt c; get_format := get_format c;
     ctx_hw_device_ctx := v |}.

Section Program.

Context (hdr : Macros) (w : World).

(** ** Library calls *)

(** The n-th call of [c] gets the world's n-th answer for [c]. *)
Definition extern (c : extcall) : M Z :=
  fun s => Some (answer w c (calls s c), set_calls (bump c (calls s)) s).

Definition avcodec_find_decoder_by_name (nm : string) : M (option AVCodec) :=
  emit (Lookup nm (bool_decide (is_Some (registry w nm)))) ;;
  ret (registry w nm).

Definition av_packet_alloc : M ptr :=
  let* r := extern AvPacketAlloc in
  if r =? 0 then ret None else
  let* a := next_addr in
  modify (fun s => set_packets (<[a := {| pkt_data := []; pkt_size := 0 |}]> (packets s)) s) ;;
  ret (Some a).

Definition avcodec_alloc_context3 (c : AVCodec) : M ptr :=
  let* r := extern AvcodecAllocContext3 in
  if r =? 0 then emit (AllocContext (name c) None) ;; ret None else
  let* a := next_addr in
  modify (fun s => set_contexts (<[a := fresh_context w c]> (contexts s)) s) ;;
  emit (AllocContext (name c) (Some a)) ;;
  ret (Some a).

Definition av_frame_alloc : M ptr :=
  let* r := extern AvFrameAlloc in
  if r =? 0 then ret None else
  let* a := next_addr in
  modify (fun s => set_frames (<[a := {| format := AV_PIX_FMT_NONE |}]> (frames s)) s) ;;
  ret (Some a).

(** [malloc (n * sizeof (AVFrame * ))]: the cells start indeterminate. *)
Definition malloc_frames (n : Z) : M ptr :=
  let* r := extern Malloc in
  if r =? 0 then ret None else
  let* a := next_addr in
  modify (fun s => set_arrays (<[a := replicate (Z.to_nat n) Indeterminate]> (arrays s)) s) ;;
  ret (Some a).

(** [av_hwdevice_ctx_create (&hw_device_ctx, type, NULL, NULL, 0)]: on success
    the static holds a new reference to a new device (what it held before is
    overwritten, not released); on failure the library stores NULL. *)
Definition av_hwdevice_ctx_create (type : Z) : M Z :=
  let* err := extern AvHwdeviceCtxCreate in
  emit (HwDeviceCreate type err) ;;
  if err <? 0 then modify (set_hw_device_ctx None) ;; ret err else
  let* a := next_addr in
  modify (fun s => set_buffers (<[a := {| device := a; device_kind := type |}]> (buffers s)) s) ;;
  modify (set_hw_device_ctx (Some a)) ;;
  ret err.

(** [av_buffer_ref (p)]: one more reference to the device of [p], or NULL. The
    library reads [*p]. *)
Definition av_buffer_ref (p : ptr) : M ptr :=
  match p with
  | None => undefined
  | Some b =>
      let* o := read (fun s => buffers s !! b) in
      match o with
      | None => undefined
      | Some ref =>
          let* r := extern AvBufferRef in
          if r =? 0 then ret None else
          let* a := next_addr in
          modify (fun s => set_buffers (<[a := ref]> (buffers s)) s) ;;
          ret (Some a)
      end
  end.

(** The releasing functions, on the pointer they are given; the caller's
    pointer variable, which the library sets to NULL, is reset at the call. *)
Definition av_buffer_unref (p : ptr) : M unit :=
  match p with
  | None => ret tt
  | Some b =>
      let* o := read (fun s => buffers s !! b) in
      match o with
      | None => emit (InvalidFree b)
      | Some _ => modify (fun s => set_buffers (delete b (buffers s)) s)
      end
  end.

Definition av_frame_free (p : ptr) : M unit :=
  match p with
  | None => ret tt
  | Some a =>
      let* o := read (fun s => frames s !! a) in
      match o with
      | None => emit (InvalidFree a)
      | Some _ => modify (fun s => set_frames (delete a (frames s)) s)
      end
  end.

Definition av_packet_free (p : ptr) : M unit :=
  match p with
  | None => ret tt
  | Some a =>
      let* o := read (fun s => packets s !! a) in
      match o with
      | None => emit (InvalidFree a)
      | Some _ => modify (fun s => set_packets (delete a (packets s)) s)
      end
  end.

(** [avcodec_free_context]: the context goes, and with it the reference to
    the hardware device that it holds. *)
Definition avcodec_free_context (p : ptr) : M unit :=
  match p with
  | None => ret tt
  | Some a =>
      let* o := read (fun s => contexts s !! a) in
      match o with
      | None => emit (InvalidFree a)
      | Some c =>
          av_buffer_unref (ctx_hw_device_ctx c) ;;
          modify (fun s => set_contexts (delete a (contexts s)) s) ;;
          emit (FreeContext a)
      end
  end.

(** [avcodec_open2 (decoder_ctx, decoder, NULL)] *)
Definition avcodec_open2 (c : AVCodec) : M Z :=
  let* p := read decoder_ctx in
  match p with
  | None => undefined
  | Some a =>
      let* o := read (fun s => contexts s !! a) in
      match o with
      | None => undefined
      | Some cx =>
          let* err := extern AvcodecOpen2 in
          emit (Open a (name c) (pix_fmt cx) err) ;;
          ret err
      end
  end.

(** [av_frame_unref (frame)]: the frame gives up its picture and is again as
    [av_frame_alloc] makes it. *)
Definition av_frame_unref (frame : ptr) : M unit :=
  match frame with
  | Some a => modify (fun s => set_frames (<[a := {| format := AV_PIX_FMT_NONE |}]> (frames s)) s)
  | None => ret tt
  end.

(** [avcodec_receive_frame (decoder_ctx, frame)]: the library unreferences the
    frame before anything else, whatever it then answers; on success the
    frame is overwritten with the decoded picture. *)
Definition avcodec_receive_frame (slot : Z) (frame : ptr) : M Z :=
  av_frame_unref frame ;;
  let* n := read (fun s => calls s AvcodecReceiveFrame) in
  let* err := extern AvcodecReceiveFrame in
  let* ctx := read decoder_ctx in
  emit (Receive ctx slot frame err) ;;
  when (err =? 0)
    match frame with
    | Some a => modify (fun s => set_frames (<[a := {| format := decoded_format w n |}]> (frames s)) s)
    | None => ret tt
    end ;;
  ret err.

(** [av_hwframe_transfer_data (sw_frame, frame, 0)] *)
Definition av_hwframe_transfer_data (dst src : ptr) : M Z :=
  let* err := extern AvHwframeTransferData in
  emit (Transfer dst src err) ;;
  ret err.

(** [avcodec_send_packet (decoder_ctx, pkt)] *)
Definition avcodec_send_packet : M Z :=
  let* err := extern AvcodecSendPacket in
  let* ctx := read decoder_ctx in
  let* len := read (fun s => match pkt s with
                             | Some a => from_option pkt_size 0 (packets s !! a)
                             | None => 0
                             end) in
  emit (Send ctx len err) ;;
  ret err.

(** ** ffmpeg.c *)

(** [get_hw_format] (lines 50-59): the first of the offered formats that is
    [hw_pix_fmt]; the offer ends with -1. *)
Fixpoint get_hw_format (pix_fmts : list Z) : M Z :=
  match pix_fmts with
  | [] => undefined
  | p :: rest =>
      if p =? -1 then
        fprintf_stderr "Failed to get HW surface format." ;;
        ret AV_PIX_FMT_NONE
      else
        let* hw := read hw_pix_fmt in
        if p =? hw then ret p else get_hw_format rest
  end.

(** The loop of [hwaccel_setup] (lines 64-86) from configuration [i] on, given
    the remaining configurations; [type] is the local of that name.  The
    result is [type] when the loop is left. *)
Fixpoint hwaccel_scan (configs : list AVCodecHWConfig) (type : Z) : M Z :=
  match configs with
  | [] => ret type
  | config :: rest =>
      if Z.land (methods config) AV_CODEC_HW_CONFIG_METHOD_HW_DEVICE_CTX =? 0
      then hwaccel_scan rest type
      else
        fprintf_stderr "Using hwaccel type %s" ;;
        modify (set_hw_pix_fmt (config_pix_fmt config)) ;;
        let* err := av_hwdevice_ctx_create (device_type config) in
        if err <? 0 then
          fprintf_stderr "Failed to create specified HW device." ;;
          modify (set_hw_pix_fmt AV_PIX_FMT_NONE) ;;
          hwaccel_scan rest AV_HWDEVICE_TYPE_NONE
        else
          update_ctx (set_get_format get_hw_format_callback) ;;
          let* dev := read hw_device_ctx in
          let* r := av_buffer_ref dev in
          update_ctx (set_ctx_hw_device_ctx r) ;;
          ret (device_type config)
  end.

(** [hwaccel_setup] (lines 61-94) *)
Definition hwaccel_setup (dec : AVCodec) : M bool :=
  let* type := hwaccel_scan (hw_configs dec) AV_HWDEVICE_TYPE_NONE in
  if type =? AV_HWDEVICE_TYPE_NONE then
    fprintf_stderr "Decoder %s does not support any of the available hwaccel methods" ;;
    ret false
  else ret true.

Definition find_decoder (nm : string) : M unit :=
  let* d := avcodec_find_decoder_by_name nm in
  modify (set_decoder d).

(** Lines 114-138: which name, if any, iteration [try] looks up. *)
Definition select_candidate (videoFormat try : Z) : M ctl :=
  let* acc := read ffmpeg_decoder in
  if negb (Z.land videoFormat (VIDEO_FORMAT_MASK_H264 hdr) =? 0) then
    when (bool_decide (acc = SOFTWARE))
      (when (try =? 0) (find_decoder "h264_nvv4l2") ;;
       when (try =? 1) (find_decoder "h264_nvmpi") ;;
       when (try =? 2) (find_decoder "h264_omx") ;;
       when (try =? 3) (find_decoder "h264_v4l2m2m")) ;;
    when (try =? 4) (find_decoder "h264") ;;
    ret Next
  else if negb (Z.land videoFormat (VIDEO_FORMAT_MASK_H265 hdr) =? 0) then
    when (bool_decide (acc = SOFTWARE))
      (when (try =? 0) (find_decoder "hevc_nvv4l2") ;;
       when (try =? 1) (find_decoder "hevc_nvmpi") ;;
       when (try =? 2) (find_decoder "hevc_omx") ;;
       when (try =? 3) (find_decoder "hevc_v4l2m2m")) ;;
    when (try =? 4) (find_decoder "hevc") ;;
    ret Next
  else if negb (Z.land videoFormat (VIDEO_FORMAT_MASK_AV1 hdr) =? 0) then
    when (bool_decide (acc = SOFTWARE))
      (when (try =? 0) (find_decoder "libdav1d")) ;;
    when (try =? 1) (find_decoder "av1") ;;
    ret Next
  else
    printf "Video format not supported" ;;
    ret (Return (-1)).

(** Lines 146-189: configure a context for [dec] and try to open it. *)
Definition open_candidate (dec : AVCodec) (width height perf_lvl thread_count : Z) : M ctl :=
  fprintf_stderr "Trying decoder %s" ;;
  let* ctx := avcodec_alloc_context3 dec in
  modify (set_decoder_ctx ctx) ;;
  match ctx with
  | None =>
      printf "Couldn't allocate context" ;;
      ret (Return (-1))
  | Some _ =>
      update_ctx (fun c => set_flags (Z.lor (flags c) AV_CODEC_FLAG_LOW_DELAY) c) ;;
      update_ctx (fun c => set_flags (Z.lor (flags c) AV_CODEC_FLAG_OUTPUT_CORRUPT) c) ;;
      update_ctx (fun c => set_flags2 (Z.lor (flags2 c) AV_CODEC_FLAG2_SHOW_ALL) c) ;;
      update_ctx (set_err_recognition AV_EF_EXPLODE) ;;
      (if negb (Z.land perf_lvl (SLICE_THREADING hdr) =? 0) then
         update_ctx (set_thread_type FF_THREAD_SLICE) ;;
         update_ctx (set_thread_count thread_count)
       else
         update_ctx (set_thread_count 1)) ;;
      update_ctx (set_width width) ;;
      update_ctx (set_height height) ;;
      let* hwaccel :=
        match avcodec_get_hw_config dec 0 with
        | Some _ => hwaccel_setup dec
        | None => ret false
        end in
      when (negb hwaccel) (update_ctx (set_pix_fmt AV_PIX_FMT_YUV420P)) ;;
      let* err := avcodec_open2 dec in
      if err <? 0 then
        printf "Couldn't open codec: %s" ;;
        let* p := read decoder_ctx in
        avcodec_free_context p ;;
        modify (set_decoder_ctx None) ;;
        ret Next
      else
        ret Next
  end.

(** One iteration of the loop of lines 113-190. *)
Definition init_try (videoFormat width height perf_lvl thread_count try : Z) : M ctl :=
  let* c := select_candidate videoFormat try in
  match c with
  | Return r => ret (Return r)
  | Next =>
      let* d := read decoder in
      match d with
      | None => ret Next
      | Some dec => open_candidate dec width height perf_lvl thread_count
      end
  end.

(** [for (int try = 0; try < 5; try++)], over the values [try] takes. *)
Fixpoint init_loop (videoFormat width height perf_lvl thread_count : Z) (tries : list Z)
  : M ctl :=
  match tries with
  | [] => ret Next
  | try :: rest =>
      let* c := init_try videoFormat width height perf_lvl thread_count try in
      match c with
      | Return r => ret (Return r)
      | Next => init_loop videoFormat width height perf_lvl thread_count rest
      end
  end.

(** Lines 206-212, over the values [i] takes. *)
Fixpoint alloc_frames (indices : list Z) : M ctl :=
  match indices with
  | [] => ret Next
  | i :: rest =>
      let* f := av_frame_alloc in
      store_slot i f ;;
      match f with
      | None =>
          fprintf_stderr "Couldn't allocate frame" ;;
          ret (Return (-1))
      | Some _ => alloc_frames rest
      end
  end.

(** [ffmpeg_init] (lines 98-223).  [av_log_set_level] and
    [avcodec_register_all] leave nothing the program reads. *)
Definition ffmpeg_init (videoFormat width height perf_lvl buffer_count thread_count : Z)
  : M Z :=
  let* p := av_packet_alloc in
  modify (set_pkt p) ;;
  match p with
  | None =>
      printf "Couldn't allocate packet" ;;
      ret (-1)
  | Some _ =>
      modify (set_ffmpeg_decoder
                (if Z.land perf_lvl (VAAPI_ACCELERATION hdr) =? 0 then SOFTWARE else VAAPI)) ;;
      let* c := init_loop videoFormat width height perf_lvl thread_count (seqZ 0 5) in
      match c with
      | Return r => ret r
      | Next =>
          let* d := read decoder in
          match d with
          | None =>
              printf "Couldn't find decoder" ;;
              ret (-1)
          | Some dec =>
              fprintf_stderr "Using FFmpeg decoder: %s" ;;
              modify (set_dec_frames_cnt buffer_count) ;;
              let* arr := malloc_frames buffer_count in
              modify (set_dec_frames arr) ;;
              match arr with
              | None =>
                  fprintf_stderr "Couldn't allocate frames" ;;
                  ret (-1)
              | Some _ =>
                  let* c := alloc_frames (seqZ 0 buffer_count) in
                  match c with
                  | Return r => ret r
                  | Next =>
                      let* dev := read hw_device_ctx in
                      when (bool_decide (is_Some dev))
                        (let* f := av_frame_alloc in modify (set_sw_frame f)) ;;
                      let* acc := read ffmpeg_decoder in
                      when (HAVE_VAAPI hdr && bool_decide (acc = VAAPI))
                        (let* ctx := read decoder_ctx in emit (VaapiInit ctx)) ;;
                      ret 0
                  end
              end
          end
      end
  end.

(** Lines 239-242, over the values [i] takes. *)
Fixpoint free_slots (indices : list Z) : M unit :=
  match indices with
  | [] => ret tt
  | i :: rest =>
      let* f := load_slot i in
      when (bool_decide (is_Some f)) (av_frame_free f ;; store_slot i None) ;;
      free_slots rest
  end.

(** [ffmpeg_destroy] (lines 227-244) *)
Definition ffmpeg_destroy : M unit :=
  let* sw := read sw_frame in
  when (bool_decide (is_Some sw)) (av_frame_free sw ;; modify (set_sw_frame None)) ;;
  let* dev := read hw_device_ctx in
  when (bool_decide (is_Some dev)) (av_buffer_unref dev ;; modify (set_hw_device_ctx None)) ;;
  let* p := read pkt in
  av_packet_free p ;;
  modify (set_pkt None) ;;
  let* ctx := read decoder_ctx in
  when (bool_decide (is_Some ctx)) (avcodec_free_context ctx ;; modify (set_decoder_ctx None)) ;;
  let* arr := read dec_frames in
  when (bool_decide (is_Some arr))
    (let* cnt := read dec_frames_cnt in free_slots (seqZ 0 cnt)).

(** [ffmpeg_get_frame] (lines 246-273) *)
Definition ffmpeg_get_frame (native_frame : bool) : M ptr :=
  let* slot := read next_frame in
  let* frame := load_slot slot in
  let* err := avcodec_receive_frame slot frame in
  if err =? 0 then
    modify (fun s => set_current_frame (next_frame s) s) ;;
    let* cur := read current_frame in
    let* cur1 := int_add cur 1 in
    let* cnt := read dec_frames_cnt in
    let* nxt := int_rem cur1 cnt in
    modify (set_next_frame nxt) ;;
    let* acc := read ffmpeg_decoder in
    if bool_decide (acc = SOFTWARE) || native_frame then
      let* fmt := frame_format frame in
      let* hw := read hw_pix_fmt in
      if fmt =? hw then
        let* sw := read sw_frame in
        let* terr := av_hwframe_transfer_data sw frame in
        if terr <? 0 then
          fprintf_stderr "Error transferring the data to system memory" ;;
          ret None
        else ret sw
      else ret frame
    else ret None
  else
    when (negb (err =? AVERROR EAGAIN)) (fprintf_stderr "Receive failed - %d/%s") ;;
    ret None.

(** [ffmpeg_decode] (lines 277-291) *)
Definition ffmpeg_decode (indata : list Byte.byte) (inlen : Z) : M Z :=
  update_pkt (fun p => {| pkt_data := indata; pkt_size := pkt_size p |}) ;;
  update_pkt (fun p => {| pkt_data := pkt_data p; pkt_size := inlen |}) ;;
  let* err := avcodec_send_packet in
  when (err <? 0) (fprintf_stderr "Decode failed - %s") ;;
  ret (if err <? 0 then err else 0).

End Program.

(** ** A session as the callers drive it *)

(** The two operations the network and renderer sides invoke between
    [ffmpeg_init] and [ffmpeg_destroy]. *)
Inductive call :=
  | Submit (indata : list Byte.byte) (inlen : Z)
  | ReceiveFrame (native_frame : bool).

Definition perform (w : World) (c : call) : M (Z + ptr) :=
  match c with
  | Submit indata inlen => let* r := ffmpeg_decode w indata inlen in ret (inl r)
  | ReceiveFrame native_frame => let* r := ffmpeg_get_frame w native_frame in ret (inr r)
  end.

Fixpoint session (w : World) (cs : list call) : M (list (Z + ptr)) :=
  match cs with
  | [] => ret []
  | c :: rest =>
      let* r := perform w c in
      let* rs := session w rest in
      ret (r :: rs)
  end.

(** The successful receptions of a trace, in order: the slot index used and
    the frame it holds. *)
Definition success_slots (tr : list event) : list (Z * ptr) :=
  omap (fun e => match e with
                 | Receive _ slot frame err => if err =? 0 then Some (slot, frame) else None
                 | _ => None
                 end) tr.

(** What decoder selection leaves alone: the packet, the frame ring and the
    allocator calls that build the ring. *)
Definition ring_view (s : State) :=
  (pkt s, dec_frames s, sw_frame s, dec_frames_cnt s, current_frame s, next_frame s,
   ffmpeg_decoder s, packets s, frames s, arrays s, calls s AvFrameAlloc, calls s Malloc).

(** What building the ring leaves alone. *)
Definition alloc_view (s : State) :=
  (pkt s, packets s, dec_frames s, dec_frames_cnt s, current_frame s, next_frame s,
   sw_frame s, hw_device_ctx s, ffmpeg_decoder s, decoder_ctx s, contexts s).

(** The array of a ring whose slots hold the frames [slots], in index order. *)
Definition slot_cells (slots : list addr) : list cell :=
  (fun a => Pointer (Some a)) <$> slots.

(** What a failed [av_hwdevice_ctx_create] for configuration [config] leaves
    (lines 70-79): the messages, the call made, and both the static device
    reference and hw_pix_fmt cleared. *)
Definition device_failed (w : World) (config : AVCodecHWConfig) (s : State) : State :=
  set_hw_pix_fmt AV_PIX_FMT_NONE
    (set_log (log s ++ [Print stderr "Using hwaccel type %s";
                        HwDeviceCreate (device_type config)
                          (answer w AvHwdeviceCtxCreate (calls s AvHwdeviceCtxCreate));
                        Print stderr "Failed to create specified HW device."])
       (set_hw_device_ctx None
          (set_calls (bump AvHwdeviceCtxCreate (calls s)) s))).

(** No device can be created for [configs] from [s] on: the library fails
    each of the next [length configs] calls of [av_hwdevice_ctx_create], as
    many as a negotiation over [configs] can make. *)
Definition devices_fail (w : World) (configs : list AVCodecHWConfig) (s : State) : Prop :=
  forall n : nat,
    (calls s AvHwdeviceCtxCreate <= n < calls s AvHwdeviceCtxCreate + length configs)%nat ->
    answer w AvHwdeviceCtxCreate n < 0.

(** ** Concrete builds and runs, for the examples *)

(** Sample values for the header macros: distinct, non-zero bit masks. *)
Definition sample_macros : Macros :=
  {| VIDEO_FORMAT_MASK_H264 := 15;
     VIDEO_FORMAT_MASK_H265 := 3840;
     VIDEO_FORMAT_MASK_AV1 := 61440;
     VAAPI_ACCELERATION := 128;
     SLICE_THREADING := 4;
     HAVE_VAAPI := false |}.

Definition plain_context (c : AVCodec) : AVCodecContext :=
  {| codec := c; flags := 0; flags2 := 0; err_recognition := 0; thread_type := 3;
     thread_count := 1; width := 0; height := 0; pix_fmt := AV_PIX_FMT_NONE;
     get_format := avcodec_default_get_format; ctx_hw_device_ctx := None |}.

(** A build of FFmpeg with the decoders [names], each with the hardware
    configurations [configs]. *)
Definition compiled_in (names : list string) (configs : list AVCodecHWConfig)
    (nm : string) : option AVCodec :=
  if bool_decide (nm ∈ names) then Some {| name := nm; hw_configs := configs |} else None.

(** Every allocation and every call succeeds. *)
Definition all_succeed (c : extcall) (n : nat) : Z :=
  match c with
  | AvPacketAlloc | AvcodecAllocContext3 | AvBufferRef | Malloc | AvFrameAlloc => 1
  | _ => 0
  end.

(** As [all_succeed], but the n-th call of [c] (from 0) returns [r]. *)
Definition except (c : extcall) (n : nat) (r : Z) (c' : extcall) (n' : nat) : Z :=
  if bool_decide (c' = c /\ n' = n) then r else all_succeed c' n'.

(** As [all_succeed], but every call of [c] returns [r]. *)
Definition always (c : extcall) (r : Z) (c' : extcall) (n' : nat) : Z :=
  if bool_decide (c' = c) then r else all_succeed c' n'.

(** A VAAPI-like hardware configuration: bound through a device context. *)
Definition vaapi_config : AVCodecHWConfig :=
  {| methods := AV_CODEC_HW_CONFIG_METHOD_HW_DEVICE_CTX; device_type := 3;
     config_pix_fmt := 44 |}.

(** Software H.264 only, frames decoded as YUV420P, and a transfer that fails
    if it is ever asked for. *)
Definition software_world : World :=
  {| registry := compiled_in ["h264"%string] [];
     answer := always AvHwframeTransferData (-22);
     decoded_format := fun _ => AV_PIX_FMT_YUV420P;
     fresh_context := plain_context |}.

(** A Tegra build: the platform decoder and the generic one, both opening. *)
Definition tegra_world : World :=
  {| registry := compiled_in ["h264_nvv4l2"%string; "h264"%string] [];
     answer := all_succeed;
     decoded_format := fun _ => AV_PIX_FMT_YUV420P;
     fresh_context := plain_context |}.

(** All five H.264 decoders compiled in, none of them opening. *)
Definition unopenable_world : World :=
  {| registry := compiled_in ["h264_nvv4l2"%string; "h264_nvmpi"%string; "h264_omx"%string;
                              "h264_v4l2m2m"%string; "h264"%string] [];
     answer := always AvcodecOpen2 (-1);
     decoded_format := fun _ => AV_PIX_FMT_YUV420P;
     fresh_context := plain_context |}.

(** Generic H.264 with a working VAAPI device; frames come out in the
    hardware format; transfers to system memory fail. *)
Definition vaapi_world : World :=
  {| registry := compiled_in ["h264"%string] [vaapi_config];
     answer := always AvHwframeTransferData (-5);
     decoded_format := fun _ => 44;
     fresh_context := plain_context |}.

(** Generic H.264 advertising VAAPI, on a machine without such a device. *)
Definition no_device_world : World :=
  {| registry := compiled_in ["h264"%string] [vaapi_config];
     answer := always AvHwdeviceCtxCreate (-19);
     decoded_format := fun _ => AV_PIX_FMT_YUV420P;
     fresh_context := plain_context |}.

(** Software H.264; the second [av_frame_alloc] returns NULL. *)
Definition low_memory_world : World :=
  {| registry := compiled_in ["h264"%string] [];
     answer := except AvFrameAlloc 1 0;
     decoded_format := fun _ => AV_PIX_FMT_YUV420P;
     fresh_context := plain_context |}.

(** The result and the final state of a run (of a run that is undefined: the
    given default and the initial state). *)
Definition result_of {A} (d : A) (m : M A) (s : State) : A :=
  match m s with
  | Some (a, _) => a
  | None => d
  end.

Definition state_of {A} (m : M A) (s : State) : State :=
  match m s with
  | Some (_, s') => s'
  | None => s
  end.

(** The decoders looked up and the codecs opened, in order, in a trace. *)
Definition lookups (tr : list event) : list string :=
  omap (fun e => match e with Lookup nm _ => Some nm | _ => None end) tr.

Definition opened (tr : list event) : list (string * Z) :=
  omap (fun e => match e with Open _ nm _ err => Some (nm, err) | _ => None end) tr.

Definition transfers (tr : list event) : list (ptr * ptr * Z) :=
  omap (fun e => match e with Transfer dst src err => Some (dst, src, err) | _ => None end) tr.

Definition invalid_frees (tr : list event) : list addr :=
  omap (fun e => match e with InvalidFree a => Some a | _ => None end) tr.

(** [ffmpeg_init] for H.264 at 1080p with three buffers and four threads, on
    each of the builds, and the state it leaves at the start of the process.
    The hardware build is asked for VAAPI; the others for software. *)
Abbreviation software_init := (ffmpeg_init sample_macros software_world 1 1920 1080 0 3 4).
Abbreviation tegra_init := (ffmpeg_init sample_macros tegra_world 1 1920 1080 0 3 4).
Abbreviation unopenable_init := (ffmpeg_init sample_macros unopenable_world 1 1920 1080 0 3 4).
Abbreviation vaapi_init := (ffmpeg_init sample_macros vaapi_world 1 1920 1080 128 3 4).
Abbreviation low_memory_init := (ffmpeg_init sample_macros low_memory_world 1 1920 1080 0 3 4).

Abbreviation software_ready := (state_of software_init process_start).
Abbreviation tegra_ready := (state_of tegra_init process_start).
Abbreviation vaapi_ready := (state_of vaapi_init process_start).
Abbreviation low_memory_failed := (state_of low_memory_init process_start).

(** The VAAPI build after one access unit has been submitted. *)
Abbreviation vaapi_submitted := (state_of (session vaapi_world [Submit [] 0]) vaapi_ready).

(** One access unit submitted, one frame asked for. *)
Definition one_cycle (native_frame : bool) : list call :=
  [Submit [] 0; ReceiveFrame native_frame].

(** * Vocabulary of the statements *)

(** ** Weakest preconditions (total: the computation is defined) *)

Definition wp {A} (m : M A) (Q : A -> State -> Prop) (s : State) : Prop :=
  match m s with
  | Some (a, s') => Q a s'
  | None => False
  end.

(** ** The frame ring once [ffmpeg_init] has built it *)

(** The ring holds [N] allocated frames, [slots] in index order, the indices
    are inside it, and the packet exists. *)
Record ring_ready (N : Z) (slots : list addr) (s : State) : Prop := {
  ready_count : dec_frames_cnt s = N;
  ready_bound : 1 <= N <= INT_MAX;
  ready_array : exists arr, dec_frames s = Some arr /\
                            arrays s !! arr = Some ((fun a => Pointer (Some a)) <$> slots);
  ready_length : Z.of_nat (length slots) = N;
  ready_frames : forall a, a ∈ slots -> is_Some (frames s !! a);
  ready_packet : exists p, pkt s = Some p /\ is_Some (packets s !! p);
  ready_current : 0 <= current_frame s < N;
  ready_next : 0 <= next_frame s < N
}.

Section Outcomes.

Context (w : World).

(** The state right after a successful [avcodec_receive_frame] into slot
    [next_frame], frame [a], and the update of the two indices. *)
Definition received (s : State) (a : addr) : State :=
  let n := calls s AvcodecReceiveFrame in
  set_next_frame (Z.rem (next_frame s + 1) (dec_frames_cnt s))
    (set_current_frame (next_frame s)
      (set_frames (<[a := {| format := decoded_format w n |}]> (frames s))
        (set_log (log s ++ [Receive (decoder_ctx s) (next_frame s) (Some a) 0])
          (set_calls (bump AvcodecReceiveFrame (calls s)) s)))).

(** The state after a failed one: the frame of the slot has lost its picture;
    [EAGAIN] is not reported. *)
Definition not_received (s : State) (a : addr) : State :=
  let err := answer w AvcodecReceiveFrame (calls s AvcodecReceiveFrame) in
  let s1 := set_log (log s ++ [Receive (decoder_ctx s) (next_frame s) (Some a) err])
              (set_calls (bump AvcodecReceiveFrame (calls s))
                 (set_frames (<[a := {| format := AV_PIX_FMT_NONE |}]> (frames s)) s)) in
  if err =? AVERROR EAGAIN then s1
  else set_log (log s1 ++ [Print stderr "Receive failed - %d/%s"]) s1.

(** The state after [av_hwframe_transfer_data]. *)
Definition transferred (s : State) (a : addr) : State :=
  let s1 := received s a in
  let terr := answer w AvHwframeTransferData (calls s AvHwframeTransferData) in
  let s2 := set_log (log s1 ++ [Transfer (sw_frame s) (Some a) terr])
              (set_calls (bump AvHwframeTransferData (calls s1)) s1) in
  if terr <? 0
  then set_log (log s2 ++ [Print stderr "Error transferring the data to system memory"]) s2
  else s2.

(** What [ffmpeg_get_frame] returns and the state it leaves, case by case. *)
Definition get_frame_outcome (native_frame : bool) (s : State) (a : addr) : ptr * State :=
  let n := calls s AvcodecReceiveFrame in
  if answer w AvcodecReceiveFrame n =? 0 then
    if bool_decide (ffmpeg_decoder s = SOFTWARE) || native_frame then
      if decoded_format w n =? hw_pix_fmt s then
        if answer w AvHwframeTransferData (calls s AvHwframeTransferData) <? 0
        then (None, transferred s a)
        else (sw_frame s, transferred s a)
      else (Some a, received s a)
    else (None, received s a)
  else (None, not_received s a).

(** The state [ffmpeg_decode] leaves. *)
Definition submitted (s : State) (p : addr) (indata : list Byte.byte) (inlen : Z) : State :=
  let err := answer w AvcodecSendPacket (calls s AvcodecSendPacket) in
  let s1 := set_log (log s ++ [Send (decoder_ctx s) inlen err])
              (set_calls (bump AvcodecSendPacket (calls s))
                 (set_packets (<[p := {| pkt_data := indata; pkt_size := inlen |}]> (packets s)) s)) in
  if err <? 0 then set_log (log s1 ++ [Print stderr "Decode failed - %s"]) s1 else s1.

(** What one iteration, and so the whole loop, guarantees about the state it
    starts from: the ring is left alone, the trace only grows, the function is
    left only with -1 and a message on stdout; if no codec ever opens, no
    context survives; if no decoder is compiled in, no decoder is selected. *)
Definition cascade_post (s : State) (c : ctl) (s' : State) : Prop :=
  ring_view s' = ring_view s /\
  (exists tr, log s' = log s ++ tr) /\
  (c = Next \/ (c = Return (-1) /\ exists text, last (log s') = Some (Print stdout text))) /\
  ((forall n, answer w AvcodecOpen2 n < 0) ->
   contexts s = ∅ -> decoder_ctx s = None ->
   contexts s' = ∅ /\ decoder_ctx s' = None) /\
  ((forall nm, registry w nm = None) ->
   decoder s = None ->
   decoder s' = None /\ contexts s' = contexts s /\ decoder_ctx s' = decoder_ctx s).

(** What the first [ffmpeg_init] of the process guarantees when it returns. *)
Definition init_post (N : Z) (r : Z) (s' : State) : Prop :=
  (r = 0 \/ r = -1) /\
  (r = 0 -> 1 <= N <= INT_MAX ->
   exists slots, ring_ready N slots s' /\ next_frame s' = 0 /\ current_frame s' = 0) /\
  (last (log s') = Some (Print stderr "Couldn't allocate frame") ->
   r = -1 /\
   exists arr slots rest,
     dec_frames s' = Some arr /\
     arrays s' !! arr = Some (slot_cells slots ++ Pointer None :: rest) /\
     forall a, a ∈ slots -> is_Some (frames s' !! a)) /\
  ((forall n, answer w AvcodecOpen2 n < 0) -> contexts s' = ∅ /\ decoder_ctx s' = None) /\
  (answer w AvPacketAlloc 0%nat <> 0 ->
   exists p, pkt s' = Some p /\ is_Some (packets s' !! p)) /\
  ((forall nm, registry w nm = None) -> r = -1).

End Outcomes.

(** * Vocabulary of the further properties *)

(** ** What the steady-state calls leave alone *)

(** Everything but the ring indices, the contents of the packet and of the
    frames, the calls made and the trace: the statics that [ffmpeg_init]
    assigns, the pools of contexts, device references and arrays, the next
    fresh address, and which packets and frames exist. *)
Definition steady_view (s : State) :=
  (pkt s, decoder s, decoder_ctx s, dec_frames s, hw_device_ctx s, hw_pix_fmt s, sw_frame s,
   dec_frames_cnt s, ffmpeg_decoder s, contexts s, buffers s, arrays s, brk s,
   dom (packets s), dom (frames s)).

(** ** What hardware negotiation leaves *)

(** The events of [hwaccel_setup]: messages on stderr and device creations. *)
Definition hw_event (e : event) : Prop :=
  match e with
  | Print stderr _ => True
  | HwDeviceCreate _ _ => True
  | _ => False
  end.

(** No device was bound: at most the two statics have changed, to [d] and [f]. *)
Definition not_negotiated (s : State) (d : ptr) (f : Z) (k : extcall -> nat)
    (tr : list event) : State :=
  set_log (log s ++ tr) (set_calls k (set_hw_device_ctx d (set_hw_pix_fmt f s))).

(** The device of [config] was created at the next fresh address (lines 74,
    82-84): the static refers to it, hw_pix_fmt is the format of [config], and
    the context [c] at [a] has the callback and the second reference [r],
    which is NULL when [av_buffer_ref] failed. *)
Definition negotiated (s : State) (a : addr) (c : AVCodecContext) (config : AVCodecHWConfig)
    (r : ptr) (k : extcall -> nat) (tr : list event) : State :=
  let dev := {| device := brk s; device_kind := device_type config |} in
  set_log (log s ++ tr)
    (set_calls k
      (set_brk (match r with Some _ => S (S (brk s)) | None => S (brk s) end)
        (set_buffers (match r with
                      | Some j => <[j := dev]> (<[brk s := dev]> (buffers s))
                      | None => <[brk s := dev]> (buffers s)
                      end)
          (set_contexts
             (<[a := set_ctx_hw_device_ctx r (set_get_format get_hw_format_callback c)]>
                (contexts s))
             (set_hw_device_ctx (Some (brk s))
                (set_hw_pix_fmt (config_pix_fmt config) s)))))).

(** The two ways the loop of [hwaccel_setup] ends, with the type it leaves. *)
Definition scan_post (configs : list AVCodecHWConfig) (s : State) (a : addr)
    (c : AVCodecContext) (t : Z) (s' : State) : Prop :=
  exists tr k,
    Forall hw_event tr /\
    (forall x, x <> AvHwdeviceCtxCreate -> x <> AvBufferRef -> k x = calls s x) /\
    ((t = AV_HWDEVICE_TYPE_NONE /\
      exists d f,
        ((d = hw_device_ctx s /\ f = hw_pix_fmt s) \/ (d = None /\ f = AV_PIX_FMT_NONE)) /\
        s' = not_negotiated s d f k tr) \/
     (exists config r,
        config ∈ configs /\
        Z.land (methods config) AV_CODEC_HW_CONFIG_METHOD_HW_DEVICE_CTX <> 0 /\
        t = device_type config /\
        (r = None \/ r = Some (S (brk s))) /\
        s' = negotiated s a c config r k tr)).

(** ** One candidate, step by step *)

(** Lines 153-170: what [ffmpeg_init] writes into a fresh context. *)
Definition configure (hdr : Macros) (width height perf_lvl thread_count : Z)
    (c : AVCodecContext) : AVCodecContext :=
  let c := set_flags (Z.lor (flags c) AV_CODEC_FLAG_LOW_DELAY) c in
  let c := set_flags (Z.lor (flags c) AV_CODEC_FLAG_OUTPUT_CORRUPT) c in
  let c := set_flags2 (Z.lor (flags2 c) AV_CODEC_FLAG2_SHOW_ALL) c in
  let c := set_err_recognition AV_EF_EXPLODE c in
  let c := if negb (Z.land perf_lvl (SLICE_THREADING hdr) =? 0)
           then set_thread_count thread_count (set_thread_type FF_THREAD_SLICE c)
           else set_thread_count 1 c in
  set_height height (set_width width c).

(** Lines 144-150 when [avcodec_alloc_context3] returns NULL. *)
Definition alloc_failed (dec : AVCodec) (s : State) : State :=
  set_log (log s ++ [Print stderr "Trying decoder %s"; AllocContext (name dec) None;
                     Print stdout "Couldn't allocate context"])
    (set_decoder_ctx None (set_calls (bump AvcodecAllocContext3 (calls s)) s)).

(** Lines 144-170 when it returns a context: the context, configured as [c],
    sits at the next fresh address and decoder_ctx points to it. *)
Definition context_allocated (dec : AVCodec) (c : AVCodecContext) (s : State) : State :=
  set_log (log s ++ [Print stderr "Trying decoder %s"; AllocContext (name dec) (Some (brk s))])
    (set_contexts (<[brk s := c]> (contexts s))
       (set_decoder_ctx (Some (brk s))
          (set_brk (S (brk s)) (set_calls (bump AvcodecAllocContext3 (calls s)) s)))).

(** Lines 172-182 *)
Definition negotiate (w : World) (dec : AVCodec) : M unit :=
  let* hwaccel :=
    match avcodec_get_hw_config dec 0 with
    | Some _ => hwaccel_setup w dec
    | None => ret false
    end in
  when (negb hwaccel) (update_ctx (set_pix_fmt AV_PIX_FMT_YUV420P)).

(** The state [s'] and the context [c'] at [a] after lines 172-182, entered
    with the context [c]: without a device the pixel format is YUV420P; with
    the device of a configuration the context has the callback and its
    reference, and keeps its pixel format unless the device type is 0. *)
Definition negotiation_post (dec : AVCodec) (s : State) (a : addr) (c : AVCodecContext)
    (s' : State) (c' : AVCodecContext) : Prop :=
  exists tr k,
    Forall hw_event tr /\
    (forall x, x <> AvHwdeviceCtxCreate -> x <> AvBufferRef -> k x = calls s x) /\
    ((exists d f,
        ((d = hw_device_ctx s /\ f = hw_pix_fmt s) \/ (d = None /\ f = AV_PIX_FMT_NONE)) /\
        c' = set_pix_fmt AV_PIX_FMT_YUV420P c /\
        s' = set_contexts (<[a := c']> (contexts s)) (not_negotiated s d f k tr)) \/
     (exists config r,
        config ∈ hw_configs dec /\
        Z.land (methods config) AV_CODEC_HW_CONFIG_METHOD_HW_DEVICE_CTX <> 0 /\
        (r = None \/ r = Some (S (brk s))) /\
        c' = (if device_type config =? AV_HWDEVICE_TYPE_NONE
              then set_pix_fmt AV_PIX_FMT_YUV420P
                     (set_ctx_hw_device_ctx r (set_get_format get_hw_format_callback c))
              else set_ctx_hw_device_ctx r (set_get_format get_hw_format_callback c)) /\
        s' = set_contexts (<[a := c']> (contexts s)) (negotiated s a c config r k tr))).

(** The state after [av_buffer_unref (p)]. *)
Definition unref (p : ptr) (s : State) : State :=
  match p with
  | None => s
  | Some b =>
      match buffers s !! b with
      | None => set_log (log s ++ [InvalidFree b]) s
      | Some _ => set_buffers (delete b (buffers s)) s
      end
  end.

(** Lines 184-189 *)
Definition open_or_free (w : World) (dec : AVCodec) : M ctl :=
  let* err := avcodec_open2 w dec in
  if err <? 0 then
    printf "Couldn't open codec: %s" ;;
    let* p := read decoder_ctx in
    avcodec_free_context p ;;
    modify (set_decoder_ctx None) ;;
    ret Next
  else
    ret Next.

(** The state after lines 184-189, entered with the context [c] at [a]. *)
Definition opened_or_freed (w : World) (dec : AVCodec) (a : addr) (c : AVCodecContext)
    (s : State) : State :=
  let err := answer w AvcodecOpen2 (calls s AvcodecOpen2) in
  let s1 := set_log (log s ++ [Open a (name dec) (pix_fmt c) err])
              (set_calls (bump AvcodecOpen2 (calls s)) s) in
  if err <? 0 then
    let s2 := unref (ctx_hw_device_ctx c)
                (set_log (log s1 ++ [Print stdout "Couldn't open codec: %s"]) s1) in
    set_decoder_ctx None
      (set_log (log s2 ++ [FreeContext a]) (set_contexts (delete a (contexts s2)) s2))
  else s1.

(** What [open_candidate] does for [dec], from [s]. *)
Definition candidate_post (hdr : Macros) (w : World) (dec : AVCodec)
    (width height perf_lvl thread_count : Z) (s : State) (c : ctl) (s' : State) : Prop :=
  (c = Return (-1) /\ s' = alloc_failed dec s) \/
  (c = Next /\
   exists s1 c',
     negotiation_post dec
       (context_allocated dec
          (configure hdr width height perf_lvl thread_count (fresh_context w dec)) s)
       (brk s) (configure hdr width height perf_lvl thread_count (fresh_context w dec))
       s1 c' /\
     s' = opened_or_freed w dec (brk s) c' s1).

(** ** The selection loop, iteration by iteration *)

(** Whether lines 114-138 know the video format. *)
Definition supported (hdr : Macros) (videoFormat : Z) : bool :=
  negb (Z.land videoFormat (VIDEO_FORMAT_MASK_H264 hdr) =? 0) ||
  negb (Z.land videoFormat (VIDEO_FORMAT_MASK_H265 hdr) =? 0) ||
  negb (Z.land videoFormat (VIDEO_FORMAT_MASK_AV1 hdr) =? 0).

(** Lines 114-134: the names that iteration [try] looks up, in order. *)
Definition names_at (hdr : Macros) (videoFormat : Z) (acc : decoders) (try : Z)
    : list string :=
  if negb (Z.land videoFormat (VIDEO_FORMAT_MASK_H264 hdr) =? 0) then
    (if bool_decide (acc = SOFTWARE) then
       (if try =? 0 then ["h264_nvv4l2"%string] else []) ++
       (if try =? 1 then ["h264_nvmpi"%string] else []) ++
       (if try =? 2 then ["h264_omx"%string] else []) ++
       (if try =? 3 then ["h264_v4l2m2m"%string] else [])
     else []) ++
    (if try =? 4 then ["h264"%string] else [])
  else if negb (Z.land videoFormat (VIDEO_FORMAT_MASK_H265 hdr) =? 0) then
    (if bool_decide (acc = SOFTWARE) then
       (if try =? 0 then ["hevc_nvv4l2"%string] else []) ++
       (if try =? 1 then ["hevc_nvmpi"%string] else []) ++
       (if try =? 2 then ["hevc_omx"%string] else []) ++
       (if try =? 3 then ["hevc_v4l2m2m"%string] else [])
     else []) ++
    (if try =? 4 then ["hevc"%string] else [])
  else if negb (Z.land videoFormat (VIDEO_FORMAT_MASK_AV1 hdr) =? 0) then
    (if bool_decide (acc = SOFTWARE) then
       (if try =? 0 then ["libdav1d"%string] else [])
     else []) ++
    (if try =? 1 then ["av1"%string] else [])
  else [].

(** The state after [decoder = avcodec_find_decoder_by_name (nm)]. *)
Definition looked_up (w : World) (s : State) (nm : string) : State :=
  set_decoder (registry w nm)
    (set_log (log s ++ [Lookup nm (bool_decide (is_Some (registry w nm)))]) s).

(** The events of one candidate: no lookup, and none of the events of the
    steady state. *)
Definition candidate_event (e : event) : Prop :=
  match e with
  | Print _ _ | AllocContext _ _ | HwDeviceCreate _ _ | Open _ _ _ _ | FreeContext _
  | InvalidFree _ => True
  | _ => False
  end.

(** The device references are in order: the static one, if any, is a live
    reference, decoder_ctx, if not NULL, points to a live context, and the
    reference this context holds, if any, is live and is another one. *)
Definition heap_ok (s : State) : Prop :=
  (forall b, hw_device_ctx s = Some b -> is_Some (buffers s !! b)) /\
  (forall a, decoder_ctx s = Some a ->
     exists c, contexts s !! a = Some c /\
       forall b, ctx_hw_device_ctx c = Some b ->
         is_Some (buffers s !! b) /\ hw_device_ctx s <> Some b).

(** A context as [ffmpeg_init] sets it up from the fresh context [c0]: low
    delay, corrupt frames shown, errors reported, the picture size, the
    threading asked for, and either the software pixel format or the
    [get_hw_format] callback. *)
Definition tuned (hdr : Macros) (wd ht perf_lvl threads : Z) (c0 c : AVCodecContext)
    : Prop :=
  codec c = codec c0 /\
  flags c = Z.lor (Z.lor (flags c0) AV_CODEC_FLAG_LOW_DELAY) AV_CODEC_FLAG_OUTPUT_CORRUPT /\
  flags2 c = Z.lor (flags2 c0) AV_CODEC_FLAG2_SHOW_ALL /\
  err_recognition c = AV_EF_EXPLODE /\
  width c = wd /\ height c = ht /\
  (if negb (Z.land perf_lvl (SLICE_THREADING hdr) =? 0)
   then thread_type c = FF_THREAD_SLICE /\ thread_count c = threads
   else thread_type c = thread_type c0 /\ thread_count c = 1) /\
  (pix_fmt c = AV_PIX_FMT_YUV420P \/
   (pix_fmt c = pix_fmt c0 /\ get_format c = get_hw_format_callback)).

(** decoder_ctx, if not NULL, points to a context set up by [ffmpeg_init]. *)
Definition ctx_tuned (hdr : Macros) (w : World) (wd ht perf_lvl threads : Z) (s : State)
    : Prop :=
  forall a, decoder_ctx s = Some a ->
    exists dec c, contexts s !! a = Some c /\
                  tuned hdr wd ht perf_lvl threads (fresh_context w dec) c.

(** What the iterations [tries] of the selection loop guarantee, from [s]:
    the ring is left alone; the names looked up are those of [names_at], in
    order, up to the iteration that leaves the function, if one does; after
    the last iteration the decoder is the last one looked up; the function
    is left only with -1, after one of two messages on stdout, and an
    iteration is completed only for a video format the loop knows; the device
    references stay in order if fresh contexts hold none; decoder_ctx stays
    NULL or set up. *)
Definition loop_facts (hdr : Macros) (w : World) (videoFormat wd ht perf_lvl threads : Z)
    (tries : list Z) (s : State) (c : ctl) (s' : State) : Prop :=
  let names := concat (names_at hdr videoFormat (ffmpeg_decoder s) <$> tries) in
  ring_view s' = ring_view s /\
  (exists tr,
     log s' = log s ++ tr /\
     match c with
     | Next =>
         lookups tr = names /\
         decoder s' = foldl (fun _ nm => registry w nm) (decoder s) names
     | Return r =>
         lookups tr `prefix_of` names /\ r = -1 /\
         (last tr = Some (Print stdout "Video format not supported") \/
          last tr = Some (Print stdout "Couldn't allocate context"))
     end) /\
  (c = Next -> tries <> [] -> supported hdr videoFormat = true) /\
  ((forall dec, ctx_hw_device_ctx (fresh_context w dec) = None) ->
   heap_ok s -> heap_ok s' /\ invalid_frees (log s') = invalid_frees (log s)) /\
  (ctx_tuned hdr w wd ht perf_lvl threads s -> ctx_tuned hdr w wd ht perf_lvl threads s').

(** ** Building the ring *)

(** Lines 197-222 of [ffmpeg_init], entered once a decoder is selected. *)
Definition ring_setup (hdr : Macros) (w : World) (buffer_count : Z) : M Z :=
  fprintf_stderr "Using FFmpeg decoder: %s" ;;
  modify (set_dec_frames_cnt buffer_count) ;;
  let* arr := malloc_frames w buffer_count in
  modify (set_dec_frames arr) ;;
  match arr with
  | None =>
      fprintf_stderr "Couldn't allocate frames" ;;
      ret (-1)
  | Some _ =>
      let* c := alloc_frames w (seqZ 0 buffer_count) in
      match c with
      | Return r => ret r
      | Next =>
          let* dev := read hw_device_ctx in
          when (bool_decide (is_Some dev))
            (let* f := av_frame_alloc w in modify (set_sw_frame f)) ;;
          let* acc := read ffmpeg_decoder in
          when (HAVE_VAAPI hdr && bool_decide (acc = VAAPI))
            (let* ctx := read decoder_ctx in emit (VaapiInit ctx)) ;;
          ret 0
      end
  end.

(** What lines 197-222 leave alone. *)
Definition setup_view (s : State) :=
  (pkt s, packets s, decoder s, decoder_ctx s, contexts s, buffers s, hw_device_ctx s,
   hw_pix_fmt s, current_frame s, next_frame s, ffmpeg_decoder s).

(** The ring as lines 199-215 build it: [Z.to_nat N] frames at consecutive
    fresh addresses from [m] on, in index order, and after them the transfer
    frame, allocated only when a device reference exists. *)
Definition ring_built (N : Z) (s s' : State) : Prop :=
  exists arr m,
    dec_frames s' = Some arr /\
    arrays s' !! arr = Some (slot_cells (seq m (Z.to_nat N))) /\
    dec_frames_cnt s' = N /\
    (forall a, a ∈ seq m (Z.to_nat N) -> is_Some (frames s' !! a)) /\
    (hw_device_ctx s' = None -> sw_frame s' = sw_frame s) /\
    (is_Some (hw_device_ctx s') ->
     forall x, sw_frame s' = Some x ->
       is_Some (frames s' !! x) /\ x ∉ seq m (Z.to_nat N)).

(** What lines 197-222 guarantee, from [s]. *)
Definition setup_facts (N : Z) (s : State) (r : Z) (s' : State) : Prop :=
  setup_view s' = setup_view s /\
  (exists tr,
     log s' = log s ++ tr /\ lookups tr = [] /\ invalid_frees tr = [] /\
     match r with
     | 0 => last tr = Some (Print stderr "Using FFmpeg decoder: %s") \/
            last tr = Some (VaapiInit (decoder_ctx s))
     | _ => r = -1 /\
            (last tr = Some (Print stderr "Couldn't allocate frames") \/
             last tr = Some (Print stderr "Couldn't allocate frame"))
     end) /\
  (r = 0 -> ring_built N s s').

(** ** [ffmpeg_init] as a whole *)

(** The messages that [ffmpeg_init] prints right before it returns -1. *)
Definition diagnostics : list (stream * string) :=
  [(stdout, "Couldn't allocate packet"%string); (stdout, "Video format not supported"%string);
   (stdout, "Couldn't allocate context"%string); (stdout, "Couldn't find decoder"%string);
   (stderr, "Couldn't allocate frames"%string); (stderr, "Couldn't allocate frame"%string)].

(** The names [ffmpeg_init] looks up when nothing stops it: those of the five
    iterations, with the preference that [perf_lvl] asks for. *)
Definition lookup_plan (hdr : Macros) (videoFormat perf_lvl : Z) : list string :=
  concat (names_at hdr videoFormat
            (if Z.land perf_lvl (VAAPI_ACCELERATION hdr) =? 0 then SOFTWARE else VAAPI)
          <$> seqZ 0 5).

(** What [ffmpeg_init] guarantees, from any state [s]. *)
Definition init_facts (hdr : Macros) (w : World) (videoFormat wd ht perf_lvl N threads : Z)
    (s : State) (r : Z) (s' : State) : Prop :=
  (exists tr,
     log s' = log s ++ tr /\
     lookups tr `prefix_of` lookup_plan hdr videoFormat perf_lvl /\
     match r with
     | 0 => lookups tr = lookup_plan hdr videoFormat perf_lvl /\
            (last tr = Some (Print stderr "Using FFmpeg decoder: %s") \/
             last tr = Some (VaapiInit (decoder_ctx s')))
     | _ => r = -1 /\
            exists out text, last tr = Some (Print out text) /\ (out, text) ∈ diagnostics
     end) /\
  (r = 0 ->
   supported hdr videoFormat = true /\
   decoder s' = foldl (fun _ nm => registry w nm) (decoder s)
                  (lookup_plan hdr videoFormat perf_lvl) /\
   is_Some (decoder s') /\
   ring_built N s s' /\
   (exists p, pkt s' = Some p /\ is_Some (packets s' !! p)) /\
   next_frame s' = next_frame s /\ current_frame s' = current_frame s /\
   ffmpeg_decoder s' =
     (if Z.land perf_lvl (VAAPI_ACCELERATION hdr) =? 0 then SOFTWARE else VAAPI)) /\
  ((forall dec, ctx_hw_device_ctx (fresh_context w dec) = None) ->
   heap_ok s -> heap_ok s' /\ invalid_frees (log s') = invalid_frees (log s)) /\
  (ctx_tuned hdr w wd ht perf_lvl threads s -> ctx_tuned hdr w wd ht perf_lvl threads s').

(** The documented priority order of the decoder names, by codec family and
    by the preference that [perf_lvl] asks for. *)
Definition priority_order (hdr : Macros) (videoFormat perf_lvl : Z) : list string :=
  let software := Z.land perf_lvl (VAAPI_ACCELERATION hdr) =? 0 in
  if negb (Z.land videoFormat (VIDEO_FORMAT_MASK_H264 hdr) =? 0) then
    if software
    then ["h264_nvv4l2"; "h264_nvmpi"; "h264_omx"; "h264_v4l2m2m"; "h264"]%string
    else ["h264"%string]
  else if negb (Z.land videoFormat (VIDEO_FORMAT_MASK_H265 hdr) =? 0) then
    if software
    then ["hevc_nvv4l2"; "hevc_nvmpi"; "hevc_omx"; "hevc_v4l2m2m"; "hevc"]%string
    else ["hevc"%string]
  else if negb (Z.land videoFormat (VIDEO_FORMAT_MASK_AV1 hdr) =? 0) then
    if software then ["libdav1d"; "av1"]%string else ["av1"%string]
  else [].

(** ** Teardown *)

(** A state that [ffmpeg_destroy] can take apart: the array holds the frames
    [slots], all different and all allocated; the transfer frame, if any, is
    allocated and is none of them; the packet, if any, is allocated; the
    device references are in order. *)
Definition teardown_ready (slots : list addr) (s : State) : Prop :=
  (exists arr, dec_frames s = Some arr /\ arrays s !! arr = Some (slot_cells slots)) /\
  dec_frames_cnt s = Z.of_nat (length slots) /\
  NoDup slots /\
  (forall a, a ∈ slots -> is_Some (frames s !! a)) /\
  (forall x, sw_frame s = Some x -> is_Some (frames s !! x) /\ x ∉ slots) /\
  (forall p, pkt s = Some p -> is_Some (packets s !! p)) /\
  heap_ok s.

(** The pool [m] once the object that [p] points to, if any, is released. *)
Definition release {A} (p : ptr) (m : gmap addr A) : gmap addr A :=
  match p with
  | Some a => delete a m
  | None => m
  end.

(** The device reference held by the context that decoder_ctx points to. *)
Definition held_device (s : State) : ptr :=
  match decoder_ctx s with
  | Some a =>
      match contexts s !! a with
      | Some c => ctx_hw_device_ctx c
      | None => None
      end
  | None => None
  end.

(** What [ffmpeg_destroy] leaves of such a state, whose array [arr] holds the
    frames [slots]: the four pointers are NULL; the transfer frame and the
    frames of the ring, the packet, the context decoder_ctx pointed to, the
    device reference of hw_device_ctx and the one that context held are
    released; the array is still there, every slot NULL; the release of the
    context is the one event.  Everything else is as it was, and so is
    whatever the statics did not point to. *)
Definition destroyed (arr : addr) (slots : list addr) (s : State) : State :=
  set_log (log s ++ match decoder_ctx s with
                    | Some a => [FreeContext a]
                    | None => []
                    end)
    (set_arrays (<[arr := replicate (length slots) (Pointer None)]> (arrays s))
       (set_frames (foldr delete (release (sw_frame s) (frames s)) slots)
          (set_contexts (release (decoder_ctx s) (contexts s))
             (set_buffers (release (held_device s) (release (hw_device_ctx s) (buffers s)))
                (set_packets (release (pkt s) (packets s))
                   (set_decoder_ctx None
                      (set_pkt None (set_hw_device_ctx None (set_sw_frame None s))))))))).

(** ** Further builds and runs *)

(** Software H.264 on a decoder that gives one frame and then needs more
    input: the second [avcodec_receive_frame] answers AVERROR(EAGAIN). *)
Definition starved_world : World :=
  {| registry := compiled_in ["h264"%string] [];
     answer := except AvcodecReceiveFrame 1 (AVERROR EAGAIN);
     decoded_format := fun _ => AV_PIX_FMT_YUV420P;
     fresh_context := plain_context |}.

(** Generic H.264 with a working VAAPI device; frames come out in the
    hardware format and transfers to system memory succeed. *)
Definition working_vaapi_world : World :=
  {| registry := compiled_in ["h264"%string] [vaapi_config];
     answer := all_succeed;
     decoded_format := fun _ => 44;
     fresh_context := plain_context |}.

(** Software H.264 on a machine with no memory left for the packet. *)
Definition no_packet_world : World :=
  {| registry := compiled_in ["h264"%string] [];
     answer := always AvPacketAlloc 0;
     decoded_format := fun _ => AV_PIX_FMT_YUV420P;
     fresh_context := plain_context |}.

(** That build with a ring of one slot, and the state after the first cycle. *)
Abbreviation starved_init := (ffmpeg_init sample_macros starved_world 1 1920 1080 0 1 4).
Abbreviation starved_ready := (state_of starved_init process_start).
Abbreviation starved_fed :=
  (state_of (session starved_world (one_cycle false)) starved_ready).
Abbreviation working_vaapi_init :=
  (ffmpeg_init sample_macros working_vaapi_world 1 1920 1080 128 3 4).
Abbreviation working_vaapi_ready := (state_of working_vaapi_init process_start).
Abbreviation working_vaapi_submitted :=
  (state_of (session working_vaapi_world [Submit [] 0]) working_vaapi_ready).

(** A Tegra build whose decoders deliver NV12 frames (pixel format 23), a
    format that is not hw_pix_fmt: frames are handed out as they lie in the
    ring. *)
Definition nv12_world : World :=
  {| registry := compiled_in ["h264_nvv4l2"%string; "h264"%string] [];
     answer := all_succeed;
     decoded_format := fun _ => 23;
     fresh_context := plain_context |}.

Abbreviation nv12_init := (ffmpeg_init sample_macros nv12_world 1 1920 1080 0 3 4).
Abbreviation nv12_ready := (state_of nv12_init process_start).

(** On that build: [ffmpeg_init] with three slots, [cycles] cycles and
    teardown; and then a second [ffmpeg_init] with [buffer_count] slots. *)
Definition first_session (cycles : nat) : M unit :=
  nv12_init ;;
  session nv12_world (concat (replicate cycles (one_cycle true))) ;;
  ffmpeg_destroy.

Definition second_init (cycles : nat) (buffer_count : Z) : M Z :=
  first_session cycles ;;
  ffmpeg_init sample_macros nv12_world 1 1920 1080 0 buffer_count 4.

(** The process after a first session with two receptions, and after the
    second [ffmpeg_init], again with three slots. *)
Abbreviation after_two_cycles := (state_of (first_session 2) process_start).
Abbreviation nv12_ready_again := (state_of nv12_init after_two_cycles).

(** The slot array that dec_frames points to. *)
Definition ring_cells (s : State) : option (list cell) :=
  match dec_frames s with
  | Some arr => arrays s !! arr
  | None => None
  end.

(** [ffmpeg_init] asked for a ring of no buffers at all. *)
Abbreviation empty_ring_init := (ffmpeg_init sample_macros software_world 1 1920 1080 0 0 4).
Abbreviation empty_ring_ready := (state_of empty_ring_init process_start).

(** The generic H.264 decoder advertising VAAPI, and the state in which
    [hwaccel_setup] finds the process when this is the first candidate: its
    context just allocated. *)
Definition h264_vaapi : AVCodec := {| name := "h264"; hw_configs := [vaapi_config] |}.
Definition vaapi_candidate : State :=
  context_allocated h264_vaapi (plain_context h264_vaapi) process_start.

(** A second, CUDA-like hardware configuration (sample values), and the
    generic H.264 decoder advertising it before VAAPI. *)
Definition cuda_config : AVCodecHWConfig :=
  {| methods := AV_CODEC_HW_CONFIG_METHOD_HW_DEVICE_CTX; device_type := 2;
     config_pix_fmt := 117 |}.
Definition h264_two_devices : AVCodec :=
  {| name := "h264"; hw_configs := [cuda_config; vaapi_config] |}.

(** A machine that has the VAAPI device but not the CUDA one: the first
    [av_hwdevice_ctx_create] fails, the second succeeds. *)
Definition second_device_world : World :=
  {| registry := compiled_in ["h264"%string] [cuda_config; vaapi_config];
     answer := except AvHwdeviceCtxCreate 0 (-19);
     decoded_format := fun _ => 44;
     fresh_context := plain_context |}.

(** The process when [hwaccel_setup] is called for that decoder as the first
    candidate: its context just allocated. *)
Definition two_devices_candidate : State :=
  context_allocated h264_two_devices (plain_context h264_two_devices) process_start.

(** * Reasoning about the embedding *)

(** ** Rules of the weakest precondition *)

Lemma wp_elim {A} (m : M A) Q s :
  wp m Q s -> exists a s', m s = Some (a, s') /\ Q a s'.
Proof.
  unfold wp. destruct (m s) as [[a s']|]; [eauto | tauto].
Qed.

Lemma wp_intro {A} (m : M A) (Q : A -> State -> Prop) s a s' :
  m s = Some (a, s') -> Q a s' -> wp m Q s.
Proof. unfold wp. intros ->. auto. Qed.

Lemma wp_mono {A} (m : M A) (Q Q' : A -> State -> Prop) s :
  wp m Q s -> (forall a s', Q a s' -> Q' a s') -> wp m Q' s.
Proof. unfold wp. destruct (m s) as [[a s']|]; auto. Qed.

Lemma wp_conj {A} (m : M A) (Q Q' : A -> State -> Prop) s :
  wp m Q s -> wp m Q' s -> wp m (fun a s' => Q a s' /\ Q' a s') s.
Proof. unfold wp. destruct (m s) as [[a s']|]; auto. Qed.

Lemma wp_rewrite {A} (m m' : M A) (Q : A -> State -> Prop) s s' :
  m s = m' s' -> wp m' Q s' -> wp m Q s.
Proof. unfold wp. intros ->. auto. Qed.

Lemma wp_ret {A} (a : A) (Q : A -> State -> Prop) s : Q a s -> wp (ret a) Q s.
Proof. auto. Qed.

Lemma wp_bind {A B} (m : M A) (k : A -> M B) (Q : B -> State -> Prop) s :
  wp m (fun a s' => wp (k a) Q s') s -> wp (bind m k) Q s.
Proof. unfold wp, bind. destruct (m s) as [[a s']|]; auto. Qed.

Lemma wp_read {A} (f : State -> A) (Q : A -> State -> Prop) s : Q (f s) s -> wp (read f) Q s.
Proof. auto. Qed.

Lemma wp_modify (f : State -> State) (Q : unit -> State -> Prop) s :
  Q tt (f s) -> wp (modify f) Q s.
Proof. auto. Qed.

Lemma wp_emit e (Q : unit -> State -> Prop) s :
  Q tt (set_log (log s ++ [e]) s) -> wp (emit e) Q s.
Proof. auto. Qed.

Lemma wp_when (b : bool) (m : M unit) (Q : unit -> State -> Prop) s :
  (b = true -> wp m Q s) -> (b = false -> Q tt s) -> wp (when b m) Q s.
Proof. destruct b; intros Ht Hf; [apply Ht | apply Hf]; reflexivity. Qed.

Lemma wp_next_addr (Q : addr -> State -> Prop) s :
  Q (brk s) (set_brk (S (brk s)) s) -> wp next_addr Q s.
Proof. auto. Qed.

Lemma wp_extern w c (Q : Z -> State -> Prop) s :
  Q (answer w c (calls s c)) (set_calls (bump c (calls s)) s) -> wp (extern w c) Q s.
Proof. auto. Qed.

(** One step of symbolic execution, chosen by the head of the computation.
    A sequence is entered only when it starts with a primitive, so that the
    execution stops in front of every call that needs a lemma of its own. *)
Ltac wp_step :=
  lazymatch goal with
  | |- wp (bind ?m _) _ _ =>
      lazymatch m with
      | bind _ _ => apply wp_bind
      | ret _ => apply wp_bind
      | read _ => apply wp_bind
      | emit _ => apply wp_bind
      | printf _ => apply wp_bind
      | fprintf_stderr _ => apply wp_bind
      | modify _ => apply wp_bind
      | next_addr => apply wp_bind
      | extern _ _ => apply wp_bind
      end
  | |- wp (ret _) _ _ => apply wp_ret
  | |- wp (read _) _ _ => apply wp_read
  | |- wp (emit _) _ _ => apply wp_emit
  | |- wp (printf _) _ _ => apply wp_emit
  | |- wp (fprintf_stderr _) _ _ => apply wp_emit
  | |- wp (modify _) _ _ => apply wp_modify
  | |- wp next_addr _ _ => apply wp_next_addr
  | |- wp (extern _ _) _ _ => apply wp_extern
  end.

(** Entering a sequence to use a lemma about its first computation. *)
Ltac wp_enter :=
  lazymatch goal with
  | |- wp (bind _ _) _ _ => apply wp_bind
  | |- _ => idtac
  end.

(** States are kept flat.  A proof starts from a state given by its fields;
    every update is then unfolded to the record it builds and the projections
    of that record are reduced, so that no state is ever nested in another. *)

(** Projections of a state given by its fields. *)
Ltac st_proj :=
  cbn [pkt decoder decoder_ctx dec_frames hw_device_ctx hw_pix_fmt sw_frame dec_frames_cnt
       current_frame next_frame ffmpeg_decoder packets contexts frames buffers arrays brk
       calls log].

Ltac st_proj_all :=
  cbn [pkt decoder decoder_ctx dec_frames hw_device_ctx hw_pix_fmt sw_frame dec_frames_cnt
       current_frame next_frame ffmpeg_decoder packets contexts frames buffers arrays brk
       calls log] in *.

(** Updates of such a state, in a goal that binds no state. *)
Ltac st_flat :=
  lazy [set_pkt set_decoder set_decoder_ctx set_dec_frames set_hw_device_ctx set_hw_pix_fmt
        set_sw_frame set_dec_frames_cnt set_current_frame set_next_frame set_ffmpeg_decoder
        set_packets set_contexts set_frames set_buffers set_arrays set_brk set_calls set_log
        pkt decoder decoder_ctx dec_frames hw_device_ctx hw_pix_fmt sw_frame dec_frames_cnt
        current_frame next_frame ffmpeg_decoder packets contexts frames buffers arrays brk
        calls log].

(** Case analysis on every test that guards the goal. *)
Ltac split_if :=
  repeat match goal with
         | |- context [if ?c then _ else _] => destruct c eqn:?
         end.

(** Use the outcomes of the tests where they show again. *)
Ltac reuse_tests :=
  repeat match goal with
         | H : ?c = _ |- context [?c] => rewrite H
         end.

Lemma bump_same c n : bump c n c = S (n c).
Proof. unfold bump. by rewrite decide_True. Qed.

Lemma bump_other c c' n : c' <> c -> bump c n c' = n c'.
Proof. intros. unfold bump. by rewrite decide_False. Qed.

(** Between two steps only the state is normalised; the program text stays
    as written. *)
Ltac wp_norm :=
  cbv beta;
  cbn [pkt decoder decoder_ctx dec_frames hw_device_ctx hw_pix_fmt sw_frame dec_frames_cnt
       current_frame next_frame ffmpeg_decoder packets contexts frames buffers arrays brk
       calls log];
  lazymatch goal with
  | |- wp ?m ?Q ?s =>
      let s' := eval lazy [set_pkt set_decoder set_decoder_ctx set_dec_frames
        set_hw_device_ctx set_hw_pix_fmt set_sw_frame set_dec_frames_cnt set_current_frame
        set_next_frame set_ffmpeg_decoder set_packets set_contexts set_frames set_buffers
        set_arrays set_brk set_calls set_log
        pkt decoder decoder_ctx dec_frames hw_device_ctx hw_pix_fmt sw_frame dec_frames_cnt
        current_frame next_frame ffmpeg_decoder packets contexts frames buffers arrays brk
        calls log] in s in
      change (wp m Q s')
  | |- _ => idtac
  end.

(** A test whose outcome is known. *)
Ltac wp_if :=
  lazymatch goal with
  | |- wp (if ?c then _ else _) _ _ =>
      lazymatch goal with
      | H : c = _ |- _ => rewrite H
      end
  | |- wp (bind (if ?c then _ else _) _) _ _ =>
      lazymatch goal with
      | H : c = _ |- _ => rewrite H
      end
  end.

Ltac wp_go :=
  wp_norm; repeat (first [wp_step | wp_if]; wp_norm);
  rewrite ?bump_same, ?bump_other by discriminate.

Lemma wp_int_add a b (Q : Z -> State -> Prop) s :
  INT_MIN <= a + b <= INT_MAX -> Q (a + b) s -> wp (int_add a b) Q s.
Proof.
  intros H HQ. unfold int_add.
  destruct (Z.leb_spec INT_MIN (a + b)), (Z.leb_spec (a + b) INT_MAX); try lia.
  exact HQ.
Qed.

Lemma wp_int_rem a b (Q : Z -> State -> Prop) s :
  0 <= a -> 0 < b -> Q (Z.rem a b) s -> wp (int_rem a b) Q s.
Proof.
  intros Ha Hb HQ. unfold int_rem.
  destruct (Z.eqb_spec b 0); [lia|].
  destruct (Z.eqb_spec a INT_MIN); [unfold INT_MIN in *; lia|].
  exact HQ.
Qed.

Lemma wp_frame_format a f (Q : Z -> State -> Prop) s :
  frames s !! a = Some f -> Q (format f) s -> wp (frame_format (Some a)) Q s.
Proof. intros Hf HQ. unfold wp, frame_format. rewrite Hf. exact HQ. Qed.

(** ** Calls on a ring that is ready *)

Section Ring.

Context (hdr : Macros) (w : World).

Lemma ready_slot N slots s i :
  ring_ready N slots s -> 0 <= i < N -> exists a, slots !! Z.to_nat i = Some a.
Proof.
  intros R Hi. apply lookup_lt_is_Some_2. pose proof (ready_length _ _ _ R). lia.
Qed.

Lemma wp_load_slot N slots s i a (Q : ptr -> State -> Prop) :
  ring_ready N slots s -> 0 <= i -> slots !! Z.to_nat i = Some a ->
  Q (Some a) s -> wp (load_slot i) Q s.
Proof.
  intros R Hi Ha HQ. destruct (ready_array _ _ _ R) as (arr & Harr & Hcells).
  unfold wp, load_slot. rewrite Harr, Hcells.
  destruct (Z.ltb_spec i 0); [lia|].
  rewrite list_lookup_fmap, Ha. exact HQ.
Qed.

Lemma get_frame_ready N slots s a native_frame :
  ring_ready N slots s ->
  slots !! Z.to_nat (next_frame s) = Some a ->
  ffmpeg_get_frame w native_frame s = Some (get_frame_outcome w native_frame s a).
Proof.
  intros R Ha.
  pose proof (ready_next _ _ _ R) as Hn. pose proof (ready_bound _ _ _ R) as HN.
  pose proof (ready_count _ _ _ R) as Hc.
  enough (wp (ffmpeg_get_frame w native_frame)
            (fun r s' => (r, s') = get_frame_outcome w native_frame s a) s) as H.
  { apply wp_elim in H as (r & s' & -> & ->). reflexivity. }
  unfold ffmpeg_get_frame, get_frame_outcome, transferred, not_received, received.
  destruct s. st_proj_all.
  wp_go. wp_enter. eapply wp_load_slot; [exact R | st_proj; lia | exact Ha |].
  wp_enter. unfold avcodec_receive_frame, av_frame_unref. wp_go. wp_enter.
  rewrite ?insert_insert_eq.
  destruct (answer w AvcodecReceiveFrame (calls0 AvcodecReceiveFrame) =? 0) eqn:He.
  - pose proof (proj1 (Z.eqb_eq _ _) He) as He0.
    unfold when. wp_go. wp_enter.
    apply wp_int_add; [unfold INT_MAX, INT_MIN in *; lia|].
    wp_go. wp_enter. apply wp_int_rem; [lia .. |].
    wp_go.
    destruct (bool_decide (ffmpeg_decoder0 = SOFTWARE) || native_frame).
    + wp_go. wp_enter. eapply wp_frame_format; [st_proj; apply lookup_insert_eq|].
      wp_go. cbn [format].
      destruct (decoded_format w (calls0 AvcodecReceiveFrame) =? hw_pix_fmt0).
      * wp_go. wp_enter. unfold av_hwframe_transfer_data. wp_go.
        destruct (answer w AvHwframeTransferData (calls0 AvHwframeTransferData) <? 0) eqn:Ht.
        -- wp_go. st_flat. rewrite He0, insert_insert_eq. reflexivity.
        -- wp_go. st_flat. rewrite He0, insert_insert_eq. reflexivity.
      * wp_go. st_flat. rewrite He0, insert_insert_eq. reflexivity.
    + wp_go. st_flat. rewrite He0, insert_insert_eq. reflexivity.
  - unfold when. wp_go. wp_enter.
    destruct (answer w AvcodecReceiveFrame (calls0 AvcodecReceiveFrame) =? AVERROR EAGAIN);
      simpl negb; cbv iota; wp_go; st_flat; reflexivity.
Qed.

Lemma ring_ready_transport N slots s s' :
  ring_ready N slots s ->
  dec_frames_cnt s' = dec_frames_cnt s ->
  dec_frames s' = dec_frames s ->
  arrays s' = arrays s ->
  (forall a, is_Some (frames s !! a) -> is_Some (frames s' !! a)) ->
  pkt s' = pkt s ->
  (forall p, is_Some (packets s !! p) -> is_Some (packets s' !! p)) ->
  0 <= current_frame s' < N ->
  0 <= next_frame s' < N ->
  ring_ready N slots s'.
Proof.
  intros [Hc Hb (arr & Harr & Hcells) Hl Hf (p & Hp & Hpk) _ _] Ec Ed Ea Ef Ep Epk Hcur Hnxt.
  split; try assumption.
  - congruence.
  - exists arr. rewrite Ed, Ea. auto.
  - auto.
  - exists p. rewrite Ep. auto.
Qed.

Lemma rem_in_ring N i : 1 <= N -> 0 <= i < N -> 0 <= Z.rem (i + 1) N < N.
Proof. intros HN Hi. rewrite Z.rem_mod_nonneg by lia. apply Z.mod_pos_bound. lia. Qed.

Lemma is_Some_insert {A} (m : gmap addr A) a b x :
  is_Some (m !! b) -> is_Some (<[a := x]> m !! b).
Proof.
  intros Hb. destruct (decide (a = b)) as [->|Hne].
  - rewrite lookup_insert_eq. eauto.
  - by rewrite lookup_insert_ne.
Qed.

Lemma ring_ready_get_frame N slots s a b :
  ring_ready N slots s -> ring_ready N slots (get_frame_outcome w b s a).2.
Proof.
  intros R. pose proof (ready_next _ _ _ R) as Hn. pose proof (ready_current _ _ _ R) as Hcur.
  pose proof (ready_bound _ _ _ R) as HN. pose proof (ready_count _ _ _ R) as Hc.
  apply (ring_ready_transport N slots s); [exact R | ..];
    unfold get_frame_outcome, transferred, not_received, received;
    destruct s; st_proj_all; subst;
    split_if; cbn [snd]; st_flat;
    auto using is_Some_insert; apply rem_in_ring; lia.
Qed.

Lemma wp_update_pkt f p pk (Q : unit -> State -> Prop) s :
  pkt s = Some p -> packets s !! p = Some pk ->
  Q tt (set_packets (<[p := f pk]> (packets s)) s) -> wp (update_pkt f) Q s.
Proof. intros Hp Hpk HQ. unfold wp, update_pkt. rewrite Hp, Hpk. exact HQ. Qed.

Lemma decode_ready N slots s p indata inlen :
  ring_ready N slots s ->
  pkt s = Some p ->
  ffmpeg_decode w indata inlen s =
    Some (let err := answer w AvcodecSendPacket (calls s AvcodecSendPacket) in
          if err <? 0 then err else 0, submitted w s p indata inlen).
Proof.
  intros R Hp. destruct (ready_packet _ _ _ R) as (p' & Hp' & [pk Hpk]).
  assert (p' = p) as -> by congruence. clear Hp'.
  enough (wp (ffmpeg_decode w indata inlen)
            (fun r s' => (r, s') =
               (let err := answer w AvcodecSendPacket (calls s AvcodecSendPacket) in
                if err <? 0 then err else 0, submitted w s p indata inlen)) s) as H.
  { apply wp_elim in H as (r & s' & -> & ->). reflexivity. }
  unfold ffmpeg_decode, submitted. clear R. destruct s. st_proj_all. subst.
  wp_go. wp_enter. eapply wp_update_pkt; [reflexivity | exact Hpk |].
  wp_go. wp_enter. eapply wp_update_pkt; [reflexivity | st_proj; apply lookup_insert_eq |].
  wp_go. wp_enter. unfold avcodec_send_packet. wp_go.
  rewrite lookup_insert_eq, insert_insert_eq. cbn [from_option pkt_size pkt_data].
  destruct (answer w AvcodecSendPacket (calls0 AvcodecSendPacket) <? 0) eqn:He;
    wp_enter; unfold when; wp_go; st_flat; rewrite ?He; reflexivity.
Qed.

Lemma ring_ready_submitted N slots s p indata inlen :
  ring_ready N slots s -> ring_ready N slots (submitted w s p indata inlen).
Proof.
  intros R. pose proof (ready_next _ _ _ R) as Hn. pose proof (ready_current _ _ _ R) as Hcur.
  apply (ring_ready_transport N slots s); [exact R | ..];
    unfold submitted; destruct s; st_proj_all;
    split_if; st_flat; auto using is_Some_insert.
Qed.

End Ring.

(** ** Sessions: any interleaving of submissions and receptions *)

Section Session.

Context (hdr : Macros) (w : World).

Lemma success_slots_app tr1 tr2 :
  success_slots (tr1 ++ tr2) = success_slots tr1 ++ success_slots tr2.
Proof. unfold success_slots. apply omap_app. Qed.

(** What one call does to a ready ring: either no frame was received and the
    indices are untouched, or one was, into the slot [next_frame] named. *)
Lemma perform_ready N slots c s :
  ring_ready N slots s ->
  exists r s' tr,
    perform w c s = Some (r, s') /\ ring_ready N slots s' /\ log s' = log s ++ tr /\
    ((success_slots tr = [] /\ next_frame s' = next_frame s /\
      current_frame s' = current_frame s) \/
     (exists a, slots !! Z.to_nat (next_frame s) = Some a /\
                success_slots tr = [(next_frame s, Some a)] /\
                current_frame s' = next_frame s /\
                next_frame s' = (next_frame s + 1) mod N)).
Proof.
  intros R. destruct c as [indata inlen | native_frame]; unfold perform, bind.
  - destruct (ready_packet _ _ _ R) as (p & Hp & _).
    rewrite (decode_ready w N slots s p indata inlen R Hp).
    pose proof (ring_ready_submitted w N slots s p indata inlen R) as R'.
    assert (exists tr, log (submitted w s p indata inlen) = log s ++ tr /\
              success_slots tr = [] /\
              next_frame (submitted w s p indata inlen) = next_frame s /\
              current_frame (submitted w s p indata inlen) = current_frame s)
      as (tr & Hlog & Htr).
    { clear R R' Hp. unfold submitted. destruct s. st_flat.
      destruct (answer w AvcodecSendPacket (calls0 AvcodecSendPacket) <? 0); st_flat;
        rewrite <- ?app_assoc; (eexists; split; [reflexivity|]); cbn; auto. }
    eexists _, _, tr. split; [reflexivity|]. split; [exact R'|]. split; [exact Hlog|].
    left. exact Htr.
  - pose proof (ready_next _ _ _ R) as Hn. pose proof (ready_bound _ _ _ R) as HN.
    pose proof (ready_count _ _ _ R) as Hc.
    destruct (ready_slot N slots s (next_frame s) R Hn) as [a Ha].
    rewrite (get_frame_ready w N slots s a native_frame R Ha).
    pose proof (ring_ready_get_frame w N slots s a native_frame R) as R'.
    destruct (get_frame_outcome w native_frame s a) as [r s'] eqn:Hout.
    exists (inr r), s'. cbn [snd] in R'.
    assert (exists tr, log s' = log s ++ tr /\
      ((success_slots tr = [] /\ next_frame s' = next_frame s /\
        current_frame s' = current_frame s) \/
       (success_slots tr = [(next_frame s, Some a)] /\
        current_frame s' = next_frame s /\
        next_frame s' = (next_frame s + 1) mod N))) as (tr & Hlog & Hcase).
    { clear R R'. revert Hout.
      unfold get_frame_outcome, transferred, not_received, received.
      destruct s. st_proj_all. subst dec_frames_cnt0.
      rewrite <- (Z.rem_mod_nonneg (next_frame0 + 1) N) by lia.
      split_if; intros [= <- <-]; st_flat; rewrite <- ?app_assoc;
        (eexists; split; [reflexivity|]); cbn; reuse_tests; auto. }
    exists tr. split; [reflexivity|]. split; [exact R'|]. split; [exact Hlog|].
    destruct Hcase as [?|?]; [left; assumption | right; exists a; tauto].
Qed.

Lemma ring_step_mod N n k : 1 <= N -> ((n + 1) mod N + k) mod N = (n + (1 + k)) mod N.
Proof. intros HN. rewrite Zplus_mod_idemp_l. f_equal. lia. Qed.

(** Any interleaving runs to the end on a ready ring, keeps it ready, and
    takes the slots round-robin from [next_frame] on. *)
Lemma session_ready N slots cs :
  forall s, ring_ready N slots s ->
  exists rs s' tr,
    session w cs s = Some (rs, s') /\ ring_ready N slots s' /\ log s' = log s ++ tr /\
    next_frame s' = (next_frame s + Z.of_nat (length (success_slots tr))) mod N /\
    forall (k : nat) slot frame,
      success_slots tr !! k = Some (slot, frame) ->
      slot = (next_frame s + Z.of_nat k) mod N /\
      (Some <$> slots) !! Z.to_nat slot = Some frame.
Proof.
  induction cs as [|c cs IH]; intros s R.
  - exists [], s, []. pose proof (ready_next _ _ _ R). cbn.
    rewrite app_nil_r, Z.add_0_r, Z.mod_small by lia.
    split; [reflexivity|]. split; [exact R|]. split; [reflexivity|]. split; [reflexivity|].
    intros k slot frame Hk. rewrite lookup_nil in Hk. discriminate.
  - pose proof (ready_bound _ _ _ R) as HN. pose proof (ready_next _ _ _ R) as Hn.
    destruct (perform_ready N slots c s R) as (r & s1 & tr1 & Hp & R1 & Hl1 & Hcase).
    destruct (IH s1 R1) as (rs & s' & tr2 & Hs & R' & Hl2 & Hnext & Hslots).
    exists (r :: rs), s', (tr1 ++ tr2).
    split. { cbn [session]. unfold bind. rewrite Hp, Hs. reflexivity. }
    split; [exact R'|].
    split. { rewrite Hl2, Hl1, app_assoc. reflexivity. }
    rewrite success_slots_app.
    destruct Hcase as [(Hnone & Hn1 & _) | (a & Ha & Hone & _ & Hn1)].
    + rewrite Hnone. cbn [app]. rewrite <- Hn1. split; [exact Hnext | exact Hslots].
    + rewrite Hone. cbn [app length]. split.
      * rewrite Hnext, Hn1, ring_step_mod by lia. f_equal. lia.
      * intros [|k] slot frame Hk.
        -- cbn in Hk. injection Hk as <- <-.
           rewrite Z.add_0_r, Z.mod_small by lia.
           split; [reflexivity|]. rewrite list_lookup_fmap, Ha. reflexivity.
        -- cbn in Hk. destruct (Hslots k slot frame Hk) as [Hslot Hframe].
           split; [|exact Hframe].
           rewrite Hslot, Hn1, ring_step_mod by lia. f_equal. lia.
Qed.

End Session.

(** ** Decoder selection *)

Section Cascade.

Context (hdr : Macros) (w : World).

Lemma wp_update_ctx f a c (Q : unit -> State -> Prop) s :
  decoder_ctx s = Some a -> contexts s !! a = Some c ->
  Q tt (set_contexts (<[a := f c]> (contexts s)) s) -> wp (update_ctx f) Q s.
Proof. intros Ha Hc HQ. unfold wp, update_ctx. rewrite Ha, Hc. exact HQ. Qed.

(** The context that [decoder_ctx] points to is the one last stored. *)
Ltac wp_ctx :=
  wp_enter;
  eapply wp_update_ctx;
  [ reflexivity
  | st_proj; rewrite ?lookup_insert_eq; first [reflexivity | eassumption]
  | ];
  wp_go; rewrite ?insert_insert_eq.

(** Splitting on the test at the head of the computation. *)
Ltac wp_case :=
  lazymatch goal with
  | |- wp (when _ _) _ _ => unfold when at 1
  | |- wp (bind (when _ _) _) _ _ => apply wp_bind; unfold when at 1
  | |- wp (if ?c then _ else _) _ _ => destruct c eqn:?
  | |- wp (bind (if ?c then _ else _) _) _ _ => apply wp_bind; destruct c eqn:?
  end.

Ltac wp_auto := wp_go; repeat (wp_case; wp_go).

(** [hwaccel_scan] needs the context that [decoder_ctx] points to; it changes
    nothing of the ring, keeps the context in place and opens nothing. *)
Lemma hwaccel_scan_frame configs :
  forall type s a c,
    decoder_ctx s = Some a -> contexts s !! a = Some c ->
    wp (hwaccel_scan w configs type)
       (fun _ s' => ring_view s' = ring_view s /\ decoder s' = decoder s /\
                    decoder_ctx s' = Some a /\
                    calls s' AvcodecOpen2 = calls s AvcodecOpen2 /\
                    (exists c', contexts s' = <[a := c']> (contexts s)) /\
                    exists tr, log s' = log s ++ tr) s.
Proof.
  induction configs as [|config rest IH]; intros type s a c Ha Hc; cbn [hwaccel_scan].
  - wp_go. repeat split; auto.
    + exists c. by rewrite insert_id.
    + exists []. by rewrite app_nil_r.
  - destruct (Z.land (methods config) AV_CODEC_HW_CONFIG_METHOD_HW_DEVICE_CTX =? 0).
    { eapply IH; eauto. }
    destruct s. st_proj_all. subst.
    wp_go. wp_enter. unfold av_hwdevice_ctx_create. wp_go.
    destruct (answer w AvHwdeviceCtxCreate (calls0 AvHwdeviceCtxCreate) <? 0) eqn:Herr.
    + wp_go. eapply wp_mono; [eapply IH with (a := a) (c := c); st_proj; auto|].
      intros _ s' (Hv & Hd & Hdc & Hop & Hcs & tr & Hlog).
      revert Hv Hd Hdc Hop Hcs Hlog. unfold ring_view. st_proj.
      rewrite ?bump_other by discriminate. intros. repeat split; auto.
      rewrite Hlog, <- !app_assoc. eauto.
    + wp_go. wp_enter. eapply wp_update_ctx; [reflexivity | exact Hc |].
      wp_go. wp_enter. unfold av_buffer_ref. wp_go. rewrite lookup_insert_eq.
      wp_go.
      destruct (answer w AvBufferRef (calls0 AvBufferRef) =? 0) eqn:Href.
      * wp_go. wp_ctx. unfold ring_view. st_proj. rewrite ?bump_other by discriminate.
        repeat split; eauto. rewrite <- !app_assoc. eauto.
      * wp_go. wp_ctx. unfold ring_view. st_proj. rewrite ?bump_other by discriminate.
        repeat split; eauto. rewrite <- !app_assoc. eauto.
Qed.

Lemma hwaccel_setup_frame dec s a c :
  decoder_ctx s = Some a -> contexts s !! a = Some c ->
  wp (hwaccel_setup w dec)
     (fun _ s' => ring_view s' = ring_view s /\ decoder s' = decoder s /\
                  decoder_ctx s' = Some a /\
                  calls s' AvcodecOpen2 = calls s AvcodecOpen2 /\
                  (exists c', contexts s' = <[a := c']> (contexts s)) /\
                  exists tr, log s' = log s ++ tr) s.
Proof.
  intros Ha Hc. unfold hwaccel_setup. apply wp_bind.
  eapply wp_mono; [eapply hwaccel_scan_frame; eauto|].
  intros type s1 (Hv & Hd & Hdc & Hop & Hcs & tr & Hlog).
  destruct (type =? AV_HWDEVICE_TYPE_NONE); [|wp_go; eauto 10].
  revert Hv Hd Hdc Hop Hcs Hlog. unfold ring_view. destruct s1, s. st_proj.
  intros. wp_go. repeat split; auto.
  subst. rewrite <- !app_assoc. eauto.
Qed.

Lemma select_candidate_spec videoFormat try s :
  wp (select_candidate hdr w videoFormat try)
     (fun c s' =>
        exists d l, s' = set_log l (set_decoder d s) /\
                    (exists tr, l = log s ++ tr) /\
                    (d = decoder s \/ exists nm, d = registry w nm) /\
                    match c with
                    | Next => True
                    | Return r => r = -1 /\ d = decoder s /\
                                  last l = Some (Print stdout "Video format not supported")
                    end) s.
Proof.
  destruct s. unfold select_candidate, find_decoder, avcodec_find_decoder_by_name.
  wp_auto; st_flat; eexists _, _; (split; [reflexivity|]);
    (split; [rewrite <- ?app_assoc; first [by eexists | by exists []; rewrite app_nil_r]|]);
    (split; [first [by left | right; by eexists]|]);
    try exact I.
  split; [reflexivity|]. split; [reflexivity|]. apply last_snoc.
Qed.

(** One candidate: the ring is left alone; the function is left only when the
    context cannot be allocated; afterwards the context is in place if the
    codec opened and gone if it did not. *)
Lemma open_candidate_frame dec width height perf_lvl thread_count s :
  wp (open_candidate hdr w dec width height perf_lvl thread_count)
     (fun c s' =>
        ring_view s' = ring_view s /\ decoder s' = decoder s /\
        (exists tr, log s' = log s ++ tr) /\
        match c with
        | Return r =>
            r = -1 /\ contexts s' = contexts s /\ decoder_ctx s' = None /\
            last (log s') = Some (Print stdout "Couldn't allocate context")
        | Next =>
            exists a cx,
              (answer w AvcodecOpen2 (calls s AvcodecOpen2) < 0 ->
               decoder_ctx s' = None /\
               contexts s' = delete a (<[a := cx]> (contexts s))) /\
              (0 <= answer w AvcodecOpen2 (calls s AvcodecOpen2) ->
               decoder_ctx s' = Some a /\ contexts s' = <[a := cx]> (contexts s))
        end) s.
Proof.
  destruct s. unfold open_candidate. wp_go. wp_enter. unfold avcodec_alloc_context3. wp_go.
  destruct (answer w AvcodecAllocContext3 (calls0 AvcodecAllocContext3) =? 0) eqn:Halloc.
  { wp_go. unfold ring_view. st_proj. rewrite ?bump_other by discriminate.
    repeat split; auto.
    - rewrite <- !app_assoc. eauto.
    - apply last_snoc. }
  wp_go. do 4 wp_ctx.
  assert (forall c0 l0,
    wp (let* hwaccel :=
          match avcodec_get_hw_config dec 0 with
          | Some _ => hwaccel_setup w dec
          | None => ret false
          end in
        when (negb hwaccel) (update_ctx (set_pix_fmt AV_PIX_FMT_YUV420P)) ;;
        let* err := avcodec_open2 w dec in
        if err <? 0 then
          printf "Couldn't open codec: %s" ;;
          let* p := read decoder_ctx in
          avcodec_free_context p ;;
          modify (set_decoder_ctx None) ;;
          ret Next
        else ret Next)
       (fun c s' =>
          ring_view s' =
            ring_view (Build_State pkt0 decoder0 decoder_ctx0 dec_frames0 hw_device_ctx0
                         hw_pix_fmt0 sw_frame0 dec_frames_cnt0 current_frame0 next_frame0
                         ffmpeg_decoder0 packets0 contexts0 frames0 buffers0 arrays0 brk0
                         calls0 log0) /\
          decoder s' = decoder0 /\ (exists tr, log s' = log0 ++ tr) /\
          c = Next /\
          exists cx,
            (answer w AvcodecOpen2 (calls0 AvcodecOpen2) < 0 ->
             decoder_ctx s' = None /\
             contexts s' = delete brk0 (<[brk0 := cx]> contexts0)) /\
            (0 <= answer w AvcodecOpen2 (calls0 AvcodecOpen2) ->
             decoder_ctx s' = Some brk0 /\ contexts s' = <[brk0 := cx]> contexts0))
       (Build_State pkt0 decoder0 (Some brk0) dec_frames0 hw_device_ctx0
          hw_pix_fmt0 sw_frame0 dec_frames_cnt0 current_frame0 next_frame0
          ffmpeg_decoder0 packets0 (<[brk0 := c0]> contexts0) frames0 buffers0 arrays0
          (S brk0) (bump AvcodecAllocContext3 calls0) (log0 ++ l0))) as Hrest.
  { intros c0 l0. apply wp_bind.
    eapply wp_mono with
      (Q := fun _ s' =>
              ring_view s' =
                ring_view (Build_State pkt0 decoder0 decoder_ctx0 dec_frames0 hw_device_ctx0
                             hw_pix_fmt0 sw_frame0 dec_frames_cnt0 current_frame0 next_frame0
                             ffmpeg_decoder0 packets0 contexts0 frames0 buffers0 arrays0 brk0
                             calls0 log0) /\
              decoder s' = decoder0 /\ decoder_ctx s' = Some brk0 /\
              calls s' AvcodecOpen2 = calls0 AvcodecOpen2 /\
              (exists c', contexts s' = <[brk0 := c']> contexts0) /\
              exists tr, log s' = log0 ++ tr).
    { destruct (avcodec_get_hw_config dec 0).
      - eapply wp_mono; [eapply hwaccel_setup_frame with (a := brk0) (c := c0);
                         st_proj; [reflexivity | apply lookup_insert_eq]|].
        intros _ s' (Hv & Hd & Hdc & Hop & (c' & Hcs) & tr & Hlog).
        revert Hv Hd Hdc Hop Hcs Hlog. unfold ring_view. st_proj.
        rewrite ?bump_other by discriminate. intros. repeat split; auto.
        + exists c'. rewrite Hcs. apply insert_insert_eq.
        + rewrite Hlog, <- app_assoc. eauto.
      - wp_go. unfold ring_view. st_proj. rewrite ?bump_other by discriminate.
        repeat split; eauto. }
    intros hwaccel s1 (Hv & Hd & Hdc & Hop & (c' & Hcs) & tr & Hlog).
    revert Hv Hd Hdc Hop Hcs Hlog. unfold ring_view. destruct s1. st_proj.
    intros [= -> -> -> -> -> -> -> -> -> -> Hfa Hma] -> -> Hop -> ->.
    assert (forall c1,
      wp (let* err := avcodec_open2 w dec in
          if err <? 0 then
            printf "Couldn't open codec: %s" ;;
            let* p := read decoder_ctx in
            avcodec_free_context p ;;
            modify (set_decoder_ctx None) ;;
            ret Next
          else ret Next)
         (fun c s' =>
            (pkt s', dec_frames s', sw_frame s', dec_frames_cnt s', current_frame s',
             next_frame s', ffmpeg_decoder s', packets s', frames s', arrays s',
             calls s' AvFrameAlloc, calls s' Malloc) =
            (pkt0, dec_frames0, sw_frame0, dec_frames_cnt0, current_frame0, next_frame0,
             ffmpeg_decoder0, packets0, frames0, arrays0, calls0 AvFrameAlloc,
             calls0 Malloc) /\
            decoder s' = decoder0 /\ (exists tr', log s' = log0 ++ tr') /\
            c = Next /\
            exists cx,
              (answer w AvcodecOpen2 (calls0 AvcodecOpen2) < 0 ->
               decoder_ctx s' = None /\
               contexts s' = delete brk0 (<[brk0 := cx]> contexts0)) /\
              (0 <= answer w AvcodecOpen2 (calls0 AvcodecOpen2) ->
               decoder_ctx s' = Some brk0 /\ contexts s' = <[brk0 := cx]> contexts0))
         (Build_State pkt0 decoder0 (Some brk0) dec_frames0 hw_device_ctx1 hw_pix_fmt1
            sw_frame0 dec_frames_cnt0 current_frame0 next_frame0 ffmpeg_decoder0 packets0
            (<[brk0 := c1]> contexts0) frames0 buffers1 arrays0 brk1 calls1 (log0 ++ tr)))
      as Hopen.
    { intros c1. wp_enter. unfold avcodec_open2. wp_go. rewrite lookup_insert_eq. wp_go.
      rewrite Hop.
      destruct (answer w AvcodecOpen2 (calls0 AvcodecOpen2) <? 0) eqn:Herr.
      - apply Z.ltb_lt in Herr.
        wp_go. wp_enter. unfold avcodec_free_context. wp_go. rewrite lookup_insert_eq.
        wp_go. wp_enter.
        unfold av_buffer_unref. destruct (ctx_hw_device_ctx c1) as [b|].
        + wp_go. destruct (buffers1 !! b); wp_go;
            rewrite ?bump_other, Hfa, Hma by discriminate;
            (split; [reflexivity|]); (split; [reflexivity|]);
            (split; [rewrite <- !app_assoc; eauto|]); (split; [reflexivity|]);
            exists c1; (split; [auto | lia]).
        + wp_go. rewrite ?bump_other, Hfa, Hma by discriminate.
          split; [reflexivity|]. split; [reflexivity|].
          split; [rewrite <- !app_assoc; eauto|]. split; [reflexivity|].
          exists c1. split; [auto | lia].
      - apply Z.ltb_ge in Herr. wp_go.
        rewrite ?bump_other, Hfa, Hma by discriminate.
        split; [reflexivity|]. split; [reflexivity|].
        split; [rewrite <- !app_assoc; eauto|]. split; [reflexivity|].
        exists c1. split; [lia | auto]. }
    apply wp_bind. destruct hwaccel; unfold when, negb.
    - apply wp_ret. wp_norm. eapply wp_mono; [apply Hopen|].
      unfold ring_view. st_proj. auto.
    - eapply wp_update_ctx; [reflexivity | st_proj; apply lookup_insert_eq |].
      wp_norm. rewrite insert_insert_eq. eapply wp_mono; [apply Hopen|].
      unfold ring_view. st_proj. auto. }
  destruct (negb (Z.land perf_lvl (SLICE_THREADING hdr) =? 0)).
  - wp_enter. wp_go. do 2 wp_ctx. do 2 wp_ctx. rewrite <- !app_assoc.
    eapply wp_mono; [apply Hrest|].
    intros c s' (Hv & Hd & Hl & -> & cx & Hcx). eauto 10.
  - wp_enter. wp_go. wp_ctx. do 2 wp_ctx. rewrite <- !app_assoc.
    eapply wp_mono; [apply Hrest|].
    intros c s' (Hv & Hd & Hl & -> & cx & Hcx). eauto 10.
Qed.

Lemma cascade_post_trans s1 s2 s3 c :
  cascade_post w s1 Next s2 -> cascade_post w s2 c s3 -> cascade_post w s1 c s3.
Proof.
  intros (Hv1 & (tr1 & Hl1) & _ & Hf1 & Hn1) (Hv2 & (tr2 & Hl2) & Hc2 & Hf2 & Hn2).
  split; [congruence|].
  split; [exists (tr1 ++ tr2); rewrite Hl2, Hl1, app_assoc; reflexivity|].
  split; [exact Hc2|]. split.
  - intros Hall He Hd. destruct (Hf1 Hall He Hd). auto.
  - intros Hall Hd. destruct (Hn1 Hall Hd) as (Hd2 & Hc1 & Hx1).
    destruct (Hn2 Hall Hd2) as (Hd3 & Hc3 & Hx3). split; [auto|]. split; congruence.
Qed.

Lemma init_try_post videoFormat width height perf_lvl thread_count try s :
  wp (init_try hdr w videoFormat width height perf_lvl thread_count try)
     (cascade_post w s) s.
Proof.
  unfold init_try. apply wp_bind.
  eapply wp_mono; [apply select_candidate_spec|].
  intros c s1 (d & l & -> & (tr & ->) & Hd & Hc). destruct s. st_proj_all.
  destruct c as [|r].
  - wp_go. destruct d as [dec|].
    + eapply wp_mono; [apply open_candidate_frame|].
      intros c s' (Hv & Hdec & (tr' & Hlog) & Hcase). revert Hv Hdec Hlog Hcase.
      unfold cascade_post, ring_view. st_flat. intros Hv Hdec Hlog Hcase.
      split; [exact Hv|].
      split; [rewrite Hlog, <- app_assoc; eauto|].
      split.
      { destruct c as [|r]; [by left|]. right.
        destruct Hcase as (-> & _ & _ & Hlast). eauto. }
      split.
      * intros Hall -> ->. destruct c as [|r].
        -- destruct Hcase as (a & cx & Hfail & _).
           destruct (Hfail (Hall _)) as [-> ->].
           by rewrite delete_insert_eq, delete_empty.
        -- destruct Hcase as (_ & -> & -> & _). auto.
      * intros Hnone ->. destruct Hd as [Hd | [nm Hd]]; [discriminate|].
        rewrite Hnone in Hd. discriminate.
    + unfold cascade_post, ring_view. st_flat.
      split; [reflexivity|]. split; [eauto|]. split; [by left|]. split; [auto|].
      intros. auto.
  - destruct Hc as (-> & -> & Hlast). wp_go.
    unfold cascade_post, ring_view. st_flat.
    split; [reflexivity|]. split; [eauto|]. split; [right; eauto|]. split; [auto|].
    intros. auto.
Qed.

Lemma init_loop_post videoFormat width height perf_lvl thread_count tries :
  forall s,
    wp (init_loop hdr w videoFormat width height perf_lvl thread_count tries)
       (cascade_post w s) s.
Proof.
  induction tries as [|try rest IH]; intros s; cbn [init_loop].
  - wp_go. unfold cascade_post. split; [reflexivity|].
    split; [exists []; by rewrite app_nil_r|]. split; [by left|]. split; auto.
  - apply wp_bind. eapply wp_mono; [apply init_try_post|].
    intros c s1 H1. destruct c as [|r].
    + eapply wp_mono; [apply IH|]. intros c s2 H2. eapply cascade_post_trans; eauto.
    + wp_go. exact H1.
Qed.

End Cascade.

(** ** Building the frame ring *)

Section RingAllocation.

Context (hdr : Macros) (w : World).

Lemma wp_store_slot i p arr cells (Q : unit -> State -> Prop) s :
  dec_frames s = Some arr -> arrays s !! arr = Some cells ->
  0 <= i < Z.of_nat (length cells) ->
  Q tt (set_arrays (<[arr := <[Z.to_nat i := Pointer p]> cells]> (arrays s)) s) ->
  wp (store_slot i p) Q s.
Proof.
  intros Harr Hcells Hi HQ. unfold wp, store_slot. rewrite Harr, Hcells.
  destruct (Z.ltb_spec i 0); [lia|].
  destruct (Z.leb_spec (Z.of_nat (length cells)) i); [lia|]. exact HQ.
Qed.

Lemma slot_cells_snoc filled a (rest : list cell) :
  <[length filled := Pointer (Some a)]> (slot_cells filled ++ Indeterminate :: rest) =
  slot_cells (filled ++ [a]) ++ rest.
Proof.
  unfold slot_cells. rewrite fmap_app, <- app_assoc. cbn [fmap list_fmap app].
  rewrite insert_app_r_alt by (rewrite length_fmap; lia).
  rewrite length_fmap, Nat.sub_diag. reflexivity.
Qed.

Lemma slot_cells_null filled (rest : list cell) :
  <[length filled := Pointer None]> (slot_cells filled ++ Indeterminate :: rest) =
  slot_cells filled ++ Pointer None :: rest.
Proof.
  unfold slot_cells.
  rewrite insert_app_r_alt by (rewrite length_fmap; lia).
  rewrite length_fmap, Nat.sub_diag. reflexivity.
Qed.

(** The loop that fills the array, entered with [filled] already in place and
    [n] cells to go.  It touches the frames, the array, the allocator and, on
    failure, the trace; it releases nothing. *)
Lemma alloc_frames_spec n :
  forall s arr filled,
    dec_frames s = Some arr ->
    arrays s !! arr = Some (slot_cells filled ++ replicate n Indeterminate) ->
    (forall a, a ∈ filled -> is_Some (frames s !! a)) ->
    wp (alloc_frames w (seqZ (Z.of_nat (length filled)) (Z.of_nat n)))
       (fun c s' =>
          alloc_view s' = alloc_view s /\
          (forall a, is_Some (frames s !! a) -> is_Some (frames s' !! a)) /\
          match c with
          | Next =>
              log s' = log s /\
              exists slots, arrays s' !! arr = Some (slot_cells slots) /\
                            length slots = (length filled + n)%nat /\
                            forall a, a ∈ slots -> is_Some (frames s' !! a)
          | Return r =>
              r = -1 /\
              last (log s') = Some (Print stderr "Couldn't allocate frame") /\
              exists slots rest,
                arrays s' !! arr = Some (slot_cells slots ++ Pointer None :: rest) /\
                forall a, a ∈ slots -> is_Some (frames s' !! a)
          end) s.
Proof.
  induction n as [|n IH]; intros s arr filled Harr Hcells Hlive.
  - cbn [alloc_frames seqZ]. change (seqZ _ (Z.of_nat 0)) with (@nil Z). cbn [alloc_frames].
    wp_go. split; [reflexivity|]. split; [auto|]. split; [reflexivity|].
    exists filled. cbn [replicate] in Hcells. rewrite app_nil_r in Hcells.
    split; [exact Hcells|]. split; [lia | exact Hlive].
  - rewrite seqZ_cons by lia.
    replace (Z.pred (Z.of_nat (S n))) with (Z.of_nat n) by lia.
    replace (Z.succ (Z.of_nat (length filled))) with (Z.of_nat (length (filled ++ [0%nat])))
      by (rewrite length_app; cbn [length]; lia).
    cbn [alloc_frames replicate] in *.
    destruct s. st_proj_all. subst.
    wp_enter. unfold av_frame_alloc. wp_go.
    destruct (answer w AvFrameAlloc (calls0 AvFrameAlloc) =? 0) eqn:Halloc.
    + wp_go. wp_enter.
      eapply wp_store_slot; [reflexivity | exact Hcells | |].
      { rewrite length_app. unfold slot_cells. rewrite length_fmap. cbn [length]. lia. }
      wp_go. rewrite Nat2Z.id, slot_cells_null.
      unfold alloc_view. st_proj.
      split; [reflexivity|]. split; [auto|]. split; [reflexivity|].
      split; [apply last_snoc|].
      exists filled, (replicate n Indeterminate).
      split; [apply lookup_insert_eq | exact Hlive].
    + wp_go. wp_enter.
      eapply wp_store_slot; [reflexivity | exact Hcells | |].
      { rewrite length_app. unfold slot_cells. rewrite length_fmap. cbn [length]. lia. }
      wp_go. rewrite Nat2Z.id, slot_cells_snoc.
      replace (length (filled ++ [0%nat])) with (length (filled ++ [brk0]))
        by (rewrite !length_app; reflexivity).
      eapply wp_mono.
      { eapply IH with (arr := arr) (filled := filled ++ [brk0]); st_proj.
        - reflexivity.
        - apply lookup_insert_eq.
        - intros a Ha. apply elem_of_app in Ha as [Ha|Ha].
          + apply is_Some_insert. auto.
          + apply list_elem_of_singleton in Ha as ->. rewrite lookup_insert_eq. eauto. }
      intros c s' (Hv & Hmono & Hcase). revert Hv Hmono Hcase.
      unfold alloc_view. st_proj. intros Hv Hmono Hcase.
      split; [exact Hv|].
      split; [intros a Ha; apply Hmono, is_Some_insert, Ha|].
      destruct c as [|r].
      * destruct Hcase as (Hlog & slots & Hslots & Hlen & Hall).
        split; [exact Hlog|]. exists slots.
        rewrite lookup_insert_eq in Hslots || idtac.
        split; [|split; [rewrite Hlen, length_app; cbn [length]; lia | exact Hall]].
        revert Hslots. rewrite ?insert_insert_eq. auto.
      * destruct Hcase as (-> & Hlast & slots & rest & Hslots & Hall).
        split; [reflexivity|]. split; [exact Hlast|]. exists slots, rest.
        split; [|exact Hall].
        revert Hslots. rewrite ?insert_insert_eq. auto.
Qed.

End RingAllocation.

(** ** [ffmpeg_init] from the start of the process *)

Section Init.

Context (hdr : Macros) (w : World).

Lemma seqZ_to_nat m n : seqZ m n = seqZ m (Z.of_nat (Z.to_nat n)).
Proof. unfold seqZ. by rewrite Nat2Z.id. Qed.

Lemma ffmpeg_init_post videoFormat width height perf_lvl N thread_count :
  wp (ffmpeg_init hdr w videoFormat width height perf_lvl N thread_count)
     (init_post w N) process_start.
Proof.
  unfold ffmpeg_init, process_start. wp_enter. unfold av_packet_alloc. wp_go.
  destruct (answer w AvPacketAlloc 0%nat =? 0) eqn:Hpkt.
  { apply Z.eqb_eq in Hpkt. wp_go. unfold init_post. st_proj.
    split; [by right|]. split; [discriminate|].
    split; [rewrite last_snoc; discriminate|]. split; [auto|].
    split; [congruence | auto]. }
  apply Z.eqb_neq in Hpkt. wp_go. wp_enter.
  eapply wp_mono; [apply init_loop_post|].
  intros c s1 (Hv & (tr & Hlog) & Hc & Hfail & Hnone).
  unfold ring_view in Hv.
  destruct s1 as [pkt_1 decoder_1 decoder_ctx_1 dec_frames_1 hw_device_ctx_1 hw_pix_fmt_1 sw_frame_1 dec_frames_cnt_1 current_frame_1 next_frame_1 ffmpeg_decoder_1 packets_1 contexts_1 frames_1 buffers_1 arrays_1 brk_1 calls_1 log_1].
  st_proj_all.
  revert Hv Hlog Hc. intros [= -> -> -> -> -> -> -> -> -> -> Hfa Hma] -> Hc.
  rewrite bump_other in Hfa, Hma by discriminate.
  destruct Hc as [-> | (-> & text & Hlast)].
  2:{ wp_go. unfold init_post. st_proj.
      split; [by right|]. split; [discriminate|].
      split; [rewrite Hlast; discriminate|].
      split; [auto|]. split; [|auto].
      intros _. exists 1%nat. rewrite lookup_insert_eq. eauto. }
  wp_go. destruct decoder_1 as [dec|].
  2:{ wp_go. unfold init_post. st_proj.
      split; [by right|]. split; [discriminate|].
      split; [rewrite last_snoc; discriminate|].
      split; [auto|]. split; [|auto].
      intros _. exists 1%nat. rewrite lookup_insert_eq. eauto. }
  wp_go. wp_enter. unfold malloc_frames. wp_go. rewrite Hma.
  destruct (answer w Malloc 0%nat =? 0) eqn:Hmalloc.
  { wp_go. unfold init_post. st_proj.
    split; [by right|]. split; [discriminate|].
    split; [rewrite last_snoc; discriminate|].
    split; [auto|]. split; [|intros Hn; destruct (Hnone Hn eq_refl); discriminate].
    intros _. exists 1%nat. rewrite lookup_insert_eq. eauto. }
  wp_go. wp_enter. rewrite seqZ_to_nat.
  eapply wp_mono.
  { eapply alloc_frames_spec with (arr := brk_1) (filled := []); st_proj.
    - reflexivity.
    - apply lookup_insert_eq.
    - intros a Ha. by apply elem_of_nil in Ha. }
  intros c s2 (Hv & Hmono & Hcase). revert Hv Hmono Hcase.
  unfold alloc_view.
  destruct s2 as [pkt_2 decoder_2 decoder_ctx_2 dec_frames_2 hw_device_ctx_2 hw_pix_fmt_2 sw_frame_2 dec_frames_cnt_2 current_frame_2 next_frame_2 ffmpeg_decoder_2 packets_2 contexts_2 frames_2 buffers_2 arrays_2 brk_2 calls_2 log_2].
  st_proj.
  intros [= -> -> -> -> -> -> -> -> -> -> ->] Hmono Hcase.
  destruct c as [|r].
  2:{ destruct Hcase as (-> & Hlast & slots & rest & Hslots & Hall).
      wp_go. unfold init_post. st_proj.
      split; [by right|]. split; [discriminate|].
      split; [intros _; split; [reflexivity|]; eauto 10|].
      split; [auto|]. split; [|intros Hn; destruct (Hnone Hn eq_refl); discriminate].
      intros _. exists 1%nat. rewrite lookup_insert_eq. eauto. }
  destruct Hcase as (-> & slots & Hslots & Hlen & Hall).
  assert (forall sw fr (lg : list event) cl bk bf,
    (forall a, is_Some (frames_2 !! a) -> is_Some (fr !! a)) ->
    last lg <> Some (Print stderr "Couldn't allocate frame") ->
    init_post w N 0
      (Build_State (Some 1%nat) decoder_2 decoder_ctx_1 (Some brk_1) hw_device_ctx_1
         hw_pix_fmt_2 sw N 0 0
         (if Z.land perf_lvl (VAAPI_ACCELERATION hdr) =? 0 then SOFTWARE else VAAPI)
         (<[1%nat := {| pkt_data := []; pkt_size := 0 |}]> ∅) contexts_1 fr bf arrays_2
         bk cl lg)) as Hdone.
  { intros sw fr lg cl bk bf Hfr Hlg. unfold init_post. st_proj.
    split; [by left|]. split.
    - intros _ HN. exists slots. split; [|auto]. split; st_proj.
      + reflexivity.
      + exact HN.
      + exists brk_1. auto.
      + cbn [length] in Hlen. lia.
      + auto.
      + exists 1%nat. rewrite lookup_insert_eq. eauto.
      + lia.
      + lia.
    - split; [intros Hl; by destruct Hlg|]. split; [auto|].
      split; [|intros Hn; destruct (Hnone Hn eq_refl); discriminate].
      intros _. exists 1%nat. rewrite lookup_insert_eq. eauto. }
  wp_go. wp_enter. unfold when.
  destruct (bool_decide (is_Some hw_device_ctx_1)).
  - wp_go. wp_enter. unfold av_frame_alloc. wp_go.
    destruct (answer w AvFrameAlloc (calls_2 AvFrameAlloc) =? 0); wp_go; wp_enter;
      destruct (HAVE_VAAPI hdr &&
                bool_decide ((if Z.land perf_lvl (VAAPI_ACCELERATION hdr) =? 0
                              then SOFTWARE else VAAPI) = VAAPI));
      wp_go; apply Hdone; auto using is_Some_insert;
      rewrite ?last_snoc; discriminate.
  - wp_go. wp_enter.
    destruct (HAVE_VAAPI hdr &&
              bool_decide ((if Z.land perf_lvl (VAAPI_ACCELERATION hdr) =? 0
                            then SOFTWARE else VAAPI) = VAAPI));
      wp_go; apply Hdone; auto; rewrite ?last_snoc; discriminate.
Qed.

End Init.

(** * The frame ring in a session *)

Section RingTheorems.

Context (hdr : Macros) (w : World).

Lemma init_ready videoFormat width height perf_lvl N thread_count s0 :
  1 <= N <= INT_MAX ->
  ffmpeg_init hdr w videoFormat width height perf_lvl N thread_count process_start
    = Some (0, s0) ->
  exists slots, ring_ready N slots s0 /\ next_frame s0 = 0 /\ current_frame s0 = 0.
Proof.
  intros HN Hinit.
  pose proof (ffmpeg_init_post hdr w videoFormat width height perf_lvl N thread_count) as H.
  unfold wp in H. rewrite Hinit in H. destruct H as (_ & Hready & _). auto.
Qed.

Lemma reachable_ready N slots cs s0 rs s :
  ring_ready N slots s0 -> session w cs s0 = Some (rs, s) -> ring_ready N slots s.
Proof.
  intros R Hs. destruct (session_ready w N slots cs s0 R) as (rs' & s' & tr & Hs' & R' & _).
  congruence.
Qed.

(** C3 (as amended) — When the active decoder is not the software one and the
    caller passes native_frame = false, a call of [ffmpeg_get_frame] in which the
    decoder yields a frame makes no hardware-to-system transfer, advances the
    ring, and returns NULL: the frame stays in its slot and is not handed out. *)
Theorem hardware_frame_withheld videoFormat width height perf_lvl N thread_count s0 cs rs s :
  1 <= N <= INT_MAX ->
  ffmpeg_init hdr w videoFormat width height perf_lvl N thread_count process_start
    = Some (0, s0) ->
  session w cs s0 = Some (rs, s) ->
  ffmpeg_decoder s <> SOFTWARE ->
  answer w AvcodecReceiveFrame (calls s AvcodecReceiveFrame) = 0 ->
  exists s' frame,
    ffmpeg_get_frame w false s = Some (None, s') /\
    log s' = log s ++ [Receive (decoder_ctx s) (next_frame s) (Some frame) 0] /\
    current_frame s' = next_frame s /\
    next_frame s' = (next_frame s + 1) mod N.
Proof.
  intros HN Hinit Hs Hhw Hrecv.
  destruct (init_ready _ _ _ _ _ _ _ HN Hinit) as (slots & R0 & _).
  pose proof (reachable_ready N slots cs s0 rs s R0 Hs) as R.
  pose proof (ready_next _ _ _ R) as Hn. pose proof (ready_count _ _ _ R) as Hc.
  destruct (ready_slot N slots s (next_frame s) R Hn) as [a Ha].
  rewrite (get_frame_ready w N slots s a false R Ha).
  unfold get_frame_outcome. rewrite Hrecv. cbn [Z.eqb].
  rewrite bool_decide_eq_false_2 by exact Hhw. cbn [orb].
  exists (received w s a), a. split; [reflexivity|].
  clear R0 R Hs Hinit Ha Hhw. unfold received. destruct s. st_proj_all. st_flat.
  subst. rewrite Z.rem_mod_nonneg by lia. auto.
Qed.

(** C9 — If the transfer of a decoded hardware-resident frame to system
    memory fails, [ffmpeg_get_frame] reports it on stderr and returns NULL; the
    decoder context, the packet and the ring are as a successful reception
    leaves them (the indices have advanced by one slot), and every further
    interleaving of submissions and receptions runs. *)
Theorem transfer_failure_drops_frame
    videoFormat width height perf_lvl N thread_count s0 cs rs s native_frame :
  1 <= N <= INT_MAX ->
  ffmpeg_init hdr w videoFormat width height perf_lvl N thread_count process_start
    = Some (0, s0) ->
  session w cs s0 = Some (rs, s) ->
  ffmpeg_decoder s = SOFTWARE \/ native_frame = true ->
  answer w AvcodecReceiveFrame (calls s AvcodecReceiveFrame) = 0 ->
  decoded_format w (calls s AvcodecReceiveFrame) = hw_pix_fmt s ->
  answer w AvHwframeTransferData (calls s AvHwframeTransferData) < 0 ->
  exists s',
    ffmpeg_get_frame w native_frame s = Some (None, s') /\
    last (log s') = Some (Print stderr "Error transferring the data to system memory") /\
    decoder_ctx s' = decoder_ctx s /\ contexts s' = contexts s /\
    pkt s' = pkt s /\ packets s' = packets s /\
    dec_frames s' = dec_frames s /\ arrays s' = arrays s /\
    dec_frames_cnt s' = dec_frames_cnt s /\
    current_frame s' = next_frame s /\
    next_frame s' = (next_frame s + 1) mod N /\
    forall cs', exists rs' s'', session w cs' s' = Some (rs', s'').
Proof.
  intros HN Hinit Hs Hpath Hrecv Hfmt Hxfer.
  destruct (init_ready _ _ _ _ _ _ _ HN Hinit) as (slots & R0 & _).
  pose proof (reachable_ready N slots cs s0 rs s R0 Hs) as R.
  pose proof (ready_next _ _ _ R) as Hn. pose proof (ready_count _ _ _ R) as Hc.
  destruct (ready_slot N slots s (next_frame s) R Hn) as [a Ha].
  pose proof (ring_ready_get_frame w N slots s a native_frame R) as R'.
  rewrite (get_frame_ready w N slots s a native_frame R Ha).
  revert R'. unfold get_frame_outcome. rewrite Hrecv, Hfmt, !Z.eqb_refl.
  replace (bool_decide (ffmpeg_decoder s = SOFTWARE) || native_frame) with true
    by (destruct Hpath as [->| ->]; [reflexivity | by rewrite orb_true_r]).
  destruct (Z.ltb_spec (answer w AvHwframeTransferData (calls s AvHwframeTransferData)) 0)
    as [_|]; [|lia].
  cbn [snd]. intros R'. exists (transferred w s a). split; [reflexivity|].
  repeat apply conj.
  11:{ intros cs'. destruct (session_ready w N slots cs' _ R') as (rs' & s'' & _ & H & _).
       eauto. }
  all: clear R0 R R' Hs Hinit Ha Hpath; unfold transferred, received.
  all: destruct (Z.ltb_spec (answer w AvHwframeTransferData (calls s AvHwframeTransferData)) 0)
         as [_|]; [|lia].
  all: destruct s; st_proj_all; st_flat; subst; try reflexivity.
  - apply last_snoc.
  - rewrite Z.rem_mod_nonneg by lia. reflexivity.
Qed.

(** The CPU-accessible path without a transfer: a frame whose format is not
    hw_pix_fmt is handed out as it lies in the ring, and nothing but the
    reception happens. *)
Lemma frame_returned_without_transfer
    videoFormat width height perf_lvl N thread_count s0 cs rs s native_frame :
  1 <= N <= INT_MAX ->
  ffmpeg_init hdr w videoFormat width height perf_lvl N thread_count process_start
    = Some (0, s0) ->
  session w cs s0 = Some (rs, s) ->
  ffmpeg_decoder s = SOFTWARE \/ native_frame = true ->
  answer w AvcodecReceiveFrame (calls s AvcodecReceiveFrame) = 0 ->
  decoded_format w (calls s AvcodecReceiveFrame) <> hw_pix_fmt s ->
  exists s' frame,
    ffmpeg_get_frame w native_frame s = Some (Some frame, s') /\
    log s' = log s ++ [Receive (decoder_ctx s) (next_frame s) (Some frame) 0].
Proof.
  intros HN Hinit Hs Hpath Hrecv Hfmt.
  destruct (init_ready _ _ _ _ _ _ _ HN Hinit) as (slots & R0 & _).
  pose proof (reachable_ready N slots cs s0 rs s R0 Hs) as R.
  pose proof (ready_next _ _ _ R) as Hn.
  destruct (ready_slot N slots s (next_frame s) R Hn) as [a Ha].
  rewrite (get_frame_ready w N slots s a native_frame R Ha).
  unfold get_frame_outcome. rewrite Hrecv. cbn [Z.eqb].
  replace (bool_decide (ffmpeg_decoder s = SOFTWARE) || native_frame) with true
    by (destruct Hpath as [->| ->]; [reflexivity | by rewrite orb_true_r]).
  apply Z.eqb_neq in Hfmt. rewrite Hfmt.
  exists (received w s a), a. split; [reflexivity|].
  clear. unfold received. destruct s. st_flat. reflexivity.
Qed.

End RingTheorems.

(** * Failures of initialisation *)

Section InitFailures.

Context (hdr : Macros) (w : World).

(** If every attempt to open a candidate fails (or no candidate is compiled
    in), then when the first [ffmpeg_init] of the process returns, every
    decoder context it allocated has been freed and decoder_ctx is NULL; if no
    decoder at all is compiled in, it returns -1.  The packet buffer, once
    allocated, is still allocated on return. *)
Lemma failed_cascade_frees_contexts videoFormat width height perf_lvl N thread_count :
  (forall n, answer w AvcodecOpen2 n < 0) ->
  exists r s',
    ffmpeg_init hdr w videoFormat width height perf_lvl N thread_count process_start
      = Some (r, s') /\
    contexts s' = ∅ /\ decoder_ctx s' = None /\
    (answer w AvPacketAlloc 0%nat <> 0 ->
     exists p, pkt s' = Some p /\ is_Some (packets s' !! p)) /\
    ((forall nm, registry w nm = None) -> r = -1).
Proof.
  intros Hfail.
  pose proof (ffmpeg_init_post hdr w videoFormat width height perf_lvl N thread_count) as H.
  apply wp_elim in H as (r & s' & Hrun & _ & _ & _ & Hctx & Hpkt & Hnone).
  exists r, s'. destruct (Hctx Hfail). auto.
Qed.

(** If the allocation of one of the frame slots fails part-way, the first
    [ffmpeg_init] of the process reports it and returns -1 at once: when it
    returns, the slot array is still allocated and recorded in dec_frames, the
    failing slot holds NULL, and every slot before it still holds an allocated
    frame. *)
Lemma partial_ring_left_allocated videoFormat width height perf_lvl N thread_count r s' :
  ffmpeg_init hdr w videoFormat width height perf_lvl N thread_count process_start
    = Some (r, s') ->
  last (log s') = Some (Print stderr "Couldn't allocate frame") ->
  r = -1 /\
  exists arr slots rest,
    dec_frames s' = Some arr /\
    arrays s' !! arr = Some (slot_cells slots ++ Pointer None :: rest) /\
    forall a, a ∈ slots -> is_Some (frames s' !! a).
Proof.
  intros Hrun Hlast.
  pose proof (ffmpeg_init_post hdr w videoFormat width height perf_lvl N thread_count) as H.
  unfold wp in H. rewrite Hrun in H. destruct H as (_ & _ & Hslot & _). auto.
Qed.

End InitFailures.

(** * Hardware negotiation that fails *)

Section Negotiation.

Context (hdr : Macros) (w : World).

Lemma create_fails type s :
  answer w AvHwdeviceCtxCreate (calls s AvHwdeviceCtxCreate) < 0 ->
  av_hwdevice_ctx_create w type s =
  Some (answer w AvHwdeviceCtxCreate (calls s AvHwdeviceCtxCreate),
        set_hw_device_ctx None
          (set_log (log s ++ [HwDeviceCreate type
                                (answer w AvHwdeviceCtxCreate (calls s AvHwdeviceCtxCreate))])
             (set_calls (bump AvHwdeviceCtxCreate (calls s)) s))).
Proof.
  intros Herr. apply Z.ltb_lt in Herr.
  unfold av_hwdevice_ctx_create, bind, extern, emit, modify, ret. cbv beta iota.
  rewrite Herr. destruct s. reflexivity.
Qed.

Lemma hwaccel_scan_failed_device config rest type s :
  Z.land (methods config) AV_CODEC_HW_CONFIG_METHOD_HW_DEVICE_CTX <> 0 ->
  answer w AvHwdeviceCtxCreate (calls s AvHwdeviceCtxCreate) < 0 ->
  hwaccel_scan w (config :: rest) type s =
  hwaccel_scan w rest AV_HWDEVICE_TYPE_NONE (device_failed w config s).
Proof.
  intros Hbit Herr. apply Z.eqb_neq in Hbit.
  cbn [hwaccel_scan]. rewrite Hbit.
  unfold bind at 1 2 3. unfold fprintf_stderr at 1, emit at 1, modify at 1 2.
  cbv beta iota. rewrite create_fails by (destruct s; exact Herr).
  cbv beta iota. destruct s. st_proj_all. apply Z.ltb_lt in Herr. st_flat. rewrite Herr.
  unfold bind, fprintf_stderr, emit, modify, device_failed. st_flat.
  rewrite <- !app_assoc. reflexivity.
Qed.

(** Without any device, the scan ends with no device type, has cleared
    hw_pix_fmt if it tried a configuration, and has not touched the context. *)
Lemma hwaccel_scan_no_device configs :
  forall s,
    devices_fail w configs s ->
    wp (hwaccel_scan w configs AV_HWDEVICE_TYPE_NONE)
       (fun type s' =>
          type = AV_HWDEVICE_TYPE_NONE /\
          contexts s' = contexts s /\ decoder_ctx s' = decoder_ctx s /\
          buffers s' = buffers s /\
          calls s' AvcodecOpen2 = calls s AvcodecOpen2 /\
          (exists tr, log s' = log s ++ tr) /\
          (Exists (fun config =>
                     Z.land (methods config) AV_CODEC_HW_CONFIG_METHOD_HW_DEVICE_CTX <> 0)
                  configs ->
           hw_pix_fmt s' = AV_PIX_FMT_NONE) /\
          (~ Exists (fun config =>
                     Z.land (methods config) AV_CODEC_HW_CONFIG_METHOD_HW_DEVICE_CTX <> 0)
                  configs ->
           hw_pix_fmt s' = hw_pix_fmt s)) s.
Proof.
  induction configs as [|config rest IH]; intros s Hfail.
  - cbn [hwaccel_scan]. wp_go. repeat split; auto.
    + exists []. by rewrite app_nil_r.
    + intros H. by apply Exists_nil in H.
  - destruct (Z.eq_dec (Z.land (methods config) AV_CODEC_HW_CONFIG_METHOD_HW_DEVICE_CTX) 0)
      as [Hbit|Hbit].
    + cbn [hwaccel_scan]. rewrite Hbit. cbn [Z.eqb].
      eapply wp_mono.
      { apply IH. intros n Hn. apply Hfail. cbn [length]. lia. }
      intros type s' (Ht & Hc & Hd & Hb & Ho & Hl & Hfmt & Hkeep).
      split; [exact Ht|]. split; [exact Hc|]. split; [exact Hd|]. split; [exact Hb|].
      split; [exact Ho|]. split; [exact Hl|]. split.
      * intros H. apply Exists_cons in H as [H|H]; [contradiction | auto].
      * intros H. apply Hkeep. intros H'. apply H. by apply Exists_cons_tl.
    + assert (answer w AvHwdeviceCtxCreate (calls s AvHwdeviceCtxCreate) < 0) as Herr
        by (apply Hfail; cbn [length]; lia).
      eapply wp_rewrite; [apply (hwaccel_scan_failed_device config rest _ s Hbit Herr)|].
      eapply wp_mono.
      { apply IH. intros n Hn. apply Hfail. revert Hn. unfold device_failed.
        destruct s. st_flat. rewrite bump_same. cbn [length]. lia. }
      intros type s' (Ht & Hc & Hd & Hb & Ho & (tr & Hl) & Hfmt & Hkeep).
      revert Hc Hd Hb Ho Hl Hfmt Hkeep. unfold device_failed. destruct s. st_flat.
      rewrite ?bump_other by discriminate. intros.
      split; [exact Ht|]. split; [assumption|]. split; [assumption|]. split; [assumption|].
      split; [assumption|]. split; [rewrite Hl, <- app_assoc; eauto|]. split.
      * intros _.
        destruct (Exists_dec (fun config =>
                    Z.land (methods config) AV_CODEC_HW_CONFIG_METHOD_HW_DEVICE_CTX <> 0)
                    rest); auto.
      * intros H. destruct H. by apply Exists_cons_hd.
Qed.

Lemma hwaccel_setup_no_device dec :
  forall s,
    devices_fail w (hw_configs dec) s ->
    wp (hwaccel_setup w dec)
       (fun ok s' =>
          ok = false /\
          contexts s' = contexts s /\ decoder_ctx s' = decoder_ctx s /\
          buffers s' = buffers s /\
          calls s' AvcodecOpen2 = calls s AvcodecOpen2 /\
          (exists tr, log s' = log s ++ tr) /\
          (Exists (fun config =>
                     Z.land (methods config) AV_CODEC_HW_CONFIG_METHOD_HW_DEVICE_CTX <> 0)
                  (hw_configs dec) ->
           hw_pix_fmt s' = AV_PIX_FMT_NONE)) s.
Proof.
  intros s Hfail. unfold hwaccel_setup. apply wp_bind.
  eapply wp_mono; [apply (hwaccel_scan_no_device _ s Hfail)|].
  intros type s1 (-> & Hc & Hd & Hb & Ho & (tr & Hl) & Hfmt & _).
  cbn [Z.eqb AV_HWDEVICE_TYPE_NONE].
  revert Hc Hd Hb Ho Hl Hfmt. destruct s1, s. st_proj. intros -> -> -> Ho -> Hfmt.
  wp_go. repeat split; auto. rewrite <- app_assoc. eauto.
Qed.

(** A candidate whose hardware negotiation fails is still opened, with the
    software pixel format. *)
Lemma open_candidate_no_device dec width height perf_lvl thread_count s :
  devices_fail w (hw_configs dec) s ->
  answer w AvcodecAllocContext3 (calls s AvcodecAllocContext3) <> 0 ->
  wp (open_candidate hdr w dec width height perf_lvl thread_count)
     (fun c s' =>
        c = Next /\
        exists tr,
          log s' = log s ++ tr /\
          Open (brk s) (name dec) AV_PIX_FMT_YUV420P
               (answer w AvcodecOpen2 (calls s AvcodecOpen2)) ∈ tr) s.
Proof.
  intros Hfail Halloc. apply Z.eqb_neq in Halloc.
  destruct s. st_proj_all.
  unfold open_candidate. wp_go. wp_enter. unfold avcodec_alloc_context3. wp_go.
  wp_go. do 4 (wp_enter; eapply wp_update_ctx;
               [reflexivity | st_proj; rewrite ?lookup_insert_eq; reflexivity |];
               wp_go; rewrite ?insert_insert_eq).
  assert (forall c0 l0,
    wp (let* hwaccel :=
          match avcodec_get_hw_config dec 0 with
          | Some _ => hwaccel_setup w dec
          | None => ret false
          end in
        when (negb hwaccel) (update_ctx (set_pix_fmt AV_PIX_FMT_YUV420P)) ;;
        let* err := avcodec_open2 w dec in
        if err <? 0 then
          printf "Couldn't open codec: %s" ;;
          let* p := read decoder_ctx in
          avcodec_free_context p ;;
          modify (set_decoder_ctx None) ;;
          ret Next
        else ret Next)
       (fun c s' =>
          c = Next /\
          exists tr,
            log s' = log0 ++ tr /\
            Open brk0 (name dec) AV_PIX_FMT_YUV420P
                 (answer w AvcodecOpen2 (calls0 AvcodecOpen2)) ∈ tr)
       (Build_State pkt0 decoder0 (Some brk0) dec_frames0 hw_device_ctx0
          hw_pix_fmt0 sw_frame0 dec_frames_cnt0 current_frame0 next_frame0
          ffmpeg_decoder0 packets0 (<[brk0 := c0]> contexts0) frames0 buffers0 arrays0
          (S brk0) (bump AvcodecAllocContext3 calls0) (log0 ++ l0))) as Hrest.
  { intros c0 l0. apply wp_bind.
    eapply wp_mono with
      (Q := fun ok s' =>
              ok = false /\ contexts s' = <[brk0 := c0]> contexts0 /\
              decoder_ctx s' = Some brk0 /\
              calls s' AvcodecOpen2 = calls0 AvcodecOpen2 /\
              exists tr, log s' = log0 ++ tr).
    { destruct (avcodec_get_hw_config dec 0).
      - eapply wp_mono.
        { apply (hwaccel_setup_no_device dec). intros n Hn. apply Hfail.
          revert Hn. st_proj. rewrite bump_other by discriminate. exact id. }
        intros ok s' (-> & Hc & Hd & _ & Hop & (tr & Hlog) & _).
        revert Hc Hd Hop Hlog. st_proj. rewrite ?bump_other by discriminate.
        intros. repeat split; auto. rewrite Hlog, <- app_assoc. eauto.
      - wp_go. rewrite ?bump_other by discriminate. repeat split; eauto. }
    intros ok s1 (-> & Hc & Hd & Hop & tr & Hlog).
    revert Hc Hd Hop Hlog. destruct s1. st_proj. intros -> -> Hop ->.
    unfold when, negb. wp_enter.
    eapply wp_update_ctx; [reflexivity | st_proj; apply lookup_insert_eq |].
    wp_norm. rewrite insert_insert_eq.
    wp_enter. unfold avcodec_open2. wp_go. rewrite lookup_insert_eq. wp_go.
    rewrite Hop. cbn [pix_fmt set_pix_fmt].
    destruct (answer w AvcodecOpen2 (calls0 AvcodecOpen2) <? 0) eqn:Herr.
    - wp_go. wp_enter. unfold avcodec_free_context. wp_go. rewrite lookup_insert_eq.
      wp_go. wp_enter. unfold av_buffer_unref.
      destruct (ctx_hw_device_ctx (set_pix_fmt AV_PIX_FMT_YUV420P c0)) as [b|].
      + wp_go. destruct (buffers1 !! b); wp_go;
          (split; [reflexivity|]); eexists; rewrite <- !app_assoc;
          (split; [reflexivity|]); clear; set_solver.
      + wp_go. split; [reflexivity|]. eexists. rewrite <- !app_assoc.
        split; [reflexivity|]. clear; set_solver.
    - wp_go. split; [reflexivity|]. eexists. rewrite <- !app_assoc.
      split; [reflexivity|]. clear; set_solver. }
  destruct (negb (Z.land perf_lvl (SLICE_THREADING hdr) =? 0)).
  - wp_enter. wp_go.
    do 4 (wp_enter; eapply wp_update_ctx;
          [reflexivity | st_proj; rewrite ?lookup_insert_eq; reflexivity |];
          wp_go; rewrite ?insert_insert_eq).
    rewrite <- !app_assoc. apply Hrest.
  - wp_enter. wp_go.
    do 3 (wp_enter; eapply wp_update_ctx;
          [reflexivity | st_proj; rewrite ?lookup_insert_eq; reflexivity |];
          wp_go; rewrite ?insert_insert_eq).
    rewrite <- !app_assoc. apply Hrest.
Qed.


End Negotiation.

(** * Runs on concrete builds *)

(** C1 — On a build with h264_nvv4l2 and h264, both of which open, the loop
    of [ffmpeg_init] opens h264_nvv4l2 first and then goes on: it looks up the
    three remaining names, opens h264 as well, and ends with h264 as the
    decoder while the context of h264_nvv4l2 is still allocated. *)
Theorem cascade_goes_on_after_success :
  result_of (-1) tegra_init process_start = 0 /\
  lookups (log (state_of tegra_init process_start)) =
    ["h264_nvv4l2"; "h264_nvmpi"; "h264_omx"; "h264_v4l2m2m"; "h264"]%string /\
  opened (log (state_of tegra_init process_start)) =
    [("h264_nvv4l2", 0); ("h264", 0)]%string /\
  name <$> decoder (state_of tegra_init process_start) = Some "h264"%string /\
  size (contexts (state_of tegra_init process_start)) = 2%nat.
Proof. vm_compute. repeat split. Qed.

(** C2 — With all five H.264 decoders compiled in and none of them
    opening, [ffmpeg_init] frees each context after the failed open and then
    returns 0, not a failure: the test after the loop looks at decoder, which
    still holds the last candidate found, so the call ends with "Using FFmpeg
    decoder" while decoder_ctx is NULL.  The packet is still allocated. *)
Theorem init_succeeds_without_decoder :
  opened (log (state_of unopenable_init process_start)) =
    [("h264_nvv4l2", -1); ("h264_nvmpi", -1); ("h264_omx", -1); ("h264_v4l2m2m", -1);
     ("h264", -1)]%string /\
  result_of (-1) unopenable_init process_start = 0 /\
  name <$> decoder (state_of unopenable_init process_start) = Some "h264"%string /\
  last (log (state_of unopenable_init process_start)) =
    Some (Print stderr "Using FFmpeg decoder: %s") /\
  decoder_ctx (state_of unopenable_init process_start) = None /\
  size (contexts (state_of unopenable_init process_start)) = 0%nat /\
  pkt (state_of unopenable_init process_start) = Some 1%nat /\
  size (packets (state_of unopenable_init process_start)) = 1%nat.
Proof. vm_compute. repeat split. Qed.

(** C3, as stated, fails: with the VAAPI decoder active and native_frame =
    false, the decoder yields a frame into slot 0 and [ffmpeg_get_frame]
    returns NULL. *)
Lemma hardware_frame_not_returned :
  result_of (-1) vaapi_init process_start = 0 /\
  ffmpeg_decoder vaapi_ready = VAAPI /\
  result_of [] (session vaapi_world (one_cycle false)) vaapi_ready = [inl 0; inr None] /\
  success_slots (log (state_of (session vaapi_world (one_cycle false)) vaapi_ready)) =
    [(0, Some 6%nat)] /\
  transfers (log (state_of (session vaapi_world (one_cycle false)) vaapi_ready)) = [].
Proof. vm_compute. repeat split. Qed.

(** C5 — When the second of three slots cannot be allocated, [ffmpeg_init]
    returns -1 and releases nothing: the first frame, the slot array, the
    packet and the context are still allocated and dec_frames still points to
    the array.  The array holds the first frame, NULL for the failed slot and
    a third slot that was never written, so that a later [ffmpeg_destroy]
    reads an indeterminate pointer. *)
Theorem partial_ring_not_released :
  result_of 0 low_memory_init process_start = -1 /\
  last (log low_memory_failed) = Some (Print stderr "Couldn't allocate frame") /\
  dec_frames low_memory_failed = Some 3%nat /\
  map_to_list (arrays low_memory_failed) =
    [(3%nat, [Pointer (Some 4%nat); Pointer None; Indeterminate])] /\
  map_to_list (frames low_memory_failed) = [(4%nat, {| format := AV_PIX_FMT_NONE |})] /\
  size (packets low_memory_failed) = 1%nat /\
  size (contexts low_memory_failed) = 1%nat /\
  ffmpeg_destroy low_memory_failed = None.
Proof. vm_compute. repeat split. Qed.



(** C6 — After a successful [ffmpeg_init] and no other call, [ffmpeg_destroy]
    releases the packet, the context, the device references and every frame,
    each once, and leaves the slot array allocated.  On the Tegra build it
    also leaves the context of the decoder that was opened first. *)
Theorem destroy_keeps_slot_array :
  result_of (-1) vaapi_init process_start = 0 /\
  fst <$> ffmpeg_destroy vaapi_ready = Some tt /\
  size (packets (state_of ffmpeg_destroy vaapi_ready)) = 0%nat /\
  size (contexts (state_of ffmpeg_destroy vaapi_ready)) = 0%nat /\
  size (buffers (state_of ffmpeg_destroy vaapi_ready)) = 0%nat /\
  size (frames (state_of ffmpeg_destroy vaapi_ready)) = 0%nat /\
  invalid_frees (log (state_of ffmpeg_destroy vaapi_ready)) = [] /\
  map_to_list (arrays (state_of ffmpeg_destroy vaapi_ready)) =
    [(5%nat, [Pointer None; Pointer None; Pointer None])] /\
  size (contexts (state_of ffmpeg_destroy tegra_ready)) = 1%nat.
Proof. vm_compute. repeat split. Qed.

(** C7 — With the software decoder and no hardware negotiation ever made,
    hw_pix_fmt still holds its initial value 0, which is YUV420P; a decoded
    YUV420P frame then takes the transfer path: [ffmpeg_get_frame] calls
    [av_hwframe_transfer_data] with the NULL sw_frame and does not return the
    ring frame. *)
Theorem software_frame_takes_transfer_path :
  result_of (-1) software_init process_start = 0 /\
  ffmpeg_decoder software_ready = SOFTWARE /\
  hw_device_ctx software_ready = None /\
  hw_pix_fmt software_ready = AV_PIX_FMT_YUV420P /\
  result_of [] (session software_world (one_cycle false)) software_ready
    = [inl 0; inr None] /\
  success_slots (log (state_of (session software_world (one_cycle false)) software_ready))
    = [(0, Some 4%nat)] /\
  transfers (log (state_of (session software_world (one_cycle false)) software_ready))
    = [(None, Some 4%nat, -22)].
Proof. vm_compute. repeat split. Qed.

(** * The theorems at concrete inputs *)

(** A run whose result is known ends in [state_of]. *)
Lemma state_of_run {A} (m : M A) (s : State) (r : A) :
  fst <$> m s = Some r -> m s = Some (r, state_of m s).
Proof.
  unfold state_of. destruct (m s) as [[a s']|]; simpl; congruence.
Qed.

Ltac run := apply state_of_run; vm_compute; reflexivity.

(** [hardware_frame_withheld] on the VAAPI build, after one submission. *)
Lemma hardware_frame_withheld_witness :
  1 <= 3 <= INT_MAX /\
  ffmpeg_init sample_macros vaapi_world 1 1920 1080 128 3 4 process_start
    = Some (0, vaapi_ready) /\
  session vaapi_world [Submit [] 0] vaapi_ready
    = Some ([inl 0], vaapi_submitted) /\
  ffmpeg_decoder vaapi_submitted <> SOFTWARE /\
  answer vaapi_world AvcodecReceiveFrame
    (calls vaapi_submitted AvcodecReceiveFrame)
    = 0 /\
  exists s' frame,
    ffmpeg_get_frame vaapi_world false
      vaapi_submitted = Some (None, s') /\
    log s' = log vaapi_submitted ++
             [Receive (decoder_ctx vaapi_submitted)
                (next_frame vaapi_submitted)
                (Some frame) 0] /\
    current_frame s' = next_frame vaapi_submitted /\
    next_frame s' =
      (next_frame vaapi_submitted + 1) mod 3.
Proof.
  split; [by vm_compute|]. split; [run|]. split; [run|]. split; [by vm_compute|].
  split; [vm_compute; reflexivity|].
  apply (hardware_frame_withheld sample_macros vaapi_world 1 1920 1080 128 3 4
           vaapi_ready [Submit [] 0] [inl 0] vaapi_submitted);
    [by vm_compute | run | run | by vm_compute | vm_compute; reflexivity].
Defined.

(** [transfer_failure_drops_frame] on the VAAPI build, right after
    [ffmpeg_init], for a caller that asks for CPU-accessible frames. *)
Lemma transfer_failure_drops_frame_witness :
  1 <= 3 <= INT_MAX /\
  ffmpeg_init sample_macros vaapi_world 1 1920 1080 128 3 4 process_start
    = Some (0, vaapi_ready) /\
  session vaapi_world [] vaapi_ready = Some ([], vaapi_ready) /\
  (ffmpeg_decoder vaapi_ready = SOFTWARE \/ true = true) /\
  answer vaapi_world AvcodecReceiveFrame (calls vaapi_ready AvcodecReceiveFrame) = 0 /\
  decoded_format vaapi_world (calls vaapi_ready AvcodecReceiveFrame)
    = hw_pix_fmt vaapi_ready /\
  answer vaapi_world AvHwframeTransferData (calls vaapi_ready AvHwframeTransferData) < 0 /\
  exists s',
    ffmpeg_get_frame vaapi_world true vaapi_ready = Some (None, s') /\
    last (log s') = Some (Print stderr "Error transferring the data to system memory") /\
    decoder_ctx s' = decoder_ctx vaapi_ready /\ contexts s' = contexts vaapi_ready /\
    pkt s' = pkt vaapi_ready /\ packets s' = packets vaapi_ready /\
    dec_frames s' = dec_frames vaapi_ready /\ arrays s' = arrays vaapi_ready /\
    dec_frames_cnt s' = dec_frames_cnt vaapi_ready /\
    current_frame s' = next_frame vaapi_ready /\
    next_frame s' = (next_frame vaapi_ready + 1) mod 3 /\
    forall cs', exists rs' s'', session vaapi_world cs' s' = Some (rs', s'').
Proof.
  split; [by vm_compute|]. split; [run|]. split; [reflexivity|].
  split; [right; reflexivity|].
  split; [vm_compute; reflexivity|]. split; [vm_compute; reflexivity|].
  split; [vm_compute; reflexivity|].
  apply (transfer_failure_drops_frame sample_macros vaapi_world 1 1920 1080 128 3 4
           vaapi_ready [] [] vaapi_ready true);
    [by vm_compute | run | reflexivity | right; reflexivity
    | vm_compute; reflexivity | vm_compute; reflexivity | vm_compute; reflexivity].
Defined.


(** * [ffmpeg_init], outcome by outcome *)

(** A state by its fields, under fixed names. *)
Ltac flat s :=
  destruct s as [pkt0 decoder0 decoder_ctx0 dec_frames0 hw_device_ctx0 hw_pix_fmt0 sw_frame0
                 dec_frames_cnt0 current_frame0 next_frame0 ffmpeg_decoder0 packets0 contexts0
                 frames0 buffers0 arrays0 brk0 calls0 log0].

Ltac flat1 s :=
  destruct s as [pkt1 decoder1 decoder_ctx1 dec_frames1 hw_device_ctx1 hw_pix_fmt1 sw_frame1
                 dec_frames_cnt1 current_frame1 next_frame1 ffmpeg_decoder1 packets1 contexts1
                 frames1 buffers1 arrays1 brk1 calls1 log1].

(** A write through decoder_ctx, to the context last stored there. *)
Ltac ctx_step :=
  wp_enter;
  eapply wp_update_ctx;
  [ reflexivity
  | st_proj; rewrite ?lookup_insert_eq; first [reflexivity | eassumption]
  | ];
  wp_go; rewrite ?insert_insert_eq.

(** ** Hardware negotiation, outcome by outcome *)

Section NegotiationOutcome.

Context (hdr : Macros) (w : World).

Lemma hwaccel_scan_outcome configs :
  forall s a c,
    decoder_ctx s = Some a -> contexts s !! a = Some c ->
    wp (hwaccel_scan w configs AV_HWDEVICE_TYPE_NONE) (scan_post configs s a c) s.
Proof.
  induction configs as [|config rest IH]; intros s a c Ha Hc; cbn [hwaccel_scan].
  - wp_go. exists [], (calls s). split; [constructor|]. split; [auto|].
    left. split; [reflexivity|]. exists (hw_device_ctx s), (hw_pix_fmt s).
    split; [by left|]. unfold not_negotiated. flat s. st_flat.
    by rewrite app_nil_r.
  - destruct (Z.eqb_spec (Z.land (methods config) AV_CODEC_HW_CONFIG_METHOD_HW_DEVICE_CTX) 0)
      as [_|Hbit].
    { eapply wp_mono; [apply (IH s a c Ha Hc)|].
      intros t s' (tr & k & Htr & Hk & Hcase). exists tr, k.
      split; [exact Htr|]. split; [exact Hk|].
      destruct Hcase as [?|(cfg & r & Hin & ?)]; [by left|].
      right. exists cfg, r. split; [by right | assumption]. }
    flat s. st_proj_all. subst.
    wp_go. wp_enter. unfold av_hwdevice_ctx_create. wp_go.
    destruct (answer w AvHwdeviceCtxCreate (calls0 AvHwdeviceCtxCreate) <? 0) eqn:Herr.
    + wp_go. eapply wp_mono; [eapply IH with (a := a) (c := c); st_proj; auto|].
      intros t s' (tr & k & Htr & Hk & Hcase). revert Hk Hcase.
      unfold not_negotiated, negotiated. st_proj. intros Hk Hcase.
      exists (Print stderr "Using hwaccel type %s" ::
              HwDeviceCreate (device_type config)
                (answer w AvHwdeviceCtxCreate (calls0 AvHwdeviceCtxCreate)) ::
              Print stderr "Failed to create specified HW device." :: tr), k.
      split; [repeat (constructor; [exact I|]); exact Htr|].
      split.
      { intros x H1 H2. rewrite (Hk x H1 H2). by rewrite bump_other. }
      destruct Hcase as [(-> & d & f & Hdf & ->) | (cfg & r & Hin & Hb & -> & Hr & ->)].
      * left. split; [reflexivity|]. exists d, f. split.
        { right. destruct Hdf as [[-> ->]|[-> ->]]; auto. }
        st_flat. rewrite <- !app_assoc. reflexivity.
      * right. exists cfg, r. split; [by right|]. split; [exact Hb|].
        split; [reflexivity|]. split; [exact Hr|].
        st_flat. rewrite <- !app_assoc. reflexivity.
    + wp_go. wp_enter. eapply wp_update_ctx; [reflexivity | exact Hc |].
      wp_go. wp_enter. unfold av_buffer_ref. wp_go. rewrite lookup_insert_eq.
      wp_go.
      destruct (answer w AvBufferRef (calls0 AvBufferRef) =? 0) eqn:Href.
      * wp_go. wp_enter.
        eapply wp_update_ctx; [reflexivity | st_proj; apply lookup_insert_eq |].
        wp_go. rewrite insert_insert_eq.
        exists [Print stderr "Using hwaccel type %s";
                HwDeviceCreate (device_type config)
                  (answer w AvHwdeviceCtxCreate (calls0 AvHwdeviceCtxCreate))].
        exists (bump AvBufferRef (bump AvHwdeviceCtxCreate calls0)).
        split; [repeat constructor|].
        split. { intros x H1 H2. by rewrite !bump_other by assumption. }
        right. exists config, None. split; [by left|]. split; [exact Hbit|].
        split; [reflexivity|]. split; [by left|].
        unfold negotiated. st_flat. rewrite <- !app_assoc. reflexivity.
      * wp_go. wp_enter.
        eapply wp_update_ctx; [reflexivity | st_proj; apply lookup_insert_eq |].
        wp_go. rewrite insert_insert_eq.
        exists [Print stderr "Using hwaccel type %s";
                HwDeviceCreate (device_type config)
                  (answer w AvHwdeviceCtxCreate (calls0 AvHwdeviceCtxCreate))].
        exists (bump AvBufferRef (bump AvHwdeviceCtxCreate calls0)).
        split; [repeat constructor|].
        split. { intros x H1 H2. by rewrite !bump_other by assumption. }
        right. exists config, (Some (S brk0)). split; [by left|]. split; [exact Hbit|].
        split; [reflexivity|]. split; [by right|].
        unfold negotiated. st_flat. rewrite <- !app_assoc. reflexivity.
Qed.

End NegotiationOutcome.

(** ** One candidate, outcome by outcome *)

Section CandidateOutcome.

Context (hdr : Macros) (w : World).

Lemma av_buffer_unref_spec p s : av_buffer_unref p s = ret tt (unref p s).
Proof.
  unfold av_buffer_unref, unref. destruct p as [b|]; [|reflexivity].
  unfold bind, read, emit, modify. destruct (buffers s !! b); reflexivity.
Qed.

Lemma open_or_free_spec dec a c s :
  decoder_ctx s = Some a -> contexts s !! a = Some c ->
  wp (open_or_free w dec) (fun r s' => r = Next /\ s' = opened_or_freed w dec a c s) s.
Proof.
  intros Ha Hc. unfold open_or_free, opened_or_freed. cbv zeta. flat s. st_proj_all. subst.
  wp_enter. unfold avcodec_open2. wp_go. rewrite Hc. wp_go.
  destruct (answer w AvcodecOpen2 (calls0 AvcodecOpen2) <? 0) eqn:Herr.
  - wp_go. wp_enter. unfold avcodec_free_context. wp_go. rewrite Hc. wp_go. wp_enter.
    eapply wp_rewrite; [apply av_buffer_unref_spec|]. apply wp_ret.
    unfold unref. st_proj.
    destruct (ctx_hw_device_ctx c) as [b|]; [destruct (buffers0 !! b) eqn:Hb|];
      wp_go; (split; [reflexivity|]); st_flat; rewrite ?Hb; reflexivity.
  - wp_go. split; reflexivity.
Qed.

Lemma negotiate_spec dec s a c :
  decoder_ctx s = Some a -> contexts s !! a = Some c ->
  wp (negotiate w dec) (fun _ s' => exists c', negotiation_post dec s a c s' c') s.
Proof.
  intros Ha Hc. unfold negotiate. apply wp_bind.
  destruct (avcodec_get_hw_config dec 0) as [_|].
  - unfold hwaccel_setup. apply wp_bind.
    eapply wp_mono; [apply (hwaccel_scan_outcome w (hw_configs dec) s a c Ha Hc)|].
    intros t s1 (tr & k & Htr & Hk & Hcase). flat s. st_proj_all. subst.
    destruct Hcase as [(-> & d & f & Hdf & ->) | (cfg & r & Hin & Hb & -> & Hr & ->)].
    + cbn [Z.eqb AV_HWDEVICE_TYPE_NONE]. unfold not_negotiated. wp_go. unfold when, negb.
      eapply wp_update_ctx; [reflexivity | exact Hc |]. st_flat.
      exists (set_pix_fmt AV_PIX_FMT_YUV420P c),
             (tr ++ [Print stderr
                       "Decoder %s does not support any of the available hwaccel methods"]),
             k.
      split; [apply Forall_app; split; [exact Htr | repeat constructor]|].
      split; [exact Hk|]. left. exists d, f. split; [exact Hdf|]. split; [reflexivity|].
      unfold not_negotiated. st_flat. rewrite <- !app_assoc. reflexivity.
    + unfold negotiated. cbv zeta. st_proj.
      destruct (device_type cfg =? AV_HWDEVICE_TYPE_NONE) eqn:Hty.
      * wp_go. unfold when, negb.
        eapply wp_update_ctx; [reflexivity | st_proj; apply lookup_insert_eq |]. st_flat.
        eexists _,
          (tr ++ [Print stderr
                    "Decoder %s does not support any of the available hwaccel methods"]),
          k.
        split; [apply Forall_app; split; [exact Htr | repeat constructor]|].
        split; [exact Hk|]. right. exists cfg, r.
        split; [exact Hin|]. split; [exact Hb|]. split; [exact Hr|].
        rewrite Hty. split; [reflexivity|].
        unfold negotiated. st_flat. rewrite <- !app_assoc, ?insert_insert_eq. reflexivity.
      * wp_go. unfold when, negb. apply wp_ret.
        eexists _, tr, k. split; [exact Htr|]. split; [exact Hk|]. right. exists cfg, r.
        split; [exact Hin|]. split; [exact Hb|]. split; [exact Hr|].
        rewrite Hty. split; [reflexivity|].
        unfold negotiated. st_flat. rewrite ?insert_insert_eq. reflexivity.
  - flat s. st_proj_all. subst. wp_go. unfold when, negb.
    eapply wp_update_ctx; [reflexivity | exact Hc |]. st_flat.
    exists (set_pix_fmt AV_PIX_FMT_YUV420P c), [], calls0.
    split; [constructor|]. split; [auto|]. left. exists hw_device_ctx0, hw_pix_fmt0.
    split; [by left|]. split; [reflexivity|].
    unfold not_negotiated. st_flat. rewrite app_nil_r. reflexivity.
Qed.

Lemma wp_bind_inv {A B} (m : M A) (k : A -> M B) (Q : B -> State -> Prop) s :
  wp (bind m k) Q s -> wp m (fun a s' => wp (k a) Q s') s.
Proof. unfold wp, bind. destruct (m s) as [[a s']|]; auto. Qed.

(** [open_candidate] is lines 144-170, then [negotiate], then [open_or_free]. *)
Lemma open_candidate_outcome dec width height perf_lvl thread_count s :
  wp (open_candidate hdr w dec width height perf_lvl thread_count)
     (candidate_post hdr w dec width height perf_lvl thread_count s) s.
Proof.
  flat s. unfold open_candidate. wp_go. wp_enter. unfold avcodec_alloc_context3. wp_go.
  destruct (answer w AvcodecAllocContext3 (calls0 AvcodecAllocContext3) =? 0) eqn:Halloc.
  { wp_go. left. split; [reflexivity|]. unfold alloc_failed. st_flat.
    rewrite <- !app_assoc. reflexivity. }
  wp_go. do 4 ctx_step.
  assert (forall c0 l0,
    c0 = configure hdr width height perf_lvl thread_count (fresh_context w dec) ->
    l0 = [Print stderr "Trying decoder %s"; AllocContext (name dec) (Some brk0)] ->
    wp (let* hwaccel :=
          match avcodec_get_hw_config dec 0 with
          | Some _ => hwaccel_setup w dec
          | None => ret false
          end in
        when (negb hwaccel) (update_ctx (set_pix_fmt AV_PIX_FMT_YUV420P)) ;;
        let* err := avcodec_open2 w dec in
        if err <? 0 then
          printf "Couldn't open codec: %s" ;;
          let* p := read decoder_ctx in
          avcodec_free_context p ;;
          modify (set_decoder_ctx None) ;;
          ret Next
        else ret Next)
       (candidate_post hdr w dec width height perf_lvl thread_count
          (Build_State pkt0 decoder0 decoder_ctx0 dec_frames0 hw_device_ctx0
             hw_pix_fmt0 sw_frame0 dec_frames_cnt0 current_frame0 next_frame0
             ffmpeg_decoder0 packets0 contexts0 frames0 buffers0 arrays0 brk0
             calls0 log0))
       (Build_State pkt0 decoder0 (Some brk0) dec_frames0 hw_device_ctx0
          hw_pix_fmt0 sw_frame0 dec_frames_cnt0 current_frame0 next_frame0
          ffmpeg_decoder0 packets0 (<[brk0 := c0]> contexts0) frames0 buffers0 arrays0
          (S brk0) (bump AvcodecAllocContext3 calls0) (log0 ++ l0))) as Hrest.
  { intros c0 l0 -> ->. apply wp_bind.
    lazymatch goal with
    | |- wp _ _ ?S =>
        assert (wp (negotiate w dec)
                  (fun _ s' =>
                     exists c',
                       negotiation_post dec S brk0
                         (configure hdr width height perf_lvl thread_count
                            (fresh_context w dec)) s' c') S) as Hneg
          by (apply negotiate_spec; st_proj; [reflexivity | apply lookup_insert_eq])
    end.
    unfold negotiate in Hneg. apply wp_bind_inv in Hneg.
    eapply wp_mono; [exact Hneg|]. clear Hneg.
    intros hwaccel s1 Hwhen. apply wp_bind. eapply wp_mono; [exact Hwhen|].
    intros _ s2 (c' & Hneg).
    assert (decoder_ctx s2 = Some brk0 /\ contexts s2 !! brk0 = Some c') as [Hdc Hcx].
    { destruct Hneg as (tr & k & _ & _ & [(d & f & _ & _ & ->) | (cfg & r & _ & _ & _ & _ & ->)]);
        unfold not_negotiated, negotiated; st_flat; (split; [reflexivity|]);
        apply lookup_insert_eq. }
    eapply wp_mono; [apply (open_or_free_spec dec brk0 c' s2 Hdc Hcx)|].
    intros c s' [-> ->]. right. split; [reflexivity|]. exists s2, c'.
    split; [|reflexivity].
    unfold context_allocated. st_flat. exact Hneg. }
  destruct (negb (Z.land perf_lvl (SLICE_THREADING hdr) =? 0)) eqn:Hslice.
  - wp_enter. wp_go. do 2 ctx_step. do 2 ctx_step. rewrite <- !app_assoc.
    apply Hrest; [|reflexivity]. unfold configure. rewrite Hslice. reflexivity.
  - wp_enter. wp_go. ctx_step. do 2 ctx_step. rewrite <- !app_assoc.
    apply Hrest; [|reflexivity]. unfold configure. rewrite Hslice. reflexivity.
Qed.

End CandidateOutcome.

(** ** The selection loop, iteration by iteration *)

Section Selection.

Context (hdr : Macros) (w : World).

Lemma select_candidate_exact videoFormat try s :
  select_candidate hdr w videoFormat try s =
    if supported hdr videoFormat
    then Some (Next, foldl (looked_up w) s (names_at hdr videoFormat (ffmpeg_decoder s) try))
    else Some (Return (-1), set_log (log s ++ [Print stdout "Video format not supported"]) s).
Proof.
  flat s. unfold select_candidate, supported, names_at. st_proj.
  unfold bind at 1, read at 1. st_proj.
  destruct ffmpeg_decoder0;
    destruct (Z.land videoFormat (VIDEO_FORMAT_MASK_H264 hdr) =? 0);
    destruct (Z.land videoFormat (VIDEO_FORMAT_MASK_H265 hdr) =? 0);
    destruct (Z.land videoFormat (VIDEO_FORMAT_MASK_AV1 hdr) =? 0);
    destruct (try =? 0), (try =? 1), (try =? 2), (try =? 3), (try =? 4);
    reflexivity.
Qed.

End Selection.

(** ** What one candidate guarantees *)

Section CandidateFacts.

Context (hdr : Macros) (w : World).

Lemma lookups_app tr1 tr2 : lookups (tr1 ++ tr2) = lookups tr1 ++ lookups tr2.
Proof. unfold lookups. apply omap_app. Qed.

Lemma invalid_frees_app tr1 tr2 :
  invalid_frees (tr1 ++ tr2) = invalid_frees tr1 ++ invalid_frees tr2.
Proof. unfold invalid_frees. apply omap_app. Qed.

Lemma hw_event_candidate e : hw_event e -> candidate_event e.
Proof. destruct e as [[] ?| | | | | | | | | |]; cbn; tauto. Qed.

Lemma candidate_events_lookups tr : Forall candidate_event tr -> lookups tr = [].
Proof.
  induction 1 as [|e tr He _ IH]; [reflexivity|].
  change (lookups (e :: tr)) with (lookups ([e] ++ tr)). rewrite lookups_app, IH.
  destruct e; cbn in He; try tauto; reflexivity.
Qed.

Lemma hw_events_invalid_frees tr : Forall hw_event tr -> invalid_frees tr = [].
Proof.
  induction 1 as [|e tr He _ IH]; [reflexivity|].
  change (invalid_frees (e :: tr)) with (invalid_frees ([e] ++ tr)).
  rewrite invalid_frees_app, IH.
  destruct e as [[] ?| | | | | | | | | |]; cbn in He; try tauto; reflexivity.
Qed.

Lemma candidate_event_app tr1 tr2 :
  Forall candidate_event tr1 -> Forall candidate_event tr2 ->
  Forall candidate_event (tr1 ++ tr2).
Proof. intros. apply Forall_app. auto. Qed.

(** *** The ring, the decoder and the trace *)

Lemma context_allocated_frame dec c s :
  ring_view (context_allocated dec c s) = ring_view s /\
  decoder (context_allocated dec c s) = decoder s /\
  exists tr, log (context_allocated dec c s) = log s ++ tr /\ Forall candidate_event tr.
Proof.
  unfold context_allocated, ring_view. flat s. st_flat. rewrite !bump_other by discriminate.
  split; [reflexivity|]. split; [reflexivity|]. eexists. split; [reflexivity|].
  repeat constructor.
Qed.

Lemma negotiation_post_frame dec s a c s' c' :
  negotiation_post dec s a c s' c' ->
  ring_view s' = ring_view s /\ decoder s' = decoder s /\
  exists tr, log s' = log s ++ tr /\ Forall candidate_event tr.
Proof.
  intros (tr & k & Htr & Hk & Hcase).
  pose proof (Hk AvFrameAlloc ltac:(discriminate) ltac:(discriminate)) as Hfa.
  pose proof (Hk Malloc ltac:(discriminate) ltac:(discriminate)) as Hma.
  pose proof (Forall_impl _ _ _ Htr hw_event_candidate) as Htr'.
  revert Hfa Hma. clear Hk.
  destruct Hcase as [(d & f & _ & _ & ->) | (cfg & r & _ & _ & _ & _ & ->)];
    unfold not_negotiated, negotiated, ring_view; flat s; st_flat; intros -> ->;
    (split; [reflexivity|]); (split; [reflexivity|]); exists tr; auto.
Qed.

Lemma opened_or_freed_frame dec a c s :
  ring_view (opened_or_freed w dec a c s) = ring_view s /\
  decoder (opened_or_freed w dec a c s) = decoder s /\
  exists tr, log (opened_or_freed w dec a c s) = log s ++ tr /\ Forall candidate_event tr.
Proof.
  unfold opened_or_freed, unref, ring_view. cbv zeta. flat s. st_flat.
  destruct (_ <? 0); [destruct (ctx_hw_device_ctx c) as [b|]; [destruct (buffers0 !! b)|]|];
    st_flat; rewrite ?bump_other by discriminate; rewrite <- ?app_assoc;
    (split; [reflexivity|]); (split; [reflexivity|]);
    (eexists; split; [reflexivity|]); repeat constructor.
Qed.

(** The footprint of a candidate: the ring, the packet, the selected decoder
    and the allocator of the ring are left alone; the trace grows by events of
    the candidate; the function is left only when the context could not be
    allocated. *)
Lemma candidate_post_frame dec wd ht perf_lvl threads s c s' :
  candidate_post hdr w dec wd ht perf_lvl threads s c s' ->
  ring_view s' = ring_view s /\ decoder s' = decoder s /\
  exists tr,
    log s' = log s ++ tr /\ Forall candidate_event tr /\
    match c with
    | Next => True
    | Return r => r = -1 /\ last tr = Some (Print stdout "Couldn't allocate context")
    end.
Proof.
  intros [[-> ->] | (-> & s1 & c' & Hneg & ->)].
  - unfold alloc_failed, ring_view. flat s. st_flat. rewrite !bump_other by discriminate.
    split; [reflexivity|]. split; [reflexivity|]. eexists. split; [reflexivity|].
    split; [repeat constructor | split; reflexivity].
  - destruct (opened_or_freed_frame dec (brk s) c' s1) as (Hv3 & Hd3 & tr3 & Hl3 & Ht3).
    destruct (negotiation_post_frame _ _ _ _ _ _ Hneg) as (Hv2 & Hd2 & tr2 & Hl2 & Ht2).
    destruct (context_allocated_frame dec
                (configure hdr wd ht perf_lvl threads (fresh_context w dec)) s)
      as (Hv1 & Hd1 & tr1 & Hl1 & Ht1).
    split; [congruence|]. split; [congruence|].
    exists (tr1 ++ tr2 ++ tr3). split; [rewrite Hl3, Hl2, Hl1, <- !app_assoc; reflexivity|].
    split; [|exact I]. auto using candidate_event_app.
Qed.

(** *** The device references *)

Lemma configure_ctx_hw_device_ctx wd ht perf_lvl threads c :
  ctx_hw_device_ctx (configure hdr wd ht perf_lvl threads c) = ctx_hw_device_ctx c.
Proof. unfold configure. destruct (negb _); reflexivity. Qed.

Lemma negotiation_post_heap dec s a c s' c' :
  decoder_ctx s = Some a ->
  ctx_hw_device_ctx c = None ->
  (forall b, hw_device_ctx s = Some b -> is_Some (buffers s !! b)) ->
  negotiation_post dec s a c s' c' ->
  heap_ok s' /\ decoder_ctx s' = Some a /\ contexts s' !! a = Some c' /\
  invalid_frees (log s') = invalid_frees (log s).
Proof.
  intros Ha Hc Hdev (tr & k & Htr & _ & Hcase).
  pose proof (hw_events_invalid_frees tr Htr) as Hinv.
  revert Ha Hdev.
  destruct Hcase as [(d & f & Hd & -> & ->) | (cfg & r & _ & _ & Hr & -> & ->)];
    unfold not_negotiated, negotiated, heap_ok; cbv zeta; flat s; st_proj_all; st_flat;
    intros -> Hdev.
  - split; [split|].
    + destruct Hd as [[-> _]|[-> _]]; [exact Hdev | discriminate].
    + intros a' [= <-]. rewrite lookup_insert_eq. eexists. split; [reflexivity|].
      cbn [ctx_hw_device_ctx set_pix_fmt]. rewrite Hc. discriminate.
    + split; [reflexivity|]. split; [apply lookup_insert_eq|].
      rewrite invalid_frees_app, Hinv, app_nil_r. reflexivity.
  - assert (forall c0, ctx_hw_device_ctx
              (if device_type cfg =? AV_HWDEVICE_TYPE_NONE
               then set_pix_fmt AV_PIX_FMT_YUV420P (set_ctx_hw_device_ctx r c0)
               else set_ctx_hw_device_ctx r c0) = r) as Href
      by (intros; destruct (_ =? _); reflexivity).
    split; [split|].
    + intros b [= <-]. destruct Hr as [-> | ->].
      * rewrite lookup_insert_eq. eauto.
      * rewrite lookup_insert_ne, lookup_insert_eq by lia. eauto.
    + intros a' [= <-]. rewrite lookup_insert_eq. eexists. split; [reflexivity|].
      rewrite Href. intros b Hb. destruct Hr as [-> | ->]; [discriminate|].
      injection Hb as <-. rewrite lookup_insert_eq. split; [eauto|]. intros [=]. lia.
    + split; [reflexivity|]. split; [apply lookup_insert_eq|].
      rewrite invalid_frees_app, Hinv, app_nil_r. reflexivity.
Qed.

Lemma opened_or_freed_heap dec a c s :
  heap_ok s -> decoder_ctx s = Some a -> contexts s !! a = Some c ->
  heap_ok (opened_or_freed w dec a c s) /\
  invalid_frees (log (opened_or_freed w dec a c s)) = invalid_frees (log s).
Proof.
  intros [Hdev Hctx] Ha Hc. destruct (Hctx a Ha) as (c0 & Hc0 & Href).
  assert (c0 = c) as -> by congruence. clear Hctx Hc0.
  revert Hdev Ha Hc Href.
  unfold opened_or_freed, unref, heap_ok. cbv zeta. flat s. st_flat.
  intros Hdev -> Hc Href.
  destruct (_ <? 0).
  - destruct (ctx_hw_device_ctx c) as [b|].
    + destruct (Href b eq_refl) as [[dev Hb] Hne]. rewrite Hb. st_flat.
      split; [split; [|discriminate]|].
      * intros b' Hb'. rewrite lookup_delete_ne by congruence. auto.
      * rewrite !invalid_frees_app, !app_nil_r. reflexivity.
    + st_flat. split; [split; [exact Hdev | discriminate]|].
      rewrite !invalid_frees_app, !app_nil_r. reflexivity.
  - st_flat. split; [split; [exact Hdev|]|].
    + intros a' [= <-]. eauto.
    + rewrite !invalid_frees_app, !app_nil_r. reflexivity.
Qed.

(** A candidate keeps the device references in order and frees nothing that
    is not allocated, provided [avcodec_alloc_context3] hands out contexts
    without a device reference. *)
Lemma candidate_post_heap dec wd ht perf_lvl threads s c s' :
  ctx_hw_device_ctx (fresh_context w dec) = None ->
  heap_ok s ->
  candidate_post hdr w dec wd ht perf_lvl threads s c s' ->
  heap_ok s' /\ invalid_frees (log s') = invalid_frees (log s).
Proof.
  intros Hfresh [Hdev Hctx] [[-> ->] | (-> & s1 & c' & Hneg & ->)].
  - revert Hdev Hctx. unfold alloc_failed, heap_ok. flat s. st_flat. intros Hdev Hctx.
    split; [split; [exact Hdev | discriminate]|].
    rewrite invalid_frees_app, app_nil_r. reflexivity.
  - pose proof (configure_ctx_hw_device_ctx wd ht perf_lvl threads (fresh_context w dec))
      as Hconf. rewrite Hfresh in Hconf.
    assert (decoder_ctx (context_allocated dec
                           (configure hdr wd ht perf_lvl threads (fresh_context w dec)) s)
            = Some (brk s)) as H1
      by (unfold context_allocated; clear; flat s; st_flat; reflexivity).
    assert (forall b,
              hw_device_ctx (context_allocated dec
                (configure hdr wd ht perf_lvl threads (fresh_context w dec)) s) = Some b ->
              is_Some (buffers (context_allocated dec
                (configure hdr wd ht perf_lvl threads (fresh_context w dec)) s) !! b)) as H3
      by (revert Hdev; unfold context_allocated; clear; flat s; st_flat; auto).
    destruct (negotiation_post_heap dec _ _ _ s1 c' H1 Hconf H3 Hneg)
      as (Hok & Hdc & Hcx & Hinv).
    destruct (opened_or_freed_heap dec (brk s) c' s1 Hok Hdc Hcx) as [Hok' Hinv'].
    split; [exact Hok'|]. rewrite Hinv', Hinv.
    unfold context_allocated. clear. flat s. st_flat.
    rewrite invalid_frees_app, app_nil_r. reflexivity.
Qed.

(** *** The context *)

Lemma negotiation_post_ctx dec s a c s' c' :
  decoder_ctx s = Some a ->
  negotiation_post dec s a c s' c' ->
  decoder_ctx s' = Some a /\ contexts s' !! a = Some c'.
Proof.
  intros Ha (tr & k & _ & _ & Hcase). revert Ha.
  destruct Hcase as [(d & f & _ & _ & ->) | (cfg & r & _ & _ & _ & _ & ->)];
    unfold not_negotiated, negotiated; cbv zeta; flat s; st_flat;
    intros ->; (split; [reflexivity | apply lookup_insert_eq]).
Qed.

Lemma negotiation_post_tuned dec wd ht perf_lvl threads s a c0 s' c' :
  negotiation_post dec s a (configure hdr wd ht perf_lvl threads c0) s' c' ->
  tuned hdr wd ht perf_lvl threads c0 c'.
Proof.
  intros (tr & k & _ & _ & [(d & f & _ & -> & _) | (cfg & r & _ & _ & _ & -> & _)]);
    unfold tuned, configure;
    destruct (negb (Z.land perf_lvl (SLICE_THREADING hdr) =? 0));
    try destruct (device_type cfg =? AV_HWDEVICE_TYPE_NONE);
    cbn; repeat split; auto.
Qed.

Lemma opened_or_freed_ctx dec a c s :
  decoder_ctx s = Some a -> contexts s !! a = Some c ->
  decoder_ctx (opened_or_freed w dec a c s) = None \/
  (decoder_ctx (opened_or_freed w dec a c s) = Some a /\
   contexts (opened_or_freed w dec a c s) !! a = Some c).
Proof.
  unfold opened_or_freed, unref. cbv zeta. flat s. st_flat. intros -> Hc.
  destruct (_ <? 0); [left | right]; st_flat.
  - destruct (ctx_hw_device_ctx c) as [b|]; [destruct (buffers0 !! b)|]; reflexivity.
  - split; [reflexivity | exact Hc].
Qed.

(** After a candidate decoder_ctx is NULL or points to a context set up for
    this candidate. *)
Lemma candidate_post_tuned dec wd ht perf_lvl threads s c s' :
  candidate_post hdr w dec wd ht perf_lvl threads s c s' ->
  ctx_tuned hdr w wd ht perf_lvl threads s'.
Proof.
  intros [[-> ->] | (-> & s1 & c' & Hneg & ->)].
  - unfold alloc_failed, ctx_tuned. flat s. st_flat. discriminate.
  - assert (decoder_ctx (context_allocated dec
                           (configure hdr wd ht perf_lvl threads (fresh_context w dec)) s)
            = Some (brk s)) as H1
      by (unfold context_allocated; clear; flat s; st_flat; reflexivity).
    destruct (negotiation_post_ctx _ _ _ _ _ _ H1 Hneg) as [Hdc Hcx].
    pose proof (negotiation_post_tuned _ _ _ _ _ _ _ _ _ _ Hneg) as Htuned.
    intros a Ha.
    destruct (opened_or_freed_ctx dec (brk s) c' s1 Hdc Hcx) as [Hnone | [Hsome Hc']];
      [congruence|].
    assert (a = brk s) as -> by congruence. eauto.
Qed.

End CandidateFacts.

(** ** What the selection loop guarantees *)

Section LoopFacts.

Context (hdr : Macros) (w : World).

Lemma looked_up_facts names :
  forall s,
    ring_view (foldl (looked_up w) s names) = ring_view s /\
    decoder (foldl (looked_up w) s names)
      = foldl (fun _ nm => registry w nm) (decoder s) names /\
    (exists tr, log (foldl (looked_up w) s names) = log s ++ tr /\
                lookups tr = names /\ invalid_frees tr = []) /\
    (hw_device_ctx (foldl (looked_up w) s names), buffers (foldl (looked_up w) s names),
     decoder_ctx (foldl (looked_up w) s names), contexts (foldl (looked_up w) s names))
      = (hw_device_ctx s, buffers s, decoder_ctx s, contexts s).
Proof.
  induction names as [|nm names IH]; intros s; cbn [foldl].
  - split; [reflexivity|]. split; [reflexivity|]. split; [|reflexivity].
    exists []. by rewrite app_nil_r.
  - destruct (IH (looked_up w s nm)) as (Hv & Hd & (tr & Hl & Hlk & Hif) & Hh).
    rewrite Hv, Hd, Hl, Hh. clear Hv Hd Hl Hh IH. unfold looked_up, ring_view. flat s. st_flat.
    split; [reflexivity|]. split; [reflexivity|]. split; [|reflexivity].
    exists (Lookup nm (bool_decide (is_Some (registry w nm))) :: tr).
    rewrite <- app_assoc. split; [reflexivity|]. split.
    + change (lookups (?e :: tr)) with (lookups ([e] ++ tr)). rewrite lookups_app, Hlk.
      reflexivity.
    + change (invalid_frees (?e :: tr)) with (invalid_frees ([e] ++ tr)).
      rewrite invalid_frees_app, Hif. reflexivity.
Qed.

Lemma heap_ok_transport s s' :
  (hw_device_ctx s', buffers s', decoder_ctx s', contexts s')
    = (hw_device_ctx s, buffers s, decoder_ctx s, contexts s) ->
  heap_ok s -> heap_ok s'.
Proof. unfold heap_ok. intros [= -> -> -> ->]. auto. Qed.

Lemma ctx_tuned_transport wd ht perf_lvl threads s s' :
  decoder_ctx s' = decoder_ctx s -> contexts s' = contexts s ->
  ctx_tuned hdr w wd ht perf_lvl threads s -> ctx_tuned hdr w wd ht perf_lvl threads s'.
Proof. unfold ctx_tuned. intros -> ->. auto. Qed.

Lemma init_try_facts videoFormat wd ht perf_lvl threads try s :
  wp (init_try hdr w videoFormat wd ht perf_lvl threads try)
     (loop_facts hdr w videoFormat wd ht perf_lvl threads [try] s) s.
Proof.
  unfold init_try. apply wp_bind. unfold wp at 1. rewrite select_candidate_exact.
  unfold loop_facts. cbn [fmap list_fmap concat]. rewrite app_nil_r.
  destruct (supported hdr videoFormat).
  2:{ wp_go. flat s. unfold ring_view. st_flat.
      split; [reflexivity|]. split.
      { eexists. split; [reflexivity|]. split; [apply prefix_nil|]. split; [reflexivity|].
        by left. }
      split; [discriminate|].
      split; [|auto]. intros _ Hok. split; [exact Hok|].
      rewrite invalid_frees_app, app_nil_r. reflexivity. }
  destruct (looked_up_facts (names_at hdr videoFormat (ffmpeg_decoder s) try) s)
    as (Hv & Hd & (tr & Hl & Hlk & Hif) & Hh).
  set (s1 := foldl (looked_up w) s (names_at hdr videoFormat (ffmpeg_decoder s) try)) in *.
  wp_go. destruct (decoder s1) as [dec|] eqn:Hdec.
  - eapply wp_mono; [apply open_candidate_outcome|].
    intros c s' Hpost.
    destruct (candidate_post_frame hdr w _ _ _ _ _ _ _ _ Hpost)
      as (Hv' & Hd' & tr' & Hl' & Htr' & Hc).
    split; [congruence|]. split.
    { exists (tr ++ tr'). split; [rewrite Hl', Hl, app_assoc; reflexivity|].
      rewrite lookups_app, (candidate_events_lookups tr' Htr'), app_nil_r, Hlk.
      destruct c as [|r].
      - split; [reflexivity|]. congruence.
      - destruct Hc as [-> Hlast]. split; [reflexivity|]. split; [reflexivity|]. right.
        rewrite last_app, Hlast. reflexivity. }
    split; [reflexivity|]. split.
    + intros Hfresh Hok.
      destruct (candidate_post_heap hdr w _ _ _ _ _ _ _ _ (Hfresh dec)
                  (heap_ok_transport _ _ Hh Hok) Hpost) as [Hok' Hinv].
      split; [exact Hok'|]. rewrite Hinv, Hl, invalid_frees_app, Hif, app_nil_r. reflexivity.
    + intros _. exact (candidate_post_tuned hdr w _ _ _ _ _ _ _ _ Hpost).
  - wp_go. split; [exact Hv|]. split.
    { exists tr. split; [exact Hl|]. split; [exact Hlk|]. congruence. }
    split; [reflexivity|]. split.
    + intros _ Hok. split; [exact (heap_ok_transport _ _ Hh Hok)|].
      rewrite Hl, invalid_frees_app, Hif, app_nil_r. reflexivity.
    + injection Hh as _ _ Hdc Hcx. apply ctx_tuned_transport; assumption.
Qed.

Lemma loop_facts_step videoFormat wd ht perf_lvl threads try rest s s1 c s' :
  loop_facts hdr w videoFormat wd ht perf_lvl threads [try] s Next s1 ->
  loop_facts hdr w videoFormat wd ht perf_lvl threads rest s1 c s' ->
  loop_facts hdr w videoFormat wd ht perf_lvl threads (try :: rest) s c s'.
Proof.
  unfold loop_facts. cbn [fmap list_fmap concat]. rewrite app_nil_r.
  intros (Hv1 & (tr1 & Hl1 & Hlk1 & Hd1) & Hs1 & Hh1 & Ht1)
         (Hv2 & (tr2 & Hl2 & Hc2) & _ & Hh2 & Ht2).
  assert (ffmpeg_decoder s1 = ffmpeg_decoder s) as Hacc
    by (revert Hv1; unfold ring_view; congruence).
  rewrite Hacc in *.
  split; [congruence|]. split.
  { exists (tr1 ++ tr2). split; [rewrite Hl2, Hl1, app_assoc; reflexivity|].
    rewrite lookups_app, Hlk1. destruct c as [|r].
    - destruct Hc2 as [-> Hd2]. split; [reflexivity|]. rewrite Hd2, Hd1, foldl_app.
      reflexivity.
    - destruct Hc2 as (Hpre & -> & Hlast). split; [by apply prefix_app|].
      split; [reflexivity|].
      destruct tr2 as [|e tr2]; [destruct Hlast as [?|?]; discriminate|].
      rewrite last_app. destruct (last (e :: tr2)); [exact Hlast|].
      destruct Hlast; discriminate. }
  split; [intros _ _; apply Hs1; [reflexivity | discriminate]|].
  split.
  - intros Hfresh Hok. destruct (Hh1 Hfresh Hok) as [Hok1 Hi1].
    destruct (Hh2 Hfresh Hok1) as [Hok2 Hi2]. split; [exact Hok2 | congruence].
  - auto.
Qed.

Lemma loop_facts_leave videoFormat wd ht perf_lvl threads try rest s r s' :
  loop_facts hdr w videoFormat wd ht perf_lvl threads [try] s (Return r) s' ->
  loop_facts hdr w videoFormat wd ht perf_lvl threads (try :: rest) s (Return r) s'.
Proof.
  unfold loop_facts. cbn [fmap list_fmap concat]. rewrite app_nil_r.
  intros (Hv & (tr & Hl & Hpre & Hc) & _ & Hh & Ht).
  split; [exact Hv|]. split; [|split; [discriminate | auto]].
  exists tr. split; [exact Hl|]. split; [|exact Hc].
  etrans; [exact Hpre|]. by apply prefix_app_r.
Qed.

Lemma init_loop_facts videoFormat wd ht perf_lvl threads tries :
  forall s,
    wp (init_loop hdr w videoFormat wd ht perf_lvl threads tries)
       (loop_facts hdr w videoFormat wd ht perf_lvl threads tries s) s.
Proof.
  induction tries as [|try rest IH]; intros s; cbn [init_loop].
  - wp_go. unfold loop_facts. cbn [fmap list_fmap concat foldl].
    split; [reflexivity|]. split; [|split; [congruence | auto]].
    exists []. rewrite app_nil_r. auto.
  - apply wp_bind. eapply wp_mono; [apply init_try_facts|].
    intros c s1 H1. destruct c as [|r].
    + eapply wp_mono; [apply IH|]. intros c s2 H2. eapply loop_facts_step; eauto.
    + wp_go. by apply loop_facts_leave.
Qed.

End LoopFacts.

(** ** Building the ring *)

Section RingSetup.

Context (hdr : Macros) (w : World).

(** The loop that fills the array, entered with [filled] in place and [n]
    cells to go: it allocates [m] frames at consecutive fresh addresses and
    stores them in order; it stops at the first allocation that fails. *)
Lemma alloc_frames_exact n :
  forall s arr filled,
    dec_frames s = Some arr ->
    arrays s !! arr = Some (slot_cells filled ++ replicate n Indeterminate) ->
    wp (alloc_frames w (seqZ (Z.of_nat (length filled)) (Z.of_nat n)))
       (fun c s' =>
          exists (m : nat) fr k cells l,
            s' = set_log l (set_calls k (set_brk (brk s + m)%nat
                   (set_arrays (<[arr := cells]> (arrays s)) (set_frames fr s)))) /\
            (forall x, x <> AvFrameAlloc -> k x = calls s x) /\
            (forall a, a ∈ seq (brk s) m -> is_Some (fr !! a)) /\
            (forall a, is_Some (frames s !! a) -> is_Some (fr !! a)) /\
            match c with
            | Next => m = n /\ cells = slot_cells (filled ++ seq (brk s) m) /\ l = log s
            | Return r =>
                r = -1 /\ (m < n)%nat /\
                cells = slot_cells (filled ++ seq (brk s) m) ++
                        Pointer None :: replicate (n - S m) Indeterminate /\
                l = log s ++ [Print stderr "Couldn't allocate frame"]
            end) s.
Proof.
  induction n as [|n IH]; intros s arr filled Harr Hcells.
  - change (seqZ _ (Z.of_nat 0)) with (@nil Z). cbn [alloc_frames].
    wp_go. exists 0%nat, (frames s), (calls s), (slot_cells filled), (log s).
    cbn [replicate] in Hcells. rewrite app_nil_r in Hcells.
    split.
    { revert Harr Hcells. flat s. st_flat. intros -> Hcells.
      rewrite Nat.add_0_r, insert_id by exact Hcells. reflexivity. }
    split; [auto|]. split; [intros a Ha; by apply elem_of_nil in Ha|]. split; [auto|].
    cbn [seq]. rewrite app_nil_r. auto.
  - rewrite seqZ_cons by lia.
    replace (Z.pred (Z.of_nat (S n))) with (Z.of_nat n) by lia.
    replace (Z.succ (Z.of_nat (length filled))) with (Z.of_nat (length (filled ++ [0%nat])))
      by (rewrite length_app; cbn [length]; lia).
    cbn [alloc_frames replicate] in *.
    flat s. st_proj_all. subst.
    wp_enter. unfold av_frame_alloc. wp_go.
    destruct (answer w AvFrameAlloc (calls0 AvFrameAlloc) =? 0) eqn:Halloc.
    + wp_go. wp_enter.
      eapply wp_store_slot; [reflexivity | exact Hcells | |].
      { rewrite length_app. unfold slot_cells. rewrite length_fmap. cbn [length]. lia. }
      wp_go. rewrite Nat2Z.id, slot_cells_null.
      exists 0%nat, frames0, (bump AvFrameAlloc calls0),
        (slot_cells filled ++ Pointer None :: replicate n Indeterminate),
        (log0 ++ [Print stderr "Couldn't allocate frame"]).
      split; [st_flat; rewrite Nat.add_0_r; reflexivity|].
      split; [intros x Hx; by rewrite bump_other|].
      split; [intros a Ha; by apply elem_of_nil in Ha|]. split; [auto|].
      split; [reflexivity|]. split; [lia|]. cbn [seq]. rewrite app_nil_r.
      split; [|reflexivity]. do 3 f_equal. lia.
    + wp_go. wp_enter.
      eapply wp_store_slot; [reflexivity | exact Hcells | |].
      { rewrite length_app. unfold slot_cells. rewrite length_fmap. cbn [length]. lia. }
      wp_go. rewrite Nat2Z.id, slot_cells_snoc.
      replace (length (filled ++ [0%nat])) with (length (filled ++ [brk0]))
        by (rewrite !length_app; reflexivity).
      eapply wp_mono.
      { eapply IH with (arr := arr) (filled := filled ++ [brk0]); st_proj.
        - reflexivity.
        - apply lookup_insert_eq. }
      intros c s' (m & fr & k & cells & l & -> & Hk & Hnew & Hold & Hcase).
      revert Hk Hnew Hold Hcase. st_proj. intros Hk Hnew Hold Hcase.
      exists (S m), fr, k, cells, l.
      split; [st_flat; rewrite insert_insert_eq, Nat.add_succ_r; reflexivity|].
      split; [intros x Hx; rewrite (Hk x Hx); by rewrite bump_other|].
      split.
      { intros a Ha. cbn [seq] in Ha. apply elem_of_cons in Ha as [->|Ha]; [|auto].
        apply Hold. rewrite lookup_insert_eq. eauto. }
      split; [intros a Ha; apply Hold, is_Some_insert, Ha|].
      cbn [seq]. rewrite <- app_assoc in Hcase. cbn [app] in Hcase.
      destruct c as [|r].
      * destruct Hcase as (-> & -> & ->). auto.
      * destruct Hcase as (-> & Hm & -> & ->).
        split; [reflexivity|]. split; [lia|]. auto.
Qed.

Lemma ring_setup_facts N s : wp (ring_setup hdr w N) (setup_facts N s) s.
Proof.
  flat s. unfold ring_setup, malloc_frames. wp_go.
  destruct (answer w Malloc (calls0 Malloc) =? 0) eqn:Hmalloc.
  { wp_go. unfold setup_facts, setup_view. st_flat.
    split; [reflexivity|]. split; [|discriminate].
    eexists. rewrite <- app_assoc. split; [reflexivity|].
    split; [reflexivity|]. split; [reflexivity|]. split; [reflexivity|]. by left. }
  wp_go. wp_enter. rewrite seqZ_to_nat.
  eapply wp_mono.
  { eapply alloc_frames_exact with (arr := brk0) (filled := []); st_proj.
    - reflexivity.
    - apply lookup_insert_eq. }
  intros c s2 (m & fr & k & cells & l & -> & Hk & Hnew & Hold & Hcase).
  revert Hk Hnew Hold Hcase. st_proj. rewrite insert_insert_eq. cbn [app].
  intros Hk Hnew Hold Hcase.
  destruct c as [|r].
  2:{ destruct Hcase as (-> & _ & _ & ->). wp_go. unfold setup_facts, setup_view. st_flat.
      split; [reflexivity|]. split; [|discriminate].
      eexists. rewrite <- app_assoc. split; [reflexivity|].
      split; [reflexivity|]. split; [reflexivity|]. split; [reflexivity|]. by right. }
  destruct Hcase as (-> & -> & ->).
  assert (forall sw fr' k' b' tr,
    lookups tr = [] -> invalid_frees tr = [] ->
    last (Print stderr "Using FFmpeg decoder: %s" :: tr)
      = Some (Print stderr "Using FFmpeg decoder: %s") \/
    last (Print stderr "Using FFmpeg decoder: %s" :: tr) = Some (VaapiInit decoder_ctx0) ->
    (forall a, is_Some (fr !! a) -> is_Some (fr' !! a)) ->
    (hw_device_ctx0 = None -> sw = sw_frame0) ->
    (is_Some hw_device_ctx0 -> forall x, sw = Some x ->
       is_Some (fr' !! x) /\ x ∉ seq (S brk0) (Z.to_nat N)) ->
    setup_facts N
      (Build_State pkt0 decoder0 decoder_ctx0 dec_frames0 hw_device_ctx0 hw_pix_fmt0 sw_frame0
         dec_frames_cnt0 current_frame0 next_frame0 ffmpeg_decoder0 packets0 contexts0
         frames0 buffers0 arrays0 brk0 calls0 log0)
      0
      (Build_State pkt0 decoder0 decoder_ctx0 (Some brk0) hw_device_ctx0 hw_pix_fmt0 sw
         N current_frame0 next_frame0 ffmpeg_decoder0 packets0 contexts0 fr' buffers0
         (<[brk0 := slot_cells (seq (S brk0) (Z.to_nat N))]> arrays0) b' k'
         (log0 ++ Print stderr "Using FFmpeg decoder: %s" :: tr))) as Hdone.
  { intros sw fr' k' b' tr Hlk Hif Hlast Hfr Hsw0 Hsw1.
    unfold setup_facts, setup_view. st_flat.
    split; [reflexivity|]. split.
    { eexists. split; [reflexivity|].
      change (?e :: tr) with ([e] ++ tr). rewrite lookups_app, invalid_frees_app, Hlk, Hif.
      split; [reflexivity|]. split; [reflexivity|]. exact Hlast. }
    intros _. exists brk0, (S brk0). st_proj.
    split; [reflexivity|]. split; [apply lookup_insert_eq|]. split; [reflexivity|].
    split; [auto|]. split; assumption. }
  wp_go. wp_enter. unfold when.
  destruct (bool_decide (is_Some hw_device_ctx0)) eqn:Hdev.
  - apply bool_decide_eq_true in Hdev.
    wp_go. wp_enter. unfold av_frame_alloc. wp_go.
    destruct (answer w AvFrameAlloc (k AvFrameAlloc) =? 0); wp_go; wp_enter;
      destruct (HAVE_VAAPI hdr && bool_decide (ffmpeg_decoder0 = VAAPI));
      wp_go; rewrite <- ?app_assoc; cbn [app]; apply Hdone;
      solve [ reflexivity | by left | by right | auto using is_Some_insert
            | intros Hn; rewrite Hn in Hdev; by apply is_Some_None in Hdev
            | intros _ x [=]
            | intros _ x [= <-]; rewrite lookup_insert_eq; split; [eauto|];
              rewrite elem_of_seq; lia ].
  - apply bool_decide_eq_false in Hdev.
    assert (hw_device_ctx0 = None) as ->
      by (destruct hw_device_ctx0; [destruct Hdev; eauto | reflexivity]).
    wp_go. wp_enter.
    destruct (HAVE_VAAPI hdr && bool_decide (ffmpeg_decoder0 = VAAPI));
      wp_go; rewrite <- ?app_assoc; cbn [app]; apply Hdone;
      solve [ reflexivity | by left | by right | auto | intros [? [=]] ].
Qed.

End RingSetup.

(** ** [ffmpeg_init] as a whole *)

Section InitFacts.

Context (hdr : Macros) (w : World).

(** Membership in a list that is written out. *)
Ltac listed :=
  unfold diagnostics; repeat first [apply list_elem_of_here | apply list_elem_of_further].

Lemma diagnostic_last tr out text :
  (out, text) ∈ diagnostics ->
  exists out' text', last (tr ++ [Print out text]) = Some (Print out' text') /\
                     (out', text') ∈ diagnostics.
Proof. intros H. exists out, text. by rewrite last_snoc. Qed.

Lemma ffmpeg_init_facts videoFormat wd ht perf_lvl N threads s :
  wp (ffmpeg_init hdr w videoFormat wd ht perf_lvl N threads)
     (init_facts hdr w videoFormat wd ht perf_lvl N threads s) s.
Proof.
  unfold ffmpeg_init. wp_enter. unfold av_packet_alloc.
  flat s. wp_go.
  destruct (answer w AvPacketAlloc (calls0 AvPacketAlloc) =? 0) eqn:Hpkt.
  { wp_go. unfold init_facts. st_proj.
    split.
    { eexists. split; [reflexivity|]. split; [apply prefix_nil|]. split; [reflexivity|].
      eexists _, _. split; [reflexivity|]. listed. }
    split; [discriminate|]. split.
    - intros _ Hok. split; [exact (heap_ok_transport _ _ eq_refl Hok)|].
      rewrite invalid_frees_app, app_nil_r. reflexivity.
    - apply ctx_tuned_transport; reflexivity. }
  wp_go. wp_enter. eapply wp_mono; [apply init_loop_facts|].
  intros c s1 (Hv & (tr & Hl & Hc) & Hsup & Hh & Ht).
  revert Hv Hl Hc Hh Ht. unfold ring_view. flat1 s1. st_proj.
  fold (lookup_plan hdr videoFormat perf_lvl).
  rewrite !bump_other by discriminate.
  intros [= -> -> -> -> -> -> -> -> -> -> Hfa Hma] -> Hc Hh Ht.
  destruct c as [|r].
  2:{ destruct Hc as (Hpre & -> & Hlast). wp_go. unfold init_facts. st_proj.
      split.
      { exists tr. split; [reflexivity|]. split; [exact Hpre|]. split; [reflexivity|].
        destruct Hlast as [-> | ->]; eexists _, _; (split; [reflexivity|]); listed. }
      split; [discriminate|]. split.
      - intros Hfresh Hok. exact (Hh Hfresh (heap_ok_transport _ _ eq_refl Hok)).
      - intros Htu. exact (Ht (ctx_tuned_transport hdr w _ _ _ _ _ _ eq_refl eq_refl Htu)). }
  destruct Hc as [Hlk Hd]. wp_go.
  destruct (foldl (fun _ nm => registry w nm) decoder0 (lookup_plan hdr videoFormat perf_lvl))
    as [dec|] eqn:Hdec.
  2:{ wp_go. unfold init_facts. st_proj.
      split.
      { eexists. split; [rewrite <- app_assoc; reflexivity|].
        rewrite lookups_app, Hlk, app_nil_r. split; [reflexivity|]. split; [reflexivity|].
        apply diagnostic_last. listed. }
      split; [discriminate|]. split.
      - intros Hfresh Hok.
        destruct (Hh Hfresh (heap_ok_transport _ _ eq_refl Hok)) as [Hok1 Hinv].
        split; [exact (heap_ok_transport _ _ eq_refl Hok1)|].
        rewrite invalid_frees_app, app_nil_r. exact Hinv.
      - intros Htu.
        pose proof (Ht (ctx_tuned_transport hdr w _ _ _ _ _ _ eq_refl eq_refl Htu)) as Ht1.
        revert Ht1. apply ctx_tuned_transport; reflexivity. }
  lazymatch goal with
  | |- wp _ ?Q ?S => change (wp (ring_setup hdr w N) Q S)
  end.
  eapply wp_mono; [apply ring_setup_facts|].
  intros r s2 (Hv2 & (tr2 & Hl2 & Hlk2 & Hif2 & Hlast2) & Hring).
  revert Hv2 Hl2 Hlast2 Hring. unfold setup_view, ring_built. st_proj.
  intros [= Hp2 Hpk2 Hd2 Hdc2 Hcx2 Hbf2 Hhw2 Hfmt2 Hcur2 Hnx2 Hacc2] Hl2 Hlast2 Hring.
  unfold init_facts, ring_built. st_proj.
  split.
  { exists (tr ++ tr2). split; [rewrite Hl2, app_assoc; reflexivity|].
    rewrite lookups_app, Hlk, Hlk2, app_nil_r. split; [reflexivity|].
    assert (tr2 <> []) as Hne
      by (intros ->; destruct r as [|?|?]; cbn in Hlast2; intuition discriminate).
    assert (last (tr ++ tr2) = last tr2) as ->.
    { destruct tr2 as [|e tr2]; [done|]. rewrite last_app.
      destruct (last (e :: tr2)) eqn:He; [reflexivity|].
      apply last_None in He. done. }
    destruct r as [|r|r].
    - split; [reflexivity|]. rewrite Hdc2. exact Hlast2.
    - destruct Hlast2 as [? _]. discriminate.
    - destruct Hlast2 as [Hr Hlast2]. split; [exact Hr|].
      destruct Hlast2 as [-> | ->]; eexists _, _; (split; [reflexivity|]); listed. }
  split.
  { intros ->. specialize (Hring eq_refl).
    split; [apply Hsup; [reflexivity | discriminate]|].
    split; [congruence|]. split; [rewrite Hd2; eauto|].
    split; [exact Hring|].
    split; [exists brk0; rewrite Hp2, Hpk2, lookup_insert_eq; eauto|].
    split; [congruence|]. split; congruence. }
  split.
  - intros Hfresh Hok.
    destruct (Hh Hfresh (heap_ok_transport _ _ eq_refl Hok)) as [Hok1 Hinv].
    split.
    + revert Hok1. apply heap_ok_transport. st_proj. congruence.
    + rewrite Hl2, invalid_frees_app, Hif2, app_nil_r. exact Hinv.
  - intros Htu.
    pose proof (Ht (ctx_tuned_transport hdr w _ _ _ _ _ _ eq_refl eq_refl Htu)) as Ht1.
    revert Ht1. apply ctx_tuned_transport; assumption.
Qed.

End InitFacts.

(** * The frame ring after any initialisation *)

Section RingAfterInit.

Context (hdr : Macros) (w : World).

(** [ffmpeg_init] never assigns the ring indices: a call that returns 0
    leaves a ready ring if it found both indices inside the ring it builds. *)
Lemma init_ready_from videoFormat width height perf_lvl N thread_count s s0 :
  1 <= N <= INT_MAX ->
  0 <= current_frame s < N -> 0 <= next_frame s < N ->
  ffmpeg_init hdr w videoFormat width height perf_lvl N thread_count s = Some (0, s0) ->
  exists slots,
    ring_ready N slots s0 /\ NoDup slots /\
    current_frame s0 = current_frame s /\ next_frame s0 = next_frame s.
Proof.
  intros HN Hcur Hnext Hinit.
  pose proof (ffmpeg_init_facts hdr w videoFormat width height perf_lvl N thread_count s)
    as H.
  unfold wp in H. rewrite Hinit in H. destruct H as (_ & Hok & _).
  destruct (Hok eq_refl) as (_ & _ & _ & Hring & Hpkt & Hn & Hc & _).
  destruct Hring as (arr & m & Harr & Hcells & Hcnt & Hlive & _).
  exists (seq m (Z.to_nat N)).
  split; [|split; [apply NoDup_seq | split; assumption]].
  split; try assumption.
  - by exists arr.
  - rewrite length_seq. lia.
  - by rewrite Hc.
  - by rewrite Hn.
Qed.



End RingAfterInit.

(** * Further properties of the code *)

(** ** [get_hw_format] *)

(** X1 — [get_hw_format] walks the offer up to its -1 terminator: if
    hw_pix_fmt is among the formats offered before the terminator it returns
    hw_pix_fmt and prints nothing; otherwise it prints the failure message on
    stderr and returns AV_PIX_FMT_NONE.  It never returns another offered
    format, and nothing after the terminator is read. *)
Theorem get_hw_format_selects offered rest s :
  -1 ∉ offered ->
  get_hw_format (offered ++ -1 :: rest) s =
    Some (if bool_decide (hw_pix_fmt s ∈ offered)
          then (hw_pix_fmt s, s)
          else (AV_PIX_FMT_NONE,
                set_log (log s ++ [Print stderr "Failed to get HW surface format."]) s)).
Proof.
  induction offered as [|p offered IH]; intros Hterm.
  - reflexivity.
  - apply not_elem_of_cons in Hterm as [Hp Hterm].
    cbn [app get_hw_format]. destruct (Z.eqb_spec p (-1)) as [->|_]; [done|].
    unfold bind at 1, read at 1. destruct (Z.eqb_spec p (hw_pix_fmt s)) as [->|Hne].
    + rewrite bool_decide_eq_true_2 by left. reflexivity.
    + rewrite (IH Hterm). f_equal.
      destruct (decide (hw_pix_fmt s ∈ offered)) as [Hin|Hout].
      * rewrite !bool_decide_eq_true_2; [reflexivity | by right | done].
      * rewrite !bool_decide_eq_false_2; [reflexivity | | done].
        intros [?|?]%elem_of_cons; [congruence | done].
Qed.

(** X2 — An offer that is not terminated by -1 and does not hold hw_pix_fmt
    makes [get_hw_format] read past its end. *)
Theorem get_hw_format_needs_terminator offered s :
  -1 ∉ offered -> hw_pix_fmt s ∉ offered -> get_hw_format offered s = None.
Proof.
  induction offered as [|p offered IH]; intros Hterm Hhw.
  - reflexivity.
  - apply not_elem_of_cons in Hterm as [Hp Hterm].
    apply not_elem_of_cons in Hhw as [Hq Hhw].
    cbn [get_hw_format]. destruct (Z.eqb_spec p (-1)) as [->|_]; [done|].
    unfold bind at 1, read at 1. destruct (Z.eqb_spec p (hw_pix_fmt s)) as [->|_]; [done|].
    auto.
Qed.

(** ** [hwaccel_setup] *)

Section DeviceBinding.

Context (hdr : Macros) (w : World).

(** X3 — [hwaccel_setup] answers true only with a device in hand: some
    configuration of the decoder that offers AV_CODEC_HW_CONFIG_METHOD_HW_DEVICE_CTX
    had its device created, hw_device_ctx refers to that device, hw_pix_fmt is
    the pixel format of that configuration, and the codec context has the
    [get_hw_format] callback and, unless [av_buffer_ref] failed, a second
    reference of its own.  It answers false after telling on stderr that the
    decoder supports no available method. *)
Theorem hwaccel_binds_created_device dec s a c :
  decoder_ctx s = Some a -> contexts s !! a = Some c ->
  exists ok s',
    hwaccel_setup w dec s = Some (ok, s') /\
    (ok = true ->
     exists config c',
       config ∈ hw_configs dec /\
       Z.land (methods config) AV_CODEC_HW_CONFIG_METHOD_HW_DEVICE_CTX <> 0 /\
       device_type config <> AV_HWDEVICE_TYPE_NONE /\
       hw_pix_fmt s' = config_pix_fmt config /\
       hw_device_ctx s' = Some (brk s) /\
       buffers s' !! brk s =
         Some {| device := brk s; device_kind := device_type config |} /\
       contexts s' !! a = Some c' /\
       get_format c' = get_hw_format_callback /\
       (ctx_hw_device_ctx c' = None \/
        ctx_hw_device_ctx c' = Some (S (brk s)) /\
        buffers s' !! S (brk s) =
          Some {| device := brk s; device_kind := device_type config |})) /\
    (ok = false ->
     last (log s') =
       Some (Print stderr "Decoder %s does not support any of the available hwaccel methods")).
Proof.
  intros Ha Hc.
  apply wp_elim. unfold hwaccel_setup. apply wp_bind.
  eapply wp_mono; [exact (hwaccel_scan_outcome w (hw_configs dec) s a c Ha Hc)|].
  intros t s1 (tr & k & _ & _ & Hcase).
  destruct (t =? AV_HWDEVICE_TYPE_NONE) eqn:Ht.
  - unfold fprintf_stderr, emit, wp, bind, modify, ret. cbn. split; [discriminate|].
    intros _. apply last_snoc.
  - apply Z.eqb_neq in Ht. apply wp_ret. split; [|discriminate]. intros _.
    destruct Hcase as [[-> _]|(config & r & Hin & Hm & -> & Hr & ->)]; [done|].
    exists config, (set_ctx_hw_device_ctx r (set_get_format get_hw_format_callback c)).
    unfold negotiated. flat s. st_flat.
    repeat (split; [first [assumption | reflexivity]|]).
    split.
    { destruct Hr as [-> | ->]; [apply lookup_insert_eq|].
      rewrite lookup_insert_ne by apply Nat.neq_succ_diag_l. apply lookup_insert_eq. }
    split; [apply lookup_insert_eq|]. split; [reflexivity|].
    destruct Hr as [-> | ->]; [by left|]. right. split; [reflexivity|].
    apply lookup_insert_eq.
Qed.

End DeviceBinding.

(** ** [ffmpeg_init]: failures before any decoder is tried *)

Section EarlyFailures.

Context (hdr : Macros) (w : World).

(** X4 — If the packet cannot be allocated, [ffmpeg_init] says so on stdout
    and returns -1 at once: pkt is NULL, no decoder has been looked up, and
    ffmpeg_decoder, the decoder and the ring are as they were before the
    call. *)
Theorem init_without_packet videoFormat width height perf_lvl buffer_count thread_count s :
  answer w AvPacketAlloc (calls s AvPacketAlloc) = 0 ->
  exists s',
    ffmpeg_init hdr w videoFormat width height perf_lvl buffer_count thread_count s
      = Some (-1, s') /\
    log s' = log s ++ [Print stdout "Couldn't allocate packet"] /\
    pkt s' = None /\
    ffmpeg_decoder s' = ffmpeg_decoder s /\ decoder s' = decoder s /\
    decoder_ctx s' = decoder_ctx s /\ ring_view (set_pkt (pkt s) s') = ring_view s.
Proof.
  intros Hpkt.
  enough (wp (ffmpeg_init hdr w videoFormat width height perf_lvl buffer_count thread_count)
            (fun r s' =>
               r = -1 /\ log s' = log s ++ [Print stdout "Couldn't allocate packet"] /\
               pkt s' = None /\
               ffmpeg_decoder s' = ffmpeg_decoder s /\ decoder s' = decoder s /\
               decoder_ctx s' = decoder_ctx s /\ ring_view (set_pkt (pkt s) s') = ring_view s)
            s) as H.
  { apply wp_elim in H as (r & s' & Hrun & -> & H). eauto. }
  flat s. st_proj_all. unfold ffmpeg_init. wp_enter. unfold av_packet_alloc. wp_go.
  rewrite Hpkt. cbn [Z.eqb]. wp_go. unfold ring_view. st_flat.
  rewrite ?bump_other by discriminate. repeat split; reflexivity.
Qed.

(** X5 — A video format outside the three codec families is refused in the
    first iteration of the selection loop: [ffmpeg_init] prints "Video format
    not supported" on stdout and returns -1 without looking up any decoder.
    The packet allocated just before stays allocated, and pkt points to it. *)
Theorem init_unsupported_format
    videoFormat width height perf_lvl buffer_count thread_count s :
  answer w AvPacketAlloc (calls s AvPacketAlloc) <> 0 ->
  Z.land videoFormat (VIDEO_FORMAT_MASK_H264 hdr) = 0 ->
  Z.land videoFormat (VIDEO_FORMAT_MASK_H265 hdr) = 0 ->
  Z.land videoFormat (VIDEO_FORMAT_MASK_AV1 hdr) = 0 ->
  exists s',
    ffmpeg_init hdr w videoFormat width height perf_lvl buffer_count thread_count s
      = Some (-1, s') /\
    log s' = log s ++ [Print stdout "Video format not supported"] /\
    pkt s' = Some (brk s) /\
    packets s' = <[brk s := {| pkt_data := []; pkt_size := 0 |}]> (packets s) /\
    ffmpeg_decoder s' =
      (if Z.land perf_lvl (VAAPI_ACCELERATION hdr) =? 0 then SOFTWARE else VAAPI) /\
    decoder s' = decoder s /\ decoder_ctx s' = decoder_ctx s /\ contexts s' = contexts s /\
    dec_frames s' = dec_frames s /\ arrays s' = arrays s /\ frames s' = frames s.
Proof.
  intros Hpkt H264 H265 HAV1.
  enough (wp (ffmpeg_init hdr w videoFormat width height perf_lvl buffer_count thread_count)
            (fun r s' =>
               r = -1 /\
               log s' = log s ++ [Print stdout "Video format not supported"] /\
               pkt s' = Some (brk s) /\
               packets s' = <[brk s := {| pkt_data := []; pkt_size := 0 |}]> (packets s) /\
               ffmpeg_decoder s' =
                 (if Z.land perf_lvl (VAAPI_ACCELERATION hdr) =? 0 then SOFTWARE else VAAPI) /\
               decoder s' = decoder s /\ decoder_ctx s' = decoder_ctx s /\
               contexts s' = contexts s /\
               dec_frames s' = dec_frames s /\ arrays s' = arrays s /\ frames s' = frames s)
            s) as H.
  { apply wp_elim in H as (r & s' & Hrun & -> & H). eauto. }
  apply Z.eqb_neq in Hpkt.
  flat s. st_proj_all. unfold ffmpeg_init. wp_enter. unfold av_packet_alloc. wp_go.
  wp_enter.
  change (seqZ 0 5) with [0; 1; 2; 3; 4]. cbn [init_loop]. wp_enter.
  unfold init_try. wp_enter. unfold select_candidate. wp_go.
  rewrite H264, H265, HAV1. cbn [Z.eqb negb]. wp_go.
  repeat split; reflexivity.
Qed.

End EarlyFailures.

(** ** Properties of [ffmpeg_init] *)

Section InitProperties.

Context (hdr : Macros) (w : World).

Lemma lookup_plan_priority videoFormat perf_lvl :
  lookup_plan hdr videoFormat perf_lvl = priority_order hdr videoFormat perf_lvl.
Proof.
  unfold lookup_plan, priority_order, names_at. cbv zeta.
  destruct (Z.land perf_lvl (VAAPI_ACCELERATION hdr) =? 0);
    destruct (Z.land videoFormat (VIDEO_FORMAT_MASK_H264 hdr) =? 0);
    destruct (Z.land videoFormat (VIDEO_FORMAT_MASK_H265 hdr) =? 0);
    destruct (Z.land videoFormat (VIDEO_FORMAT_MASK_AV1 hdr) =? 0);
    reflexivity.
Qed.

Lemma supported_priority videoFormat perf_lvl :
  supported hdr videoFormat = true -> priority_order hdr videoFormat perf_lvl <> [].
Proof.
  unfold supported, priority_order. cbv zeta.
  destruct (Z.land perf_lvl (VAAPI_ACCELERATION hdr) =? 0);
    destruct (Z.land videoFormat (VIDEO_FORMAT_MASK_H264 hdr) =? 0);
    destruct (Z.land videoFormat (VIDEO_FORMAT_MASK_H265 hdr) =? 0);
    destruct (Z.land videoFormat (VIDEO_FORMAT_MASK_AV1 hdr) =? 0);
    cbn; congruence.
Qed.

Lemma foldl_last_lookup {A B} (f : B -> A) (d : A) (l : list B) :
  l <> [] -> exists x, last l = Some x /\ foldl (fun _ y => f y) d l = f x.
Proof.
  induction l as [|y l IH] using rev_ind; [done|]. intros _.
  exists y. rewrite last_snoc, foldl_app. auto.
Qed.

(** X6 — [ffmpeg_init] looks the decoders up by name in the documented
    priority order of the codec family and the preference: whatever the
    library answers and from whatever state, the names looked up during the
    call are a prefix of that order, and all of it when the call returns 0. *)
Theorem lookups_follow_priority videoFormat wd ht perf_lvl N threads s :
  exists r s' tr,
    ffmpeg_init hdr w videoFormat wd ht perf_lvl N threads s = Some (r, s') /\
    log s' = log s ++ tr /\
    lookups tr `prefix_of` priority_order hdr videoFormat perf_lvl /\
    (r = 0 -> lookups tr = priority_order hdr videoFormat perf_lvl).
Proof.
  destruct (wp_elim _ _ _ (ffmpeg_init_facts hdr w videoFormat wd ht perf_lvl N threads s))
    as (r & s' & Hrun & (tr & Hl & Hpre & Hr) & _).
  rewrite lookup_plan_priority in *.
  exists r, s', tr. split; [exact Hrun|]. split; [exact Hl|]. split; [exact Hpre|].
  intros ->. tauto.
Qed.

(** X7 — A call of [ffmpeg_init] that returns 0 has selected the last name
    of the priority order, the generic decoder of the codec family: that
    decoder is compiled in and it is the one left in [decoder], whichever
    candidates were opened before it.  So without the generic decoder
    [ffmpeg_init] never returns 0. *)
Theorem init_selects_last_candidate videoFormat wd ht perf_lvl N threads s s' :
  ffmpeg_init hdr w videoFormat wd ht perf_lvl N threads s = Some (0, s') ->
  exists nm dec,
    last (priority_order hdr videoFormat perf_lvl) = Some nm /\
    registry w nm = Some dec /\ decoder s' = Some dec.
Proof.
  intros Hrun.
  pose proof (ffmpeg_init_facts hdr w videoFormat wd ht perf_lvl N threads s) as H.
  unfold wp in H. rewrite Hrun in H. destruct H as (_ & Hok & _).
  destruct (Hok eq_refl) as (Hsup & Hdec & [dec Hsome] & _).
  rewrite lookup_plan_priority in Hdec.
  destruct (foldl_last_lookup (registry w) (decoder s) _
              (supported_priority videoFormat perf_lvl Hsup)) as (nm & Hlast & Hfold).
  exists nm, dec. split; [exact Hlast|]. split; congruence.
Qed.

(** X8 — [ffmpeg_init] returns 0 or -1, and it returns -1 exactly when the
    last thing it did was to print one of its six diagnostics; no failure
    goes unreported and no diagnostic is followed by success. *)
Theorem init_failure_is_reported videoFormat wd ht perf_lvl N threads s :
  exists r s' tr,
    ffmpeg_init hdr w videoFormat wd ht perf_lvl N threads s = Some (r, s') /\
    log s' = log s ++ tr /\
    (r = 0 \/ r = -1) /\
    (r = -1 <-> exists out text, last tr = Some (Print out text) /\
                                 (out, text) ∈ diagnostics).
Proof.
  destruct (wp_elim _ _ _ (ffmpeg_init_facts hdr w videoFormat wd ht perf_lvl N threads s))
    as (r & s' & Hrun & (tr & Hl & _ & Hr) & _).
  exists r, s', tr. split; [exact Hrun|]. split; [exact Hl|].
  destruct r as [|r|r].
  - split; [by left|]. split; [discriminate|].
    intros (out & text & Hlast & Hin). destruct Hr as [_ [Hr|Hr]]; rewrite Hr in Hlast.
    + injection Hlast as <- <-.
      unfold diagnostics in Hin.
      repeat (apply elem_of_cons in Hin as [[=]|Hin]). by apply elem_of_nil in Hin.
    + discriminate.
  - destruct Hr as [[=] _].
  - destruct Hr as [-> Hr]. split; [by right|]. split; [intros _; exact Hr | reflexivity].
Qed.

(** X9 — Whatever context decoder_ctx points to when the first
    [ffmpeg_init] of the process returns has been set up for streaming: low
    delay, corrupt frames shown, errors reported, the picture size of the
    call, slice threading with the thread count of the call if perf_lvl asks
    for it and one thread otherwise, and the pixel format YUV420P unless the
    [get_hw_format] callback was installed. *)
Theorem opened_context_is_tuned videoFormat wd ht perf_lvl N threads r s' a :
  ffmpeg_init hdr w videoFormat wd ht perf_lvl N threads process_start = Some (r, s') ->
  decoder_ctx s' = Some a ->
  exists dec c,
    contexts s' !! a = Some c /\
    tuned hdr wd ht perf_lvl threads (fresh_context w dec) c.
Proof.
  intros Hrun Ha.
  pose proof (ffmpeg_init_facts hdr w videoFormat wd ht perf_lvl N threads process_start)
    as H.
  unfold wp in H. rewrite Hrun in H. destruct H as (_ & _ & _ & Htuned).
  apply Htuned; [|exact Ha]. intros a' [=].
Qed.

(** X10 — [ffmpeg_init] accepts a buffer count of 0: if the allocations
    succeed it returns 0 with an empty ring, and then the first
    [ffmpeg_get_frame] reads dec_frames[0] outside the array. *)
Theorem empty_ring_is_unusable videoFormat wd ht perf_lvl threads s0 native_frame :
  ffmpeg_init hdr w videoFormat wd ht perf_lvl 0 threads process_start = Some (0, s0) ->
  ffmpeg_get_frame w native_frame s0 = None.
Proof.
  intros Hrun.
  pose proof (ffmpeg_init_facts hdr w videoFormat wd ht perf_lvl 0 threads process_start)
    as H.
  unfold wp in H. rewrite Hrun in H. destruct H as (_ & Hok & _).
  destruct (Hok eq_refl) as (_ & _ & _ & (arr & m & Harr & Hcells & _) & _ & Hnx & _).
  cbn in Hnx. unfold ffmpeg_get_frame, bind at 1, read at 1, bind at 1, load_slot.
  rewrite Hnx, Harr, Hcells. reflexivity.
Qed.

(** X11 — The ring that a successful [ffmpeg_init] builds holds
    buffer_count frames, all allocated and no two the same; the transfer
    frame is allocated only when a device reference exists, it may be NULL
    even then (the result of that [av_frame_alloc] is not checked), and when
    it is not NULL it is a live frame outside the ring. *)
Theorem ring_frames_are_distinct videoFormat wd ht perf_lvl N threads s s' :
  0 <= N ->
  ffmpeg_init hdr w videoFormat wd ht perf_lvl N threads s = Some (0, s') ->
  exists arr slots,
    dec_frames s' = Some arr /\ arrays s' !! arr = Some (slot_cells slots) /\
    dec_frames_cnt s' = N /\ Z.of_nat (length slots) = N /\
    NoDup slots /\
    (forall a, a ∈ slots -> is_Some (frames s' !! a)) /\
    (hw_device_ctx s' = None -> sw_frame s' = sw_frame s) /\
    (is_Some (hw_device_ctx s') ->
     forall x, sw_frame s' = Some x -> is_Some (frames s' !! x) /\ x ∉ slots).
Proof.
  intros HN Hrun.
  pose proof (ffmpeg_init_facts hdr w videoFormat wd ht perf_lvl N threads s) as H.
  unfold wp in H. rewrite Hrun in H. destruct H as (_ & Hok & _).
  destruct (Hok eq_refl) as (_ & _ & _ & Hring & _).
  destruct Hring as (arr & m & Harr & Hcells & Hcnt & Hlive & Hsw0 & Hsw1).
  exists arr, (seq m (Z.to_nat N)). rewrite length_seq, Z2Nat.id by lia.
  repeat split; try assumption; try apply NoDup_seq; by apply Hsw1.
Qed.

End InitProperties.

(** ** The steady state: [ffmpeg_decode] and [ffmpeg_get_frame] *)

Section Steady.

Context (hdr : Macros) (w : World).

Lemma perform_steady N slots c s r s' :
  ring_ready N slots s -> perform w c s = Some (r, s') -> steady_view s' = steady_view s.
Proof.
  intros R. destruct c as [indata inlen | native_frame]; unfold perform, bind.
  - destruct (ready_packet _ _ _ R) as (p & Hp & Hpk).
    rewrite (decode_ready w N slots s p indata inlen R Hp). cbv zeta.
    intros [= _ <-]. clear R. unfold steady_view, submitted.
    flat s. st_proj_all. subst. split_if; st_flat;
      rewrite dom_insert_lookup_L by assumption; reflexivity.
  - pose proof (ready_next _ _ _ R) as Hn.
    destruct (ready_slot N slots s (next_frame s) R Hn) as [a Ha].
    rewrite (get_frame_ready w N slots s a native_frame R Ha).
    pose proof (ready_frames _ _ _ R a (list_elem_of_lookup_2 _ _ _ Ha)) as Hfr.
    destruct (get_frame_outcome w native_frame s a) as [r0 s1] eqn:Hout.
    intros [= _ <-]. clear R Ha. revert Hout.
    unfold steady_view, get_frame_outcome, transferred, not_received, received.
    flat s. st_proj_all.
    split_if; intros [= _ <-]; st_flat;
      rewrite ?dom_insert_lookup_L by assumption; reflexivity.
Qed.

Lemma session_steady N slots cs :
  forall s rs s',
    ring_ready N slots s -> session w cs s = Some (rs, s') ->
    steady_view s' = steady_view s.
Proof.
  induction cs as [|c cs IH]; intros s rs s' R; cbn [session].
  - intros [= _ <-]. reflexivity.
  - unfold bind at 1.
    destruct (perform_ready w N slots c s R) as (r & s1 & tr & Hp & R1 & _).
    rewrite Hp. unfold bind at 1.
    destruct (session w cs s1) as [[rs1 s2]|] eqn:Hs; [|discriminate].
    intros [= _ <-]. rewrite (IH s1 rs1 s2 R1 Hs). eapply perform_steady; eauto.
Qed.

(** X12 — Between [ffmpeg_init] and [ffmpeg_destroy] nothing is allocated,
    released or re-pointed: whatever sequence of [ffmpeg_decode] and
    [ffmpeg_get_frame] calls is made, the packet pointer, the decoder and its
    context, the slot array and its count, the device reference, hw_pix_fmt,
    sw_frame and ffmpeg_decoder are as [ffmpeg_init] left them, the pools of
    contexts, device references and arrays are unchanged, no address is taken
    from the allocator, and the same packets and frames exist. *)
Theorem steady_state_allocates_nothing
    videoFormat width height perf_lvl N thread_count s0 cs rs s :
  1 <= N <= INT_MAX ->
  ffmpeg_init hdr w videoFormat width height perf_lvl N thread_count process_start
    = Some (0, s0) ->
  session w cs s0 = Some (rs, s) ->
  steady_view s = steady_view s0.
Proof.
  intros HN Hinit Hs.
  destruct (init_ready hdr w _ _ _ _ _ _ _ HN Hinit) as (slots & R0 & _).
  exact (session_steady N slots cs s0 rs s R0 Hs).
Qed.

(** X13 — When the decoder has no frame to give, [ffmpeg_get_frame] returns
    NULL and leaves the ring indices where they were.  The frame of the slot
    at next_frame has still been handed to the library, which unreferences it
    before it answers: that frame has lost its picture, every other frame is
    as it was.  AVERROR(EAGAIN), the answer of a decoder that needs more
    input, is passed over in silence; any other error is reported on stderr. *)
Theorem no_frame_reported_unless_eagain
    videoFormat width height perf_lvl N thread_count s0 cs rs s native_frame :
  1 <= N <= INT_MAX ->
  ffmpeg_init hdr w videoFormat width height perf_lvl N thread_count process_start
    = Some (0, s0) ->
  session w cs s0 = Some (rs, s) ->
  answer w AvcodecReceiveFrame (calls s AvcodecReceiveFrame) <> 0 ->
  exists s' arr cells frame,
    ffmpeg_get_frame w native_frame s = Some (None, s') /\
    dec_frames s = Some arr /\ arrays s !! arr = Some cells /\
    cells !! Z.to_nat (next_frame s) = Some (Pointer (Some frame)) /\
    frames s' = <[frame := {| format := AV_PIX_FMT_NONE |}]> (frames s) /\
    current_frame s' = current_frame s /\ next_frame s' = next_frame s /\
    log s' = log s ++
      Receive (decoder_ctx s) (next_frame s) (Some frame)
              (answer w AvcodecReceiveFrame (calls s AvcodecReceiveFrame)) ::
      (if answer w AvcodecReceiveFrame (calls s AvcodecReceiveFrame) =? AVERROR EAGAIN
       then [] else [Print stderr "Receive failed - %d/%s"]).
Proof.
  intros HN Hinit Hs Herr.
  destruct (init_ready hdr w _ _ _ _ _ _ _ HN Hinit) as (slots & R0 & _).
  pose proof (reachable_ready w N slots cs s0 rs s R0 Hs) as R.
  pose proof (ready_next _ _ _ R) as Hn.
  destruct (ready_slot N slots s (next_frame s) R Hn) as [a Ha].
  destruct (ready_array _ _ _ R) as (arr & Harr & Hcells).
  rewrite (get_frame_ready w N slots s a native_frame R Ha).
  unfold get_frame_outcome. apply Z.eqb_neq in Herr. rewrite Herr.
  exists (not_received w s a), arr, ((fun a => Pointer (Some a)) <$> slots), a.
  split; [reflexivity|]. split; [exact Harr|]. split; [exact Hcells|].
  split; [by rewrite list_lookup_fmap, Ha|].
  clear. unfold not_received. flat s. st_proj.
  split_if; st_flat; rewrite <- ?app_assoc; repeat split; reflexivity.
Qed.

(** X14 — A frame that has to be transferred is handed out through sw_frame,
    not through the ring slot the decoder wrote: when the transfer succeeds
    [ffmpeg_get_frame] returns sw_frame as [ffmpeg_init] left it, the same
    pointer on every call, and NULL if no device reference existed then. *)
Theorem transferred_frame_is_shared
    videoFormat width height perf_lvl N thread_count s0 cs rs s native_frame :
  1 <= N <= INT_MAX ->
  ffmpeg_init hdr w videoFormat width height perf_lvl N thread_count process_start
    = Some (0, s0) ->
  session w cs s0 = Some (rs, s) ->
  ffmpeg_decoder s = SOFTWARE \/ native_frame = true ->
  answer w AvcodecReceiveFrame (calls s AvcodecReceiveFrame) = 0 ->
  decoded_format w (calls s AvcodecReceiveFrame) = hw_pix_fmt s ->
  0 <= answer w AvHwframeTransferData (calls s AvHwframeTransferData) ->
  exists s' frame,
    ffmpeg_get_frame w native_frame s = Some (sw_frame s0, s') /\
    sw_frame s' = sw_frame s0 /\
    log s' = log s ++
      [Receive (decoder_ctx s) (next_frame s) (Some frame) 0;
       Transfer (sw_frame s0) (Some frame)
                (answer w AvHwframeTransferData (calls s AvHwframeTransferData))].
Proof.
  intros HN Hinit Hs Hpath Hrecv Hfmt Hxfer.
  destruct (init_ready hdr w _ _ _ _ _ _ _ HN Hinit) as (slots & R0 & _).
  pose proof (reachable_ready w N slots cs s0 rs s R0 Hs) as R.
  pose proof (session_steady N slots cs s0 rs s R0 Hs) as Hsteady.
  assert (sw_frame s = sw_frame s0) as <-
    by (revert Hsteady; unfold steady_view; congruence).
  pose proof (ready_next _ _ _ R) as Hn.
  destruct (ready_slot N slots s (next_frame s) R Hn) as [a Ha].
  rewrite (get_frame_ready w N slots s a native_frame R Ha).
  unfold get_frame_outcome. rewrite Hrecv, Hfmt, !Z.eqb_refl.
  replace (bool_decide (ffmpeg_decoder s = SOFTWARE) || native_frame) with true
    by (destruct Hpath as [->| ->]; [reflexivity | by rewrite orb_true_r]).
  destruct (Z.ltb_spec (answer w AvHwframeTransferData (calls s AvHwframeTransferData)) 0)
    as [|_]; [lia|].
  exists (transferred w s a), a. split; [reflexivity|].
  clear - Hxfer. unfold transferred, received.
  destruct (Z.ltb_spec (answer w AvHwframeTransferData (calls s AvHwframeTransferData)) 0)
    as [|_]; [lia|].
  flat s. st_flat. rewrite <- ?app_assoc. split; reflexivity.
Qed.

(** X15 — [ffmpeg_decode] puts the caller's buffer and length into the one
    packet and hands it to the decoder.  It returns the decoder's error code
    when that is negative, after reporting it on stderr, and 0 otherwise: a
    positive answer of the library never reaches the caller. *)
Theorem decode_submits_packet
    videoFormat width height perf_lvl N thread_count s0 cs rs s indata inlen :
  1 <= N <= INT_MAX ->
  ffmpeg_init hdr w videoFormat width height perf_lvl N thread_count process_start
    = Some (0, s0) ->
  session w cs s0 = Some (rs, s) ->
  exists p s',
    pkt s = Some p /\
    ffmpeg_decode w indata inlen s
      = Some (Z.min (answer w AvcodecSendPacket (calls s AvcodecSendPacket)) 0, s') /\
    packets s' = <[p := {| pkt_data := indata; pkt_size := inlen |}]> (packets s) /\
    log s' = log s ++
      Send (decoder_ctx s) inlen (answer w AvcodecSendPacket (calls s AvcodecSendPacket)) ::
      (if answer w AvcodecSendPacket (calls s AvcodecSendPacket) <? 0
       then [Print stderr "Decode failed - %s"] else []).
Proof.
  intros HN Hinit Hs.
  destruct (init_ready hdr w _ _ _ _ _ _ _ HN Hinit) as (slots & R0 & _).
  pose proof (reachable_ready w N slots cs s0 rs s R0 Hs) as R.
  destruct (ready_packet _ _ _ R) as (p & Hp & _).
  exists p, (submitted w s p indata inlen). split; [exact Hp|].
  rewrite (decode_ready w N slots s p indata inlen R Hp). cbv zeta.
  split.
  { f_equal. f_equal.
    destruct (Z.ltb_spec (answer w AvcodecSendPacket (calls s AvcodecSendPacket)) 0); lia. }
  clear. unfold submitted. flat s. st_proj.
  split_if; st_flat; rewrite <- ?app_assoc; split; reflexivity.
Qed.

End Steady.

(** ** Teardown *)

Section Teardown.

Context (hdr : Macros) (w : World).

Lemma wp_load_cell i p arr cells (Q : ptr -> State -> Prop) s :
  dec_frames s = Some arr -> arrays s !! arr = Some cells ->
  0 <= i -> cells !! Z.to_nat i = Some (Pointer p) ->
  Q p s -> wp (load_slot i) Q s.
Proof.
  intros Harr Hcells Hi Hp HQ. unfold wp, load_slot. rewrite Harr, Hcells.
  destruct (Z.ltb_spec i 0); [lia|]. rewrite Hp. exact HQ.
Qed.

Lemma nulls_then_slots_lookup n a (todo : list addr) :
  (replicate n (Pointer None) ++ slot_cells (a :: todo)) !! n = Some (Pointer (Some a)).
Proof.
  rewrite lookup_app_r by (rewrite length_replicate; lia).
  rewrite length_replicate, Nat.sub_diag. reflexivity.
Qed.

Lemma nulls_then_slots_insert n a (todo : list addr) :
  <[n := Pointer None]> (replicate n (Pointer None) ++ slot_cells (a :: todo))
  = replicate (S n) (Pointer None) ++ slot_cells todo.
Proof.
  rewrite insert_app_r_alt by (rewrite length_replicate; lia).
  rewrite length_replicate, Nat.sub_diag.
  change (S n) with (1 + n)%nat. rewrite Nat.add_comm, replicate_add, <- app_assoc.
  reflexivity.
Qed.

(** The loop of lines 239-242, entered at slot [n] with the slots before it
    already NULL: every frame still in the array is freed, once, and its slot
    set to NULL. *)
Lemma free_slots_ring todo :
  forall n s arr,
    dec_frames s = Some arr ->
    arrays s !! arr = Some (replicate n (Pointer None) ++ slot_cells todo) ->
    NoDup todo ->
    (forall a, a ∈ todo -> is_Some (frames s !! a)) ->
    wp (free_slots (seqZ (Z.of_nat n) (Z.of_nat (length todo))))
       (fun _ s' =>
          exists fr,
            s' = set_arrays (<[arr := replicate (n + length todo) (Pointer None)]> (arrays s))
                   (set_frames fr s) /\
            (forall a, a ∈ todo -> fr !! a = None) /\
            (forall a, a ∉ todo -> fr !! a = frames s !! a)) s.
Proof.
  induction todo as [|a todo IH]; intros n s arr Harr Hcells Hnd Hlive.
  - change (seqZ _ (Z.of_nat 0)) with (@nil Z). cbn [free_slots]. wp_go.
    exists (frames s).
    split; [|split; [intros a Ha; by apply elem_of_nil in Ha | auto]].
    revert Harr Hcells. flat s. st_flat. intros -> Hcells. cbn [length].
    rewrite app_nil_r in Hcells. rewrite Nat.add_0_r, insert_id by exact Hcells.
    reflexivity.
  - cbn [length]. rewrite seqZ_cons by lia.
    replace (Z.pred (Z.of_nat (S (length todo)))) with (Z.of_nat (length todo)) by lia.
    replace (Z.succ (Z.of_nat n)) with (Z.of_nat (S n)) by lia.
    cbn [free_slots]. apply NoDup_cons in Hnd as [Ha Hnd].
    destruct (Hlive a ltac:(left)) as [f Hf].
    revert Harr Hcells Hlive Hf. flat s. st_proj. intros -> Hcells Hlive Hf.
    wp_enter.
    eapply wp_load_cell; [reflexivity | exact Hcells | lia | |].
    { rewrite Nat2Z.id. apply nulls_then_slots_lookup. }
    wp_enter. unfold when. cbn [bool_decide decide_rel]. 
    rewrite bool_decide_eq_true_2 by eauto.
    wp_enter. unfold av_frame_free. wp_go.
    eapply wp_store_slot; [reflexivity | exact Hcells | |].
    { rewrite length_app, length_replicate. unfold slot_cells. rewrite length_fmap.
      cbn [length]. lia. }
    wp_go. rewrite Nat2Z.id, nulls_then_slots_insert.
    eapply wp_mono.
    { eapply IH with (arr := arr); st_proj.
      - reflexivity.
      - apply lookup_insert_eq.
      - exact Hnd.
      - intros b Hb. rewrite lookup_delete_ne by (intros ->; done).
        apply Hlive. by right. }
    intros _ s' (fr & -> & Hgone & Hkept).
    exists fr. split.
    { replace (n + S (length todo))%nat with (S n + length todo)%nat by lia.
      st_flat. rewrite insert_insert_eq. reflexivity. }
    revert Hgone Hkept. st_proj. intros Hgone Hkept. split.
    + intros b [->|Hb]%elem_of_cons; [|auto].
      rewrite (Hkept _ Ha). apply lookup_delete_eq.
    + intros b Hb. apply not_elem_of_cons in Hb as [Hne Hb].
      rewrite (Hkept b Hb). by apply lookup_delete_ne.
Qed.

(** The same loop on an array whose slots are all NULL frees nothing. *)
Lemma free_slots_idle m :
  forall n s arr cells,
    dec_frames s = Some arr -> arrays s !! arr = Some cells ->
    (forall i, (n <= i < n + m)%nat -> cells !! i = Some (Pointer None)) ->
    free_slots (seqZ (Z.of_nat n) (Z.of_nat m)) s = Some (tt, s).
Proof.
  induction m as [|m IH]; intros n s arr cells Harr Hcells Hnull.
  - reflexivity.
  - rewrite seqZ_cons by lia.
    replace (Z.pred (Z.of_nat (S m))) with (Z.of_nat m) by lia.
    replace (Z.succ (Z.of_nat n)) with (Z.of_nat (S n)) by lia.
    cbn [free_slots]. unfold bind at 1, load_slot. rewrite Harr, Hcells.
    destruct (Z.ltb_spec (Z.of_nat n) 0); [lia|].
    rewrite Nat2Z.id, (Hnull n) by lia. cbn.
    apply (IH (S n) s arr cells Harr Hcells). intros i Hi. apply Hnull. lia.
Qed.

(** [ffmpeg_destroy] on a state where everything is already released. *)
Lemma ffmpeg_destroy_idle s arr n :
  pkt s = None -> sw_frame s = None -> hw_device_ctx s = None -> decoder_ctx s = None ->
  dec_frames s = Some arr -> arrays s !! arr = Some (replicate n (Pointer None)) ->
  dec_frames_cnt s = Z.of_nat n ->
  ffmpeg_destroy s = Some (tt, s).
Proof.
  flat s. st_proj. intros -> -> -> -> -> Hcells ->.
  unfold ffmpeg_destroy.
  repeat (unfold bind at 1; cbn [read when ret av_packet_free modify set_pkt]; st_proj).
  change (bool_decide (is_Some (@None addr))) with false.
  change (bool_decide (is_Some (Some arr))) with true. cbv iota.
  eapply (free_slots_idle n 0%nat); st_proj; [reflexivity | exact Hcells |].
  intros i Hi. apply lookup_replicate_2. lia.
Qed.

(** [ffmpeg_destroy] on a state that is ready for it: what it leaves, and
    that a second call then changes nothing. *)
Lemma ffmpeg_destroy_ready slots s :
  teardown_ready slots s ->
  exists arr,
    dec_frames s = Some arr /\ arrays s !! arr = Some (slot_cells slots) /\
    ffmpeg_destroy s = Some (tt, destroyed arr slots s) /\
    ffmpeg_destroy (destroyed arr slots s) = Some (tt, destroyed arr slots s).
Proof.
  intros ((arr & Harr & Hcells) & Hcnt & Hnd & Hlive & Hsw & Hpkt & Hdev & Hctx).
  exists arr. split; [exact Harr|]. split; [exact Hcells|].
  enough (wp ffmpeg_destroy
            (fun _ s' => s' = destroyed arr slots s /\ ffmpeg_destroy s' = Some (tt, s')) s)
    as H.
  { apply wp_elim in H as ([] & s' & Hrun & -> & Hidle). auto. }
  flat s. st_proj_all. subst.
  unfold ffmpeg_destroy. wp_go.
  (* the transfer frame *)
  apply wp_bind.
  lazymatch goal with
  | |- wp _ _ ?S =>
      apply (wp_mono _ (fun _ s1 =>
               s1 = set_sw_frame None
                      (set_frames (match sw_frame0 with
                                   | Some x => delete x frames0
                                   | None => frames0
                                   end) S)))
  end.
  { destruct sw_frame0 as [x|]; [|reflexivity].
    destruct (Hsw x eq_refl) as [[f Hf] _].
    change (bool_decide (is_Some (Some x))) with true. unfold when, av_frame_free.
    wp_go. reflexivity. }
  intros _ ? ->. wp_go.
  (* the device reference *)
  apply wp_bind.
  lazymatch goal with
  | |- wp _ _ ?S =>
      apply (wp_mono _ (fun _ s1 =>
               s1 = set_hw_device_ctx None
                      (set_buffers (match hw_device_ctx0 with
                                    | Some b => delete b buffers0
                                    | None => buffers0
                                    end) S)))
  end.
  { destruct hw_device_ctx0 as [b|]; [|reflexivity].
    destruct (Hdev b eq_refl) as [r Hr].
    change (bool_decide (is_Some (Some b))) with true. unfold when, av_buffer_unref.
    wp_go. reflexivity. }
  intros _ ? ->. wp_go.
  (* the packet *)
  apply wp_bind.
  lazymatch goal with
  | |- wp _ _ ?S =>
      apply (wp_mono _ (fun _ s1 =>
               s1 = set_packets (match pkt0 with
                                 | Some p => delete p packets0
                                 | None => packets0
                                 end) S))
  end.
  { destruct pkt0 as [p|]; [|reflexivity].
    destruct (Hpkt p eq_refl) as [r Hr]. unfold av_packet_free.
    wp_go. reflexivity. }
  intros _ ? ->. wp_go.
  (* the context, and the reference it holds *)
  set (B1 := match hw_device_ctx0 with Some b => delete b buffers0 | None => buffers0 end).
  apply wp_bind.
  lazymatch goal with
  | |- wp _ _ ?S =>
      apply (wp_mono _ (fun _ s1 =>
               s1 = set_decoder_ctx None
                      (set_log (log0 ++ match decoder_ctx0 with
                                        | Some a => [FreeContext a]
                                        | None => []
                                        end)
                         (set_contexts (match decoder_ctx0 with
                                        | Some a => delete a contexts0
                                        | None => contexts0
                                        end)
                            (set_buffers
                               (match
                                   match decoder_ctx0 with
                                   | Some a =>
                                       match contexts0 !! a with
                                       | Some c => ctx_hw_device_ctx c
                                       | None => None
                                       end
                                   | None => None
                                   end
                                 with
                                 | Some b => delete b B1
                                 | None => B1
                                 end) S)))))
  end.
  { destruct decoder_ctx0 as [a|].
    - destruct (Hctx a eq_refl) as (c & Hc & Href).
      change (bool_decide (is_Some (Some a))) with true. unfold when, avcodec_free_context.
      wp_go. rewrite !Hc. apply wp_bind. eapply wp_rewrite; [apply av_buffer_unref_spec|].
      unfold unref. st_proj.
      destruct (ctx_hw_device_ctx c) as [b|] eqn:Hb.
      + destruct (Href b eq_refl) as [[r Hr] Hne].
        assert (B1 !! b = Some r) as ->.
        { subst B1. destruct hw_device_ctx0 as [b0|]; [|done].
          rewrite lookup_delete_ne; [done | congruence]. }
        apply wp_ret. wp_go. reflexivity.
      + apply wp_ret. wp_go. reflexivity.
    - change (bool_decide (is_Some (@None addr))) with false. unfold when.
      apply wp_ret. st_flat. by rewrite app_nil_r. }
  intros _ ? ->. wp_go.
  (* the slot frames *)
  change (bool_decide (is_Some (Some arr))) with true. unfold when. wp_go.
  eapply wp_mono.
  { eapply (free_slots_ring slots 0%nat); st_proj; [reflexivity | exact Hcells | exact Hnd |].
    intros a Ha. destruct sw_frame0 as [x|]; [|auto].
    rewrite lookup_delete_ne; [auto|]. intros ->. by destruct (Hsw a eq_refl). }
  intros _ ? (fr & -> & Hgone & Hkept).
  assert (fr = foldr delete (match sw_frame0 with
                             | Some x => delete x frames0
                             | None => frames0
                             end) slots) as ->.
  { apply map_eq. intros a. destruct (decide (a ∈ slots)) as [Hin|Hout].
    - by rewrite (Hgone _ Hin), lookup_foldr_delete.
    - by rewrite (Hkept _ Hout), lookup_foldr_delete_not_elem_of. }
  split.
  - unfold destroyed, release, held_device. subst B1. st_flat. reflexivity.
  - eapply (ffmpeg_destroy_idle _ arr (length slots)); st_proj; try reflexivity.
    apply lookup_insert_eq.
Qed.

End Teardown.

(** ** [ffmpeg_destroy] after a session *)

Section TeardownProperties.

Context (hdr : Macros) (w : World).

Lemma teardown_ready_transport slots s s' :
  steady_view s' = steady_view s -> teardown_ready slots s -> teardown_ready slots s'.
Proof.
  unfold steady_view, teardown_ready, heap_ok.
  intros [= Hpkt _ Hctx Harr Hdev _ Hsw Hcnt _ Hcs Hbs Has _ Hdp Hdf].
  rewrite Hpkt, Hctx, Harr, Hdev, Hsw, Hcnt, Hcs, Hbs, Has.
  assert (forall a, is_Some (frames s' !! a) <-> is_Some (frames s !! a)) as Hf
    by (intros a; by rewrite <- !elem_of_dom, Hdf).
  assert (forall a, is_Some (packets s' !! a) <-> is_Some (packets s !! a)) as Hp
    by (intros a; by rewrite <- !elem_of_dom, Hdp).
  intros (H1 & H2 & H3 & H4 & H5 & H6 & H7). repeat split; try assumption.
  - intros a Ha. apply Hf. auto.
  - apply Hf. by apply H5.
  - by apply H5.
  - intros p Hp'. apply Hp. auto.
  - apply H7.
  - apply H7.
Qed.

(** After a first, successful [ffmpeg_init] and any calls of [ffmpeg_decode]
    and [ffmpeg_get_frame], the state is ready for [ffmpeg_destroy]. *)
Lemma teardown_ready_reached videoFormat wd ht perf_lvl N threads s0 cs rs s :
  (forall dec, ctx_hw_device_ctx (fresh_context w dec) = None) ->
  1 <= N <= INT_MAX ->
  ffmpeg_init hdr w videoFormat wd ht perf_lvl N threads process_start = Some (0, s0) ->
  session w cs s0 = Some (rs, s) ->
  exists slots, length slots = Z.to_nat N /\ teardown_ready slots s.
Proof.
  intros Hfresh HN Hinit Hs.
  destruct (init_ready hdr w _ _ _ _ _ _ _ HN Hinit) as (slots0 & R0 & _).
  pose proof (session_steady w N slots0 cs s0 rs s R0 Hs) as Hsteady.
  pose proof (ffmpeg_init_facts hdr w videoFormat wd ht perf_lvl N threads process_start)
    as Hfacts.
  unfold wp in Hfacts. rewrite Hinit in Hfacts.
  destruct Hfacts as (_ & Hok & Hheap & _).
  destruct (Hok eq_refl) as (_ & _ & _ & Hring & (p & Hp & Hpk) & _).
  destruct Hring as (arr & m & Harr & Hcells & Hcnt & Hlive & Hsw0 & Hsw1).
  assert (heap_ok process_start) as Hstart by (split; intros ? [=]).
  destruct (Hheap Hfresh Hstart) as [Hh _].
  exists (seq m (Z.to_nat N)). split; [apply length_seq|].
  apply (teardown_ready_transport _ s0 s Hsteady).
  unfold teardown_ready. rewrite length_seq, Z2Nat.id by lia.
  split; [eauto|]. split; [done|]. split; [apply NoDup_seq|]. split; [done|].
  split; [|split; [|done]].
  - intros x Hx. destruct (hw_device_ctx s0) as [b|] eqn:Hb.
    + apply Hsw1; eauto.
    + rewrite (Hsw0 eq_refl) in Hx. discriminate.
  - intros p' Hp'. rewrite Hp in Hp'. by injection Hp' as <-.
Qed.

(** X16 — Teardown releases, once each, what the statics still point to.
    After a first, successful [ffmpeg_init] and any calls of [ffmpeg_decode]
    and [ffmpeg_get_frame], the slot array holds buffer_count different,
    allocated frames, and [ffmpeg_destroy] returns having freed nothing that
    was not allocated: pkt, sw_frame, hw_device_ctx and decoder_ctx are NULL,
    every frame of the ring, the transfer frame, the packet, the context
    decoder_ctx pointed to, the device reference of hw_device_ctx and the one
    that context held are released, and nothing else is: the slot array stays
    allocated with every slot NULL, dec_frames and dec_frames_cnt keep their
    values, and contexts and device references that the selection loop left
    behind stay allocated. *)
Theorem teardown_releases_what_it_holds videoFormat wd ht perf_lvl N threads s0 cs rs s :
  (forall dec, ctx_hw_device_ctx (fresh_context w dec) = None) ->
  1 <= N <= INT_MAX ->
  ffmpeg_init hdr w videoFormat wd ht perf_lvl N threads process_start = Some (0, s0) ->
  session w cs s0 = Some (rs, s) ->
  exists arr slots,
    dec_frames s = Some arr /\ arrays s !! arr = Some (slot_cells slots) /\
    Z.of_nat (length slots) = N /\ NoDup slots /\
    (forall a, a ∈ slots -> is_Some (frames s !! a)) /\
    ffmpeg_destroy s = Some (tt, destroyed arr slots s) /\
    invalid_frees (log (destroyed arr slots s)) = invalid_frees (log s).
Proof.
  intros Hfresh HN Hinit Hs.
  destruct (teardown_ready_reached _ _ _ _ _ _ _ _ _ _ Hfresh HN Hinit Hs)
    as (slots & Hlen & Hready).
  destruct (ffmpeg_destroy_ready slots s Hready) as (arr & Harr & Hcells & Hd & _).
  exists arr, slots. split; [exact Harr|]. split; [exact Hcells|].
  split; [rewrite Hlen; lia|].
  destruct Hready as (_ & _ & Hnd & Hlive & _).
  split; [exact Hnd|]. split; [exact Hlive|]. split; [exact Hd|].
  unfold destroyed. flat s. st_flat. rewrite invalid_frees_app.
  destruct decoder_ctx0; cbn; by rewrite app_nil_r.
Qed.

(** X17 — Calling [ffmpeg_destroy] twice is harmless: after the first call
    the second one finds every pointer and every slot NULL, frees nothing and
    leaves the state as it is. *)
Theorem destroy_twice_is_harmless videoFormat wd ht perf_lvl N threads s0 cs rs s :
  (forall dec, ctx_hw_device_ctx (fresh_context w dec) = None) ->
  1 <= N <= INT_MAX ->
  ffmpeg_init hdr w videoFormat wd ht perf_lvl N threads process_start = Some (0, s0) ->
  session w cs s0 = Some (rs, s) ->
  exists s',
    ffmpeg_destroy s = Some (tt, s') /\
    (ffmpeg_destroy ;; ffmpeg_destroy) s = Some (tt, s').
Proof.
  intros Hfresh HN Hinit Hs.
  destruct (teardown_ready_reached _ _ _ _ _ _ _ _ _ _ Hfresh HN Hinit Hs)
    as (slots & Hlen & Hready).
  destruct (ffmpeg_destroy_ready slots s Hready) as (arr & _ & _ & Hd & Hi).
  exists (destroyed arr slots s). split; [exact Hd|]. unfold bind. by rewrite Hd.
Qed.

End TeardownProperties.

(** * The ring after any initialisation, at concrete inputs *)



(** * The further properties at concrete inputs *)

(** [get_hw_format_selects]: the hardware format (44) offered first, on the
    VAAPI build. *)
Lemma get_hw_format_selects_witness :
  (-1 ∉ [44; 0]) /\
  get_hw_format ([44; 0] ++ -1 :: []) vaapi_ready =
    Some (if bool_decide (hw_pix_fmt vaapi_ready ∈ [44; 0])
          then (hw_pix_fmt vaapi_ready, vaapi_ready)
          else (AV_PIX_FMT_NONE,
                set_log (log vaapi_ready ++ [Print stderr "Failed to get HW surface format."])
                  vaapi_ready)).
Proof.
  split; [apply (bool_decide_unpack _); by vm_compute|].
  apply (get_hw_format_selects [44; 0] [] vaapi_ready).
  apply (bool_decide_unpack _). by vm_compute.
Defined.

(** [get_hw_format_needs_terminator]: two software formats, no terminator. *)
Lemma get_hw_format_needs_terminator_witness :
  (-1 ∉ [0; 23]) /\ (hw_pix_fmt vaapi_ready ∉ [0; 23]) /\
  get_hw_format [0; 23] vaapi_ready = None.
Proof.
  split; [apply (bool_decide_unpack _); by vm_compute|].
  split; [apply (bool_decide_unpack _); by vm_compute|].
  apply (get_hw_format_needs_terminator [0; 23] vaapi_ready);
    apply (bool_decide_unpack _); by vm_compute.
Defined.

(** [steady_state_allocates_nothing] on the working VAAPI build, one cycle. *)
Lemma steady_state_allocates_nothing_witness :
  1 <= 3 <= INT_MAX /\
  ffmpeg_init sample_macros working_vaapi_world 1 1920 1080 128 3 4 process_start
    = Some (0, working_vaapi_ready) /\
  session working_vaapi_world (one_cycle true) working_vaapi_ready
    = Some ([inl 0; inr (Some 9%nat)],
            state_of (session working_vaapi_world (one_cycle true)) working_vaapi_ready) /\
  steady_view (state_of (session working_vaapi_world (one_cycle true)) working_vaapi_ready)
    = steady_view working_vaapi_ready.
Proof.
  split; [by vm_compute|]. split; [run|]. split; [run|].
  apply (steady_state_allocates_nothing sample_macros working_vaapi_world 1 1920 1080 128 3 4
           working_vaapi_ready (one_cycle true) [inl 0; inr (Some 9%nat)]);
    [by vm_compute | run | run].
Defined.

(** [no_frame_reported_unless_eagain] on a ring of one slot, after the one
    frame the decoder had to give. *)
Lemma no_frame_reported_unless_eagain_witness :
  1 <= 1 <= INT_MAX /\
  ffmpeg_init sample_macros starved_world 1 1920 1080 0 1 4 process_start
    = Some (0, starved_ready) /\
  session starved_world (one_cycle false) starved_ready
    = Some ([inl 0; inr None], starved_fed) /\
  answer starved_world AvcodecReceiveFrame (calls starved_fed AvcodecReceiveFrame) <> 0 /\
  exists s' arr cells frame,
    ffmpeg_get_frame starved_world false starved_fed = Some (None, s') /\
    dec_frames starved_fed = Some arr /\ arrays starved_fed !! arr = Some cells /\
    cells !! Z.to_nat (next_frame starved_fed) = Some (Pointer (Some frame)) /\
    frames s' = <[frame := {| format := AV_PIX_FMT_NONE |}]> (frames starved_fed) /\
    current_frame s' = current_frame starved_fed /\
    next_frame s' = next_frame starved_fed /\
    log s' = log starved_fed ++
      Receive (decoder_ctx starved_fed) (next_frame starved_fed) (Some frame)
              (answer starved_world AvcodecReceiveFrame
                 (calls starved_fed AvcodecReceiveFrame)) ::
      (if answer starved_world AvcodecReceiveFrame (calls starved_fed AvcodecReceiveFrame)
          =? AVERROR EAGAIN
       then [] else [Print stderr "Receive failed - %d/%s"]).
Proof.
  split; [by vm_compute|]. split; [run|]. split; [run|]. split; [by vm_compute|].
  apply (no_frame_reported_unless_eagain sample_macros starved_world 1 1920 1080 0 1 4
           starved_ready (one_cycle false) [inl 0; inr None] starved_fed false);
    [by vm_compute | run | run | by vm_compute].
Defined.

(** [transferred_frame_is_shared] on the working VAAPI build, the caller
    asking for native frames. *)
Lemma transferred_frame_is_shared_witness :
  1 <= 3 <= INT_MAX /\
  ffmpeg_init sample_macros working_vaapi_world 1 1920 1080 128 3 4 process_start
    = Some (0, working_vaapi_ready) /\
  session working_vaapi_world [Submit [] 0] working_vaapi_ready
    = Some ([inl 0], working_vaapi_submitted) /\
  (ffmpeg_decoder working_vaapi_submitted = SOFTWARE \/ true = true) /\
  answer working_vaapi_world AvcodecReceiveFrame
    (calls working_vaapi_submitted AvcodecReceiveFrame) = 0 /\
  decoded_format working_vaapi_world (calls working_vaapi_submitted AvcodecReceiveFrame)
    = hw_pix_fmt working_vaapi_submitted /\
  0 <= answer working_vaapi_world AvHwframeTransferData
         (calls working_vaapi_submitted AvHwframeTransferData) /\
  exists s' frame,
    ffmpeg_get_frame working_vaapi_world true working_vaapi_submitted
      = Some (sw_frame working_vaapi_ready, s') /\
    sw_frame s' = sw_frame working_vaapi_ready /\
    log s' = log working_vaapi_submitted ++
      [Receive (decoder_ctx working_vaapi_submitted) (next_frame working_vaapi_submitted)
               (Some frame) 0;
       Transfer (sw_frame working_vaapi_ready) (Some frame)
                (answer working_vaapi_world AvHwframeTransferData
                   (calls working_vaapi_submitted AvHwframeTransferData))].
Proof.
  split; [by vm_compute|]. split; [run|]. split; [run|]. split; [by right|].
  split; [vm_compute; reflexivity|]. split; [vm_compute; reflexivity|].
  split; [by vm_compute|].
  apply (transferred_frame_is_shared sample_macros working_vaapi_world 1 1920 1080 128 3 4
           working_vaapi_ready [Submit [] 0] [inl 0] working_vaapi_submitted true);
    [by vm_compute | run | run | by right | vm_compute; reflexivity
    | vm_compute; reflexivity | by vm_compute].
Defined.

(** [decode_submits_packet] on the Tegra build, the first access unit. *)
Lemma decode_submits_packet_witness :
  1 <= 3 <= INT_MAX /\
  ffmpeg_init sample_macros tegra_world 1 1920 1080 0 3 4 process_start
    = Some (0, tegra_ready) /\
  session tegra_world [] tegra_ready = Some ([], tegra_ready) /\
  exists p s',
    pkt tegra_ready = Some p /\
    ffmpeg_decode tegra_world [Byte.x00; Byte.x01] 2 tegra_ready
      = Some (Z.min (answer tegra_world AvcodecSendPacket
                       (calls tegra_ready AvcodecSendPacket)) 0, s') /\
    packets s' = <[p := {| pkt_data := [Byte.x00; Byte.x01]; pkt_size := 2 |}]>
                   (packets tegra_ready) /\
    log s' = log tegra_ready ++
      Send (decoder_ctx tegra_ready) 2
           (answer tegra_world AvcodecSendPacket (calls tegra_ready AvcodecSendPacket)) ::
      (if answer tegra_world AvcodecSendPacket (calls tegra_ready AvcodecSendPacket) <? 0
       then [Print stderr "Decode failed - %s"] else []).
Proof.
  split; [by vm_compute|]. split; [run|]. split; [reflexivity|].
  apply (decode_submits_packet sample_macros tegra_world 1 1920 1080 0 3 4
           tegra_ready [] [] tegra_ready [Byte.x00; Byte.x01] 2);
    [by vm_compute | run | reflexivity].
Defined.

(** [init_without_packet] at the start of the process. *)
Lemma init_without_packet_witness :
  answer no_packet_world AvPacketAlloc (calls process_start AvPacketAlloc) = 0 /\
  exists s',
    ffmpeg_init sample_macros no_packet_world 1 1920 1080 0 3 4 process_start
      = Some (-1, s') /\
    log s' = log process_start ++ [Print stdout "Couldn't allocate packet"] /\
    pkt s' = None /\
    ffmpeg_decoder s' = ffmpeg_decoder process_start /\
    decoder s' = decoder process_start /\
    decoder_ctx s' = decoder_ctx process_start /\
    ring_view (set_pkt (pkt process_start) s') = ring_view process_start.
Proof.
  split; [reflexivity|].
  apply (init_without_packet sample_macros no_packet_world 1 1920 1080 0 3 4 process_start).
  reflexivity.
Defined.

(** [init_unsupported_format]: video format 0 belongs to no family. *)
Lemma init_unsupported_format_witness :
  answer software_world AvPacketAlloc (calls process_start AvPacketAlloc) <> 0 /\
  Z.land 0 (VIDEO_FORMAT_MASK_H264 sample_macros) = 0 /\
  Z.land 0 (VIDEO_FORMAT_MASK_H265 sample_macros) = 0 /\
  Z.land 0 (VIDEO_FORMAT_MASK_AV1 sample_macros) = 0 /\
  exists s',
    ffmpeg_init sample_macros software_world 0 1920 1080 0 3 4 process_start
      = Some (-1, s') /\
    log s' = log process_start ++ [Print stdout "Video format not supported"] /\
    pkt s' = Some (brk process_start) /\
    packets s' = <[brk process_start := {| pkt_data := []; pkt_size := 0 |}]>
                   (packets process_start) /\
    ffmpeg_decoder s' =
      (if Z.land 0 (VAAPI_ACCELERATION sample_macros) =? 0 then SOFTWARE else VAAPI) /\
    decoder s' = decoder process_start /\ decoder_ctx s' = decoder_ctx process_start /\
    contexts s' = contexts process_start /\
    dec_frames s' = dec_frames process_start /\ arrays s' = arrays process_start /\
    frames s' = frames process_start.
Proof.
  split; [by vm_compute|]. split; [reflexivity|]. split; [reflexivity|].
  split; [reflexivity|].
  apply (init_unsupported_format sample_macros software_world 0 1920 1080 0 3 4
           process_start);
    [by vm_compute | reflexivity | reflexivity | reflexivity].
Defined.

(** [init_selects_last_candidate] on the Tegra build. *)
Lemma init_selects_last_candidate_witness :
  ffmpeg_init sample_macros tegra_world 1 1920 1080 0 3 4 process_start
    = Some (0, tegra_ready) /\
  exists nm dec,
    last (priority_order sample_macros 1 0) = Some nm /\
    registry tegra_world nm = Some dec /\ decoder tegra_ready = Some dec.
Proof.
  split; [run|].
  apply (init_selects_last_candidate sample_macros tegra_world 1 1920 1080 0 3 4
           process_start tegra_ready).
  run.
Defined.

(** [opened_context_is_tuned] on the Tegra build. *)
Lemma opened_context_is_tuned_witness :
  ffmpeg_init sample_macros tegra_world 1 1920 1080 0 3 4 process_start
    = Some (0, tegra_ready) /\
  decoder_ctx tegra_ready = Some 3%nat /\
  exists dec c,
    contexts tegra_ready !! 3%nat = Some c /\
    tuned sample_macros 1920 1080 0 4 (fresh_context tegra_world dec) c.
Proof.
  split; [run|]. split; [vm_compute; reflexivity|].
  apply (opened_context_is_tuned sample_macros tegra_world 1 1920 1080 0 3 4 0
           tegra_ready 3%nat);
    [run | vm_compute; reflexivity].
Defined.

(** [empty_ring_is_unusable] on the software build. *)
Lemma empty_ring_is_unusable_witness :
  ffmpeg_init sample_macros software_world 1 1920 1080 0 0 4 process_start
    = Some (0, empty_ring_ready) /\
  ffmpeg_get_frame software_world false empty_ring_ready = None.
Proof.
  split; [run|].
  apply (empty_ring_is_unusable sample_macros software_world 1 1920 1080 0 4
           empty_ring_ready false).
  run.
Defined.

(** [ring_frames_are_distinct] on the working VAAPI build. *)
Lemma ring_frames_are_distinct_witness :
  0 <= 3 /\
  ffmpeg_init sample_macros working_vaapi_world 1 1920 1080 128 3 4 process_start
    = Some (0, working_vaapi_ready) /\
  exists arr slots,
    dec_frames working_vaapi_ready = Some arr /\
    arrays working_vaapi_ready !! arr = Some (slot_cells slots) /\
    dec_frames_cnt working_vaapi_ready = 3 /\ Z.of_nat (length slots) = 3 /\
    NoDup slots /\
    (forall a, a ∈ slots -> is_Some (frames working_vaapi_ready !! a)) /\
    (hw_device_ctx working_vaapi_ready = None ->
     sw_frame working_vaapi_ready = sw_frame process_start) /\
    (is_Some (hw_device_ctx working_vaapi_ready) ->
     forall x, sw_frame working_vaapi_ready = Some x ->
       is_Some (frames working_vaapi_ready !! x) /\ x ∉ slots).
Proof.
  split; [by vm_compute|]. split; [run|].
  apply (ring_frames_are_distinct sample_macros working_vaapi_world 1 1920 1080 128 3 4
           process_start working_vaapi_ready);
    [by vm_compute | run].
Defined.

(** [teardown_releases_what_it_holds] on the VAAPI build, after one access
    unit. *)
Lemma teardown_releases_what_it_holds_witness :
  (forall dec, ctx_hw_device_ctx (fresh_context vaapi_world dec) = None) /\
  1 <= 3 <= INT_MAX /\
  ffmpeg_init sample_macros vaapi_world 1 1920 1080 128 3 4 process_start
    = Some (0, vaapi_ready) /\
  session vaapi_world [Submit [] 0] vaapi_ready = Some ([inl 0], vaapi_submitted) /\
  exists arr slots,
    dec_frames vaapi_submitted = Some arr /\
    arrays vaapi_submitted !! arr = Some (slot_cells slots) /\
    Z.of_nat (length slots) = 3 /\ NoDup slots /\
    (forall a, a ∈ slots -> is_Some (frames vaapi_submitted !! a)) /\
    ffmpeg_destroy vaapi_submitted = Some (tt, destroyed arr slots vaapi_submitted) /\
    invalid_frees (log (destroyed arr slots vaapi_submitted))
      = invalid_frees (log vaapi_submitted).
Proof.
  split; [reflexivity|]. split; [by vm_compute|]. split; [run|]. split; [run|].
  apply (teardown_releases_what_it_holds sample_macros vaapi_world 1 1920 1080 128 3 4
           vaapi_ready [Submit [] 0] [inl 0] vaapi_submitted);
    [reflexivity | by vm_compute | run | run].
Defined.

(** [destroy_twice_is_harmless] on the working VAAPI build. *)
Lemma destroy_twice_is_harmless_witness :
  (forall dec, ctx_hw_device_ctx (fresh_context working_vaapi_world dec) = None) /\
  1 <= 3 <= INT_MAX /\
  ffmpeg_init sample_macros working_vaapi_world 1 1920 1080 128 3 4 process_start
    = Some (0, working_vaapi_ready) /\
  session working_vaapi_world [Submit [] 0] working_vaapi_ready
    = Some ([inl 0], working_vaapi_submitted) /\
  exists s',
    ffmpeg_destroy working_vaapi_submitted = Some (tt, s') /\
    (ffmpeg_destroy ;; ffmpeg_destroy) working_vaapi_submitted = Some (tt, s').
Proof.
  split; [reflexivity|]. split; [by vm_compute|]. split; [run|]. split; [run|].
  apply (destroy_twice_is_harmless sample_macros working_vaapi_world 1 1920 1080 128 3 4
           working_vaapi_ready [Submit [] 0] [inl 0] working_vaapi_submitted);
    [reflexivity | by vm_compute | run | run].
Defined.

(** [hwaccel_binds_created_device]: generic H.264 advertising VAAPI, its
    context just allocated, on the working VAAPI build. *)
Lemma hwaccel_binds_created_device_witness :
  decoder_ctx vaapi_candidate = Some 1%nat /\
  contexts vaapi_candidate !! 1%nat = Some (plain_context h264_vaapi) /\
  exists ok s',
    hwaccel_setup working_vaapi_world h264_vaapi vaapi_candidate = Some (ok, s') /\
    (ok = true ->
     exists config c',
       config ∈ hw_configs h264_vaapi /\
       Z.land (methods config) AV_CODEC_HW_CONFIG_METHOD_HW_DEVICE_CTX <> 0 /\
       device_type config <> AV_HWDEVICE_TYPE_NONE /\
       hw_pix_fmt s' = config_pix_fmt config /\
       hw_device_ctx s' = Some (brk vaapi_candidate) /\
       buffers s' !! brk vaapi_candidate =
         Some {| device := brk vaapi_candidate; device_kind := device_type config |} /\
       contexts s' !! 1%nat = Some c' /\
       get_format c' = get_hw_format_callback /\
       (ctx_hw_device_ctx c' = None \/
        ctx_hw_device_ctx c' = Some (S (brk vaapi_candidate)) /\
        buffers s' !! S (brk vaapi_candidate) =
          Some {| device := brk vaapi_candidate; device_kind := device_type config |})) /\
    (ok = false ->
     last (log s') =
       Some (Print stderr "Decoder %s does not support any of the available hwaccel methods")).
Proof.
  split; [reflexivity|]. split; [vm_compute; reflexivity|].
  apply (hwaccel_binds_created_device working_vaapi_world h264_vaapi vaapi_candidate 1%nat
           (plain_context h264_vaapi));
    [reflexivity | vm_compute; reflexivity].
Defined.
